(** * PyMerge: the reshape-then-bin pipeline of [src/bin/helpers.py]

    A shallow embedding of [melt_activity_data], [bin_data] and
    [melt_then_bin], together with the pandas operations they call, and the
    properties of the pipeline stated in the specification.

    Modelling conventions.
    - A pandas [DataFrame] is column-major: an ordered list of named columns
      over a common number of rows.  Assigning [df[c] = ...] replaces or
      appends a column, exactly as the source does.
    - A cell is a float, a string, a timestamp or missing.  Floats are
      idealised as canonical rationals ([Qc]): rounding is not modelled.
      [NaN], [None] and [NaT] are the single missing cell [VNA].
    - Timestamps are integers, nanoseconds since the epoch, as pandas stores
      [datetime64[ns]]; the bounds of that type are not modelled.
    - Python exceptions are values of [exn]; a function that may raise returns
      a [result].  The two stages assign into their argument, so each returns
      the final state of its argument next to its result.
    - pandas behaves as in its 2.x series: ["H"] is the hour alias and a day
      is a fixed span of 24 hours.  Strings are read as ASCII text. *)

From Stdlib Require Import List String Ascii ZArith QArith Qcanon Bool Lia.
From Stdlib Require Import Permutation Sorted DecimalNat DecimalString OrdersEx.
Import ListNotations.

Local Open Scope string_scope.
Local Open Scope list_scope.
Local Open Scope Z_scope.

(** ** Cells, exceptions, results *)

Inductive value : Type :=
| VNA
| VNum (x : Qc)
| VStr (s : string)
| VTime (t : Z).

Inductive exn : Type :=
| KeyError (label : string)
| ValueError (msg : string)
| TypeError
| MergeError.

Inductive result (A : Type) : Type :=
| OK (a : A)
| Raise (e : exn).

Arguments OK {A} a.
Arguments Raise {A} e.

Definition bind {A B : Type} (m : result A) (k : A -> result B) : result B :=
  match m with
  | OK a => k a
  | Raise e => Raise e
  end.

Notation "x <- m ;; k" := (bind m (fun x => k))
  (at level 61, m at next level, right associativity).

Fixpoint mapM {A B : Type} (f : A -> result B) (l : list A) : result (list B) :=
  match l with
  | [] => OK []
  | a :: l' => b <- f a ;; bs <- mapM f l' ;; OK (b :: bs)
  end.


(** ** Missing cells and equality of cells *)

Definition isna (v : value) : bool :=
  match v with VNA => true | _ => false end.

Definition notna (v : value) : bool := negb (isna v).

Definition value_eq_dec (a b : value) : {a = b} + {a <> b}.
Proof.
  decide equality.
  - apply Qc_eq_dec.
  - apply string_dec.
  - apply Z.eq_dec.
Defined.

Definition value_eqb (a b : value) : bool :=
  if value_eq_dec a b then true else false.

(** ** The order pandas sorts a column by

    Within one type the order is the natural one (numbers by value, strings
    by code point, timestamps by instant).  Missing cells go last
    ([na_position="last"]).  Across types the model puts numbers before
    strings before timestamps. *)

Definition rank (v : value) : Z :=
  match v with
  | VNum _ => 0
  | VStr _ => 1
  | VTime _ => 2
  | VNA => 3
  end.

Definition value_compare (a b : value) : comparison :=
  match a, b with
  | VNum x, VNum y => (x ?= y)%Qc
  | VStr s, VStr t => String.compare s t
  | VTime s, VTime t => Z.compare s t
  | _, _ => Z.compare (rank a) (rank b)
  end.

(** The boolean order of a three-way comparison, and what makes the
    comparison a total order. *)
Definition leb_of {A : Type} (cmp : A -> A -> comparison) (a b : A) : bool :=
  match cmp a b with Gt => false | _ => true end.

Record total_cmp {A : Type} (cmp : A -> A -> comparison) : Prop := {
  cmp_antisym : forall a b, cmp a b = CompOpp (cmp b a);
  cmp_eq : forall a b, cmp a b = Eq -> a = b;
  cmp_lt_trans : forall a b c, cmp a b = Lt -> cmp b c = Lt -> cmp a c = Lt
}.

Definition value_leb : value -> value -> bool := leb_of value_compare.

(** A group key of [groupby([Dataset, Bin])] and a sort key of
    [sort_values(by=[Dataset, Time])]: compared lexicographically. *)
Definition key : Type := (value * value)%type.

Definition key_compare (a b : key) : comparison :=
  match value_compare (fst a) (fst b) with
  | Eq => value_compare (snd a) (snd b)
  | c => c
  end.

Definition key_leb : key -> key -> bool := leb_of key_compare.

Definition key_eq_dec (a b : key) : {a = b} + {a <> b}.
Proof. decide equality; apply value_eq_dec. Defined.

Definition key_eqb (a b : key) : bool :=
  if key_eq_dec a b then true else false.

Definition key_notna (k : key) : bool := notna (fst k) && notna (snd k).

(** ** A stable sort

    pandas sorts several keys with a stable lexicographic sort; the model is a
    stable insertion sort on a boolean order: elements that compare equal
    keep their order. *)

Section Sorting.
Context {A : Type}.
Variable leb : A -> A -> bool.

Fixpoint insert_sorted (x : A) (l : list A) : list A :=
  match l with
  | [] => [x]
  | y :: l' => if leb x y then x :: y :: l' else y :: insert_sorted x l'
  end.

Fixpoint stable_sort (l : list A) : list A :=
  match l with
  | [] => []
  | x :: l' => insert_sorted x (stable_sort l')
  end.
End Sorting.

(** ** Strings: the two regular expressions and substring tests

    A digit is one of the ten ASCII digits. *)

Definition is_digit (c : ascii) : bool :=
  let n := nat_of_ascii c in (48 <=? n)%nat && (n <=? 57)%nat.

Definition digit_val (c : ascii) : Z := Z.of_nat (nat_of_ascii c) - 48.

Fixpoint skip_digits (s : string) : string :=
  match s with
  | String c s' => if is_digit c then skip_digits s' else s
  | EmptyString => s
  end.

Fixpoint take_digits (s : string) : list ascii :=
  match s with
  | String c s' => if is_digit c then c :: take_digits s' else []
  | EmptyString => []
  end.

(** [re.match(r"Act\[\d+]", col)]: the pattern is anchored at the start of the
    name only, so any text may follow the closing bracket. *)
Definition is_act_col (col : string) : bool :=
  match col with
  | String "A" (String "c" (String "t" (String "[" rest))) =>
      match take_digits rest, skip_digits rest with
      | _ :: _, String "]" _ => true
      | _, _ => false
      end
  | _ => false
  end.

(** [re.search(r"(\d+)", interval)]: the leftmost maximal run of digits. *)
Fixpoint first_digits (s : string) : option (list ascii) :=
  match s with
  | EmptyString => None
  | String c s' => if is_digit c then Some (take_digits s) else first_digits s'
  end.

Definition decimal (ds : list ascii) : Z :=
  fold_left (fun acc c => 10 * acc + digit_val c) ds 0.

(** Python's [sub in s]. *)
Fixpoint contains (sub s : string) : bool :=
  if String.prefix sub s then true
  else match s with
       | EmptyString => false
       | String _ s' => contains sub s'
       end.

(** [f"Act[{offset}]"] *)
Definition act_label (offset : nat) : string :=
  ("Act[" ++ NilEmpty.string_of_uint (Nat.to_uint offset) ++ "]")%string.

(** ** Configuration ([src/config.py]) *)

Definition TIME_COLUMN : string := "Time".
Definition DELINEATING_COL : string := "Dataset".

(** One entry of [SELECTED_COLUMNS]: a dict read with [cfg.get], so each of
    its three fields may be absent. *)
Record rule : Type := {
  rule_id : Z;
  rule_name : option string;
  rule_columns : option (list string);
  rule_summarize : option string
}.

Definition SELECTED_COLUMNS : list rule :=
  [ {| rule_id := 1; rule_name := Some "Raw Score";
       rule_columns := Some ["Act"]; rule_summarize := Some "mean" |};
    {| rule_id := 2; rule_name := Some "Percent Score";
       rule_columns := Some ["Act"]; rule_summarize := Some "act_percent" |};
    {| rule_id := 3; rule_name := Some "Temperature";
       rule_columns := Some ["T"]; rule_summarize := Some "mean" |};
    {| rule_id := 4; rule_name := Some "Light";
       rule_columns := Some ["Light"]; rule_summarize := Some "mean" |};
    {| rule_id := 5; rule_name := Some "Battery Voltage";
       rule_columns := Some ["Vbat"]; rule_summarize := Some "mean" |} ].

(** ** Data frames *)

Record DataFrame : Type := {
  nrows : nat;
  columns : list (string * list value)
}.

Definition labels (df : DataFrame) : list string := map fst (columns df).

Fixpoint assoc {B : Type} (c : string) (l : list (string * B)) : option B :=
  match l with
  | [] => None
  | (c', b) :: l' => if String.eqb c c' then Some b else assoc c l'
  end.

(** [df[c]] *)
Definition get_column (df : DataFrame) (c : string) : result (list value) :=
  match assoc c (columns df) with
  | Some vs => OK vs
  | None => Raise (KeyError c)
  end.

Fixpoint assign {B : Type} (c : string) (b : B) (l : list (string * B))
  : list (string * B) :=
  match l with
  | [] => [(c, b)]
  | (c', b') :: l' =>
      if String.eqb c c' then (c, b) :: l' else (c', b') :: assign c b l'
  end.

(** [df[c] = vs]: overwrites the column in place, or appends it. *)
Definition set_column (df : DataFrame) (c : string) (vs : list value)
  : DataFrame :=
  {| nrows := nrows df; columns := assign c vs (columns df) |}.

Definition cell (vs : list value) (i : nat) : value := nth i vs VNA.

(** [row[c]] for the row at position [i], as [iterrows] yields it. *)
Definition row_item (df : DataFrame) (i : nat) (c : string) : result value :=
  vs <- get_column df c ;; OK (cell vs i).

(** [row.get(c, None)] *)
Definition row_get (df : DataFrame) (i : nat) (c : string) : value :=
  match assoc c (columns df) with
  | Some vs => cell vs i
  | None => VNA
  end.

(** [df.rename(columns={old: new})]: every label equal to [old]. *)
Definition rename (old new : string) (df : DataFrame) : DataFrame :=
  {| nrows := nrows df;
     columns := map (fun cv => (if String.eqb (fst cv) old then new
                                else fst cv, snd cv)) (columns df) |}.

(** [df.iloc[idxs]]: the rows at the given positions, in that order. *)
Definition take_rows (idxs : list nat) (df : DataFrame) : DataFrame :=
  {| nrows := List.length idxs;
     columns := map (fun cv => (fst cv, map (cell (snd cv)) idxs)) (columns df) |}.

Definition row_positions (df : DataFrame) : list nat := seq 0 (nrows df).

(** [df.dropna(subset=[c])] *)
Definition dropna (c : string) (df : DataFrame) : result DataFrame :=
  vs <- get_column df c ;;
  OK (take_rows (filter (fun i => notna (cell vs i)) (row_positions df)) df).

(** [df.sort_values(by=[c1, c2])] *)
Definition sort_values (c1 c2 : string) (df : DataFrame) : result DataFrame :=
  k1 <- get_column df c1 ;;
  k2 <- get_column df c2 ;;
  OK (take_rows
        (stable_sort (fun i j => key_leb (cell k1 i, cell k2 i)
                                         (cell k1 j, cell k2 j))
                     (row_positions df)) df).

(** [df.groupby(c)]: the distinct non-missing keys in ascending order, each
    with the positions of its rows in row order. *)
Definition groupby (df : DataFrame) (c : string)
  : result (list (value * list nat)) :=
  ks <- get_column df c ;;
  OK (map (fun k => (k, filter (fun i => value_eqb (cell ks i) k)
                               (row_positions df)))
          (stable_sort value_leb
             (nodup value_eq_dec
                (filter notna (map (cell ks) (row_positions df)))))).

(** [df.groupby([c1, c2])] *)
Definition groupby2 (df : DataFrame) (c1 c2 : string)
  : result (list (key * list nat)) :=
  k1 <- get_column df c1 ;;
  k2 <- get_column df c2 ;;
  let keys := map (fun i => (cell k1 i, cell k2 i)) (row_positions df) in
  OK (map (fun k => (k, filter (fun i => key_eqb (cell k1 i, cell k2 i) k)
                               (row_positions df)))
          (stable_sort key_leb (nodup key_eq_dec (filter key_notna keys)))).

(** ** Time *)

Definition minute_ns : Z := 60000000000.
Definition hour_ns : Z := 60 * minute_ns.
Definition day_ns : Z := 24 * hour_ns.

(** A column of dtype [datetime64]: every cell is an instant or [NaT]. *)
Definition as_time (v : value) : value :=
  match v with VTime t => VTime t | _ => VNA end.

(** [base_time - pd.Timedelta(minutes=offset)] *)
Definition minus_minutes (base_time : value) (offset : nat) : value :=
  match base_time with
  | VTime t => VTime (t - Z.of_nat offset * minute_ns)
  | _ => VNA
  end.

Inductive freq_unit : Type := UDay | UHour | UMin.

Definition unit_ns (u : freq_unit) : Z :=
  match u with UDay => day_ns | UHour => hour_ns | UMin => minute_ns end.

(** Flooring to a multiple of [width] nanoseconds counted from the epoch.
    At width zero pandas' array rounding returns the instants unchanged. *)
Definition floor_ns (width t : Z) : Z :=
  if width =? 0 then t else t - t mod width.

(** [Series.dt.floor], on one cell. *)
Definition dt_floor (width : Z) (v : value) : value :=
  match v with VTime t => VTime (floor_ns width t) | _ => VNA end.

(** ** The long rows built by the reshaper *)

(** One [new_row] dict of [melt_activity_data]; its six keys are fixed. *)
Record long_row : Type := {
  lr_Dataset : value;
  lr_Time : value;
  lr_Act : value;
  lr_T : value;
  lr_Light : value;
  lr_Vbat : value
}.

(** The frame of six columns holding the given long rows. *)
Definition long_frame (rows : list long_row) : DataFrame :=
  {| nrows := List.length rows;
     columns := [ (DELINEATING_COL, map lr_Dataset rows);
                  ("Time", map lr_Time rows);
                  ("Act", map lr_Act rows);
                  ("T", map lr_T rows);
                  ("Light", map lr_Light rows);
                  ("Vbat", map lr_Vbat rows) ] |}.

(** [pd.DataFrame(melted_rows)]: the columns are the keys of the dicts, so a
    frame built from no dict at all has no column. *)
Definition DataFrame_of_rows (rows : list long_row) : DataFrame :=
  match rows with
  | [] => {| nrows := 0; columns := [] |}
  | _ => long_frame rows
  end.

(** The row every cell of which is missing. *)
Definition na_row : long_row :=
  {| lr_Dataset := VNA; lr_Time := VNA; lr_Act := VNA;
     lr_T := VNA; lr_Light := VNA; lr_Vbat := VNA |}.

(** The long row derived from slot [offset] of the wide record at position
    [i], whose device is [device_id] and whose timestamps are [base_times]. *)
Definition derived_row (df : DataFrame) (base_times : list value)
    (device_id : value) (i offset : nat) : long_row :=
  {| lr_Dataset := device_id;
     lr_Time := minus_minutes (cell base_times i) offset;
     lr_Act := row_get df i (act_label offset);
     lr_T := row_get df i "T";
     lr_Light := row_get df i "Light";
     lr_Vbat := row_get df i "Vbat" |}.

(** The order of [sort_values(by=[DELINEATING_COL, "Time"])] on long rows. *)
Definition row_key (r : long_row) : key := (lr_Dataset r, lr_Time r).

Definition row_leb (r1 r2 : long_row) : bool :=
  key_leb (row_key r1) (row_key r2).

(** ** numpy reducers on a non-empty array of floats *)

Definition Qc_of_Z (z : Z) : Qc := Q2Qc (inject_Z z).

Definition Qc_max (x y : Qc) : Qc :=
  match (x ?= y)%Qc with Lt => y | _ => x end.

Definition Qc_min (x y : Qc) : Qc :=
  match (x ?= y)%Qc with Gt => y | _ => x end.

Definition np_sum (vals : list Qc) : Qc := fold_left Qcplus vals (Qc_of_Z 0).

Definition np_max (x : Qc) (rest : list Qc) : Qc := fold_left Qc_max rest x.

Definition np_min (x : Qc) (rest : list Qc) : Qc := fold_left Qc_min rest x.

Definition np_mean (vals : list Qc) : Qc :=
  (np_sum vals / Qc_of_Z (Z.of_nat (List.length vals)))%Qc.

(** [np.isnan] accepts floats only: on any other cell numpy raises. *)
Definition as_float (v : value) : result (option Qc) :=
  match v with
  | VNum x => OK (Some x)
  | VNA => OK None
  | _ => Raise TypeError
  end.

(** [vals[~np.isnan(vals)]] *)
Definition drop_nan (vals : list value) : result (list Qc) :=
  xs <- mapM as_float vals ;;
  OK (flat_map (fun o => match o with Some x => [x] | None => [] end) xs).

(** [subdf[cols].to_numpy().ravel()] for the sub-frame of the rows at
    [idxs]: row by row, and within a row in the order of [cols]. *)
Definition ravel (df : DataFrame) (cols : list string) (idxs : list nat)
  : result (list value) :=
  cs <- mapM (get_column df) cols ;;
  OK (flat_map (fun i => map (fun vs => cell vs i) cs) idxs).

(** The closure [agg_func] of [bin_data], applied to the rows of one group. *)
Definition agg_func (cols : list string) (agg : string)
    (df : DataFrame) (idxs : list nat) : result value :=
  vals <- ravel df cols idxs ;;
  vals <- drop_nan vals ;;
  match vals with
  | [] => OK VNA
  | x :: rest =>
      if String.eqb agg "sum" then OK (VNum (np_sum vals))
      else if String.eqb agg "max" then OK (VNum (np_max x rest))
      else if String.eqb agg "min" then OK (VNum (np_min x rest))
      else if String.eqb agg "act_percent"
           then OK (VNum (np_mean vals * Qc_of_Z 50 + Qc_of_Z 50)%Qc)
      else OK (VNum (np_mean vals))
  end.

(** ** Summaries and their join *)

(** [summary_df]: the key columns and one value column named [s_name]. *)
Record summary_df : Type := {
  s_name : string;
  s_rows : list (key * value)
}.

(** The running join [out]: the key columns and the value columns so far. *)
Record joined : Type := {
  j_names : list string;
  j_rows : list (key * list value)
}.

Definition joined_of_summary (s : summary_df) : joined :=
  {| j_names := [s_name s];
     j_rows := map (fun kv => (fst kv, [snd kv])) (s_rows s) |}.

Definition is_key_label (c : string) : bool :=
  String.eqb c DELINEATING_COL || String.eqb c "Bin".

(** [Index.duplicated()]: marks every occurrence but the first. *)
Fixpoint duplicated_from (seen l : list string) : list bool :=
  match l with
  | [] => []
  | c :: l' => existsb (String.eqb c) seen :: duplicated_from (c :: seen) l'
  end.

Definition duplicated (l : list string) : list bool := duplicated_from [] l.

(** [out.merge(summary_df, on=[DELINEATING_COL, "Bin"], how="left")].
    - A key label that also names a value column is not unique: pandas
      raises [ValueError].
    - A value column of the left frame named like the right one gets the
      suffix [_x] and the right one [_y]; if the suffix makes two left labels
      equal that were not equal before, pandas raises [MergeError].
    - Every left row is kept, once per right row of the same key, and once
      with a missing value if there is none. *)
Definition merge_labels (left : list string) (right : string)
  : result (list string) :=
  if existsb is_key_label (right :: left)
  then Raise (ValueError "The column label is not unique.")
  else
    let overlap := existsb (String.eqb right) left in
    let llabels :=
      if overlap
      then map (fun c => if String.eqb c right then (c ++ "_x")%string else c)
               left
      else left in
    let rlabel := if overlap then (right ++ "_y")%string else right in
    if existsb (fun p => fst p && negb (snd p))
               (combine (duplicated llabels) (duplicated left))
    then Raise MergeError
    else OK (llabels ++ [rlabel]).

Definition merge_rows (left : list (key * list value))
    (right : list (key * value)) : list (key * list value) :=
  flat_map
    (fun kvs =>
       match filter (fun kv => key_eqb (fst kv) (fst kvs)) right with
       | [] => [(fst kvs, snd kvs ++ [VNA])]
       | ms => map (fun kv => (fst kvs, snd kvs ++ [snd kv])) ms
       end)
    left.

Definition merge_left (out : joined) (s : summary_df) : result joined :=
  names <- merge_labels (j_names out) (s_name s) ;;
  OK {| j_names := names; j_rows := merge_rows (j_rows out) (s_rows s) |}.

Fixpoint merge_all (out : joined) (rest : list summary_df) : result joined :=
  match rest with
  | [] => OK out
  | s :: rest' => out' <- merge_left out s ;; merge_all out' rest'
  end.

Definition DataFrame_of_joined (j : joined) : DataFrame :=
  {| nrows := List.length (j_rows j);
     columns :=
       (DELINEATING_COL, map (fun r => fst (fst r)) (j_rows j))
       :: ("Bin", map (fun r => snd (fst r)) (j_rows j))
       :: map (fun nc => (snd nc, map (fun r => nth (fst nc) (snd r) VNA)
                                      (j_rows j)))
              (combine (seq 0 (List.length (j_names j))) (j_names j)) |}.

(** [int(float(match.group(1)))]: the conversion through a float is exact on
    every magnitude pandas accepts as a frequency. *)
Definition interval_magnitude (interval : string) : option Z :=
  option_map decimal (first_digits interval).

Definition interval_unit (interval : string) : freq_unit :=
  if contains "day" interval then UDay
  else if contains "hour" interval then UHour
  else UMin.

(** [f"Bin_{idx}"] *)
Definition default_name (idx : Z) : string :=
  ("Bin_" ++ NilZero.string_of_int (Z.to_int idx))%string.

Definition name_of (cfg : rule) : string :=
  match rule_name cfg with Some n => n | None => default_name (rule_id cfg) end.

Definition columns_of (cfg : rule) : list string :=
  match rule_columns cfg with Some cs => cs | None => [] end.

Definition summarize_of (cfg : rule) : string :=
  match rule_summarize cfg with Some a => a | None => "mean" end.

(** The error [bin_data] raises on an interval without any digit. *)
Definition interval_error : exn := ValueError "Invalid interval format".

(** ** The two stages *)

Section Pipeline.

(** [pd.to_datetime(column, errors="coerce", utc=True).dt.tz_convert(None)]
    on a whole column.  Parsing of strings and numbers is pandas' own and is
    left open; the result has dtype [datetime64]. *)
Variable to_datetime : list value -> list value.

Definition coerce_time (vs : list value) : list value :=
  map as_time (to_datetime vs).

(** The global aggregation schedule imported from [config]. *)
Variable SELECTED_COLUMNS : list rule.

(** The body of [for offset in range(len(act_cols))] for one row. *)
Definition new_rows (df : DataFrame) (act_cols : list string)
    (device_id : value) (i : nat) : result (list long_row) :=
  base_time <- row_item df i TIME_COLUMN ;;
  mapM (fun offset =>
          act <- row_item df i (act_label offset) ;;
          OK {| lr_Dataset := device_id;
                lr_Time := minus_minutes base_time offset;
                lr_Act := act;
                lr_T := row_get df i "T";
                lr_Light := row_get df i "Light";
                lr_Vbat := row_get df i "Vbat" |})
       (seq 0 (List.length act_cols)).

(** The loop over the device groups and their rows. *)
Definition melted_rows (df : DataFrame) (act_cols : list string)
  : result (list long_row) :=
  groups <- groupby df DELINEATING_COL ;;
  per_group <-
    mapM (fun g =>
            per_row <- mapM (new_rows df act_cols (fst g)) (snd g) ;;
            OK (List.concat per_row))
         groups ;;
  OK (List.concat per_group).

(** [melt_activity_data(df, status_callback)].  The first component is the
    argument [df] as the call leaves it.  The status callback does not touch
    the tables and is left out. *)
Definition melt_activity_data (df : DataFrame) : DataFrame * result DataFrame :=
  let act_cols := filter is_act_col (labels df) in
  match get_column df TIME_COLUMN with
  | Raise e => (df, Raise e)
  | OK ts =>
      let df := set_column df TIME_COLUMN (coerce_time ts) in
      (df,
       rows <- melted_rows df act_cols ;;
       let melted_df := DataFrame_of_rows rows in
       melted_df <- dropna "Act" melted_df ;;
       sort_values DELINEATING_COL "Time" melted_df)
  end.

(** One iteration of the loop over [SELECTED_COLUMNS.items()].  On a frame
    without any group pandas' [apply] builds its empty result differently;
    the model returns the summary without rows. *)
Definition summarize (df : DataFrame) (cfg : rule) : result summary_df :=
  let name := name_of cfg in
  let cols := columns_of cfg in
  let agg := summarize_of cfg in
  groups <- groupby2 df DELINEATING_COL "Bin" ;;
  vals <- mapM (fun g => agg_func cols agg df (snd g)) groups ;;
  OK {| s_name := name; s_rows := combine (map fst groups) vals |}.

(** [bin_data(df, interval, status_callback)]; the first component is the
    argument [df] as the call leaves it. *)
Definition bin_data (df : DataFrame) (interval : string)
  : DataFrame * result DataFrame :=
  match interval_magnitude interval with
  | None => (df, Raise interval_error)
  | Some duration_value =>
      match get_column df TIME_COLUMN with
      | Raise e => (df, Raise e)
      | OK ts =>
          let df := set_column df TIME_COLUMN (coerce_time ts) in
          let width := duration_value * unit_ns (interval_unit interval) in
          let df := set_column df "Bin"
                      (map (dt_floor width) (coerce_time ts)) in
          (df,
           summary <- mapM (summarize df) SELECTED_COLUMNS ;;
           out <- match summary with
                  | [] => OK df
                  | s0 :: rest =>
                      j <- merge_all (joined_of_summary s0) rest ;;
                      OK (DataFrame_of_joined j)
                  end ;;
           OK (rename "Bin" "Time" out))
      end
  end.

(** [melt_then_bin(df, interval)] *)
Definition melt_then_bin (df : DataFrame) (interval : string)
  : DataFrame * result DataFrame :=
  match melt_activity_data df with
  | (df', Raise e) => (df', Raise e)
  | (df', OK melted) => (df', snd (bin_data melted interval))
  end.

End Pipeline.

(** ** Notions used to state the properties *)

(** What the reshaper is to derive from a wide table, in the order of its
    records: for every record with a device, one long row per slot. *)
Definition expanded (df : DataFrame) (base_times devs : list value) (K : nat)
  : list long_row :=
  flat_map (fun i => map (derived_row df base_times (cell devs i) i) (seq 0 K))
           (filter (fun i => notna (cell devs i)) (row_positions df)).

(** The values a group contributes to a rule: the cells of the rule's columns
    in the rows of the group, missing ones discarded. *)
Definition contributing (df : DataFrame) (cols : list string) (idxs : list nat)
  : result (list Qc) :=
  vals <- ravel df cols idxs ;; drop_nan vals.

(** The rows of a table given by its key column and its value columns. *)
Fixpoint zip_rows (ks : list key) (cols : list (list value))
  : list (key * list value) :=
  match ks with
  | [] => []
  | k :: ks' =>
      (k, map (fun c => hd VNA c) cols) :: zip_rows ks' (map (@tl value) cols)
  end.

(** The labels of the value columns that the successive merges of
    [bin_data] produce, and those labels after the final renaming. *)
Fixpoint merge_all_labels (left : list string) (rest : list string)
  : result (list string) :=
  match rest with
  | [] => OK left
  | name :: rest' =>
      left' <- merge_labels left name ;; merge_all_labels left' rest'
  end.

Definition output_labels (schedule : list rule) : result (list string) :=
  match map name_of schedule with
  | [] => OK []
  | name0 :: rest =>
      names <- merge_all_labels [name0] rest ;;
      OK (map (fun c => if String.eqb c "Bin" then "Time" else c) names)
  end.

(** The table of a result, and the empty table for an exception. *)
Definition table_of (r : result DataFrame) : DataFrame :=
  match r with
  | OK out => out
  | Raise _ => {| nrows := 0; columns := [] |}
  end.

(** ** Sample tables *)

(** An instance of [to_datetime] that recognises no text format: instants are
    kept, every other cell is coerced to [NaT]. *)
Definition to_datetime_strict (vs : list value) : list value := map as_time vs.

Definition at_minute (m : Z) : value := VTime (m * minute_ns).
Definition num (z : Z) : value := VNum (Qc_of_Z z).

(** Three wide records of two devices with two activity slots each; the last
    timestamp is not a date. *)
Definition wide_sample : DataFrame :=
  {| nrows := 3;
     columns :=
       [ ("Dataset", [VStr "b"; VStr "a"; VStr "b"]);
         ("Time", [at_minute 600; at_minute 607; VStr "not a date"]);
         ("Act[0]", [num 1; num 2; num 3]);
         ("Act[1]", [num 4; VNA; num 6]);
         ("T", [num 20; num 21; num 22]) ] |}.

(** A long table: device [a] at 10:07 and 10:15, device [b] at 10:07 with no
    activity value. *)
Definition long_sample : DataFrame :=
  {| nrows := 3;
     columns :=
       [ ("Dataset", [VStr "a"; VStr "a"; VStr "b"]);
         ("Time", [at_minute 607; at_minute 615; at_minute 607]);
         ("Act", [num 1; num 3; VNA]);
         ("T", [num 20; num 21; num 22]);
         ("Light", [num 5; VNA; num 7]);
         ("Vbat", [num 3; num 3; num 3]) ] |}.

(** A schedule with one [sum] rule over the activity column. *)
Definition sum_schedule : list rule :=
  [ {| rule_id := 1; rule_name := Some "Total";
       rule_columns := Some ["Act"]; rule_summarize := Some "sum" |} ].

(** [long_sample] as a run of [bin_data] at 15 minutes leaves it. *)
Definition long_binned : DataFrame :=
  fst (bin_data to_datetime_strict sum_schedule long_sample "15 minutes").

(** Two rules that share the output name [X]. *)
Definition rule_X_act : rule :=
  {| rule_id := 1; rule_name := Some "X";
     rule_columns := Some ["Act"]; rule_summarize := Some "mean" |}.

Definition rule_X_temp : rule :=
  {| rule_id := 2; rule_name := Some "X";
     rule_columns := Some ["T"]; rule_summarize := Some "mean" |}.

(** [long_sample] binned at 15 minutes under the configured schedule. *)
Definition binned_sample : DataFrame :=
  table_of (snd (bin_data to_datetime_strict SELECTED_COLUMNS long_sample
                   "15 minutes")).


(** A table whose timestamps are already floored to 15 minutes, with one row
    per device and bin, and its binning at 15 minutes. *)
Definition floored_sample : DataFrame :=
  {| nrows := 3;
     columns :=
       [ ("Dataset", [VStr "a"; VStr "a"; VStr "b"]);
         ("Time", [at_minute 600; at_minute 615; at_minute 600]);
         ("Act", [num 1; num 3; VNA]);
         ("T", [num 20; num 21; num 22]);
         ("Light", [num 5; VNA; num 7]);
         ("Vbat", [num 3; num 3; num 3]) ] |}.

Definition rebinned_sample : DataFrame :=
  table_of (snd (bin_data to_datetime_strict SELECTED_COLUMNS floored_sample
                   "15 minutes")).




(** * Further notions: the rest of the pipeline and its callers *)

(** The cell [act_percent] gives where [mean] gives [v]. *)
Definition percent_cell (v : value) : value :=
  match v with
  | VNum x => VNum (x * Qc_of_Z 50 + Qc_of_Z 50)%Qc
  | _ => VNA
  end.

(** [to_datetime] returns a column that already holds instants (or [NaT])
    as it is: pandas converts a naive [datetime64] column to UTC and back. *)
Definition keeps_datetimes (to_datetime : list value -> list value) : Prop :=
  forall vs, Forall (fun v => as_time v = v) vs -> to_datetime vs = vs.

(** [wide_sample] reshaped. *)
Definition melted_sample : DataFrame :=
  table_of (snd (melt_activity_data to_datetime_strict wide_sample)).

(** A wide table with every column of the reference schema for K = 2, and
    what [melt_then_bin] makes of it at 15 minutes. *)
Definition wide_full : DataFrame :=
  {| nrows := 3;
     columns :=
       [ ("Dataset", [VStr "b"; VStr "a"; VStr "b"]);
         ("Time", [at_minute 600; at_minute 607; at_minute 616]);
         ("Act[0]", [num 1; num 2; num 3]);
         ("Act[1]", [num 4; VNA; num 6]);
         ("T", [num 20; num 21; num 22]);
         ("Light", [num 5; num 6; num 7]);
         ("Vbat", [num 3; num 3; num 3]) ] |}.

Definition pipeline_sample : DataFrame :=
  table_of (snd (melt_then_bin to_datetime_strict SELECTED_COLUMNS wide_full
                   "15 minutes")).

(** ** The binning panel ([src/bin/user_interface.py])

    The unit the three radio buttons select in [_bin_start]. *)
Definition unit_text (rb_min rb_hr : bool) : string :=
  if rb_min then "minutes" else if rb_hr then "hours" else "days".

(** [f"{self.bin_val.value()} {unit}"]; the spin box holds an integer of
    its range [1, 1000]. *)
Definition panel_interval (value : nat) (rb_min rb_hr : bool) : string :=
  (NilEmpty.string_of_uint (Nat.to_uint value) ++ " "
     ++ unit_text rb_min rb_hr)%string.

(** [s.replace(old, new)] for one-character [old] and [new]. *)
Fixpoint replace_char (old new : ascii) (s : string) : string :=
  match s with
  | EmptyString => EmptyString
  | String c s' =>
      String (if Ascii.eqb c old then new else c) (replace_char old new s')
  end.

(** [f"binned_{interval.replace(' ', '_')}.csv"] in [_bin_done]. *)
Definition file_name (interval : string) : string :=
  ("binned_" ++ replace_char " " "_" interval ++ ".csv")%string.

(** ** The binning worker ([src/bin/workers.py])

    [(hour % 12) + (12 if pm else 0)] *)
Definition to_24h (hour : Z) (pm : bool) : Z :=
  hour mod 12 + (if pm then 12 else 0).

(** One bound of the panel: the date editor's day, given by the instant its
    midnight falls on, the time editor's hour and minute, and the PM
    button. *)
Record bound : Type := {
  b_midnight : Z;
  b_hour : Z;
  b_minute : Z;
  b_pm : bool
}.

(** [dt.datetime(year, month, day, hour, minute)] with the converted hour,
    as the instant pandas compares the column with. *)
Definition bound_dt (b : bound) : Z :=
  b_midnight b + to_24h (b_hour b) (b_pm b) * hour_ns
  + b_minute b * minute_ns.

(** [(t >= start_dt) & (t <= end_dt)] on one cell of a [datetime64]
    column; [NaT] compares false. *)
Definition in_range (start_dt end_dt : Z) (v : value) : bool :=
  match v with
  | VTime t => (start_dt <=? t) && (t <=? end_dt)
  | _ => false
  end.

(** [df.loc[(df[TIME_COLUMN] >= start_dt) & (df[TIME_COLUMN] <= end_dt)]] *)
Definition trim (start_dt end_dt : Z) (df : DataFrame) : result DataFrame :=
  ts <- get_column df TIME_COLUMN ;;
  OK (take_rows (filter (fun i => in_range start_dt end_dt (cell ts i))
                        (row_positions df))
                df).

(** [BinningWorker.run] on the table [read_csv] returned; the result is
    what [finished] emits, an exception is what [errored] reports. *)
Definition run (to_datetime : list value -> list value)
    (SELECTED_COLUMNS : list rule) (df : DataFrame) (interval : string)
    (already_trimmed : bool) (start_b end_b : bound) : result DataFrame :=
  ts <- get_column df TIME_COLUMN ;;
  let df := set_column df TIME_COLUMN (coerce_time to_datetime ts) in
  df <- (if already_trimmed then OK df
         else trim (bound_dt start_b) (bound_dt end_b) df) ;;
  snd (melt_then_bin to_datetime SELECTED_COLUMNS df interval).

(** A table in the worker's hands and a pair of bounds. *)
Definition morning : bound :=
  {| b_midnight := 0; b_hour := 10; b_minute := 5; b_pm := false |}.

Definition late_morning : bound :=
  {| b_midnight := 0; b_hour := 10; b_minute := 10; b_pm := false |}.

Definition worker_sample : DataFrame :=
  table_of (run to_datetime_strict SELECTED_COLUMNS wide_full "15 minutes"
              false morning late_morning).

(** ** Merging the device folders ([src/merge/helpers.py])

    What an entry of the master folder is: a file, or a directory with its
    entries in the order the system lists them, each given by what
    [read_csv] makes of it: a table, or [None] when it raises (a folder, a
    file that is no table).  Names are taken free of the characters [glob]
    reads as a pattern. *)
Inductive entry : Type :=
| File
| Dir (children : list (string * option DataFrame)).

Definition is_dir (e : entry) : bool :=
  match e with Dir _ => true | File => false end.

Definition children_of (e : entry) : list (string * option DataFrame) :=
  match e with Dir children => children | File => [] end.

(** The pattern [*] of [glob] does not match a name that starts with a
    dot. *)
Definition hidden (name : string) : bool :=
  match name with String "." _ => true | _ => false end.

(** The loop [for fp in glob.glob(os.path.join(path, "*"))]: the tables of
    the entries [read_csv] can read; every failure is caught. *)
Definition read_all (children : list (string * option DataFrame))
  : list DataFrame :=
  flat_map (fun ne =>
              if hidden (fst ne) then []
              else match snd ne with
                   | Some df => [df]
                   | None => []
                   end)
           children.

(** The labels of the frames in the order they first appear. *)
Fixpoint union_into (acc l : list string) : list string :=
  match l with
  | [] => acc
  | x :: l' =>
      union_into (if existsb (String.eqb x) acc then acc else acc ++ [x]) l'
  end.

Definition union_labels (dfs : list DataFrame) : list string :=
  union_into [] (List.concat (map labels dfs)).

Definition column_or_nan (df : DataFrame) (c : string) : list value :=
  match assoc c (columns df) with
  | Some vs => vs
  | None => repeat VNA (nrows df)
  end.

(** [pd.concat(dfs, ignore_index=True)] on a list that is not empty, of
    frames with pairwise distinct labels each, as [read_csv] returns them:
    the rows stacked, a column a frame lacks filled with NaN. *)
Definition concat_frames (dfs : list DataFrame) : DataFrame :=
  {| nrows := list_sum (map nrows dfs);
     columns := map (fun c => (c, flat_map (fun df => column_or_nan df c) dfs))
                    (union_labels dfs) |}.

(** [df[cols]] for a list [cols] of labels of [df]. *)
Definition select (cols : list string) (df : DataFrame) : DataFrame :=
  {| nrows := nrows df;
     columns := map (fun c => (c, column_or_nan df c)) cols |}.

(** The inner function [process(sub, index)], on the directory
    [os.path.join(folder, sub)]. *)
Definition process (sub : string) (dir : entry) : option DataFrame :=
  match read_all (children_of dir) with
  | [] => None
  | dfs =>
      let df := concat_frames dfs in
      let df := set_column df "Dataset" (repeat (VStr sub) (nrows df)) in
      let cols := "Dataset"
                  :: filter (fun c => negb (String.eqb c "Dataset"))
                            (labels df) in
      Some (select cols df)
  end.

Inductive merge_outcome : Type :=
| Raised (msg : string)
| Returned (merged : option DataFrame).

Definition subdirs_of (entries : list (string * entry))
  : list (string * entry) :=
  filter (fun ne => is_dir (snd ne) && negb (String.eqb (fst ne) "exports"))
         entries.

(** [run_merge_script(folder)]; [target] is the listing of the directory
    the path [folder] names, if it names one.  The only exception raised
    is the [FileNotFoundError]. *)
Definition run_merge_script (folder : string)
    (target : option (list (string * entry))) : merge_outcome :=
  match target with
  | Some entries =>
      match subdirs_of entries with
      | [] => Returned None
      | subdirs =>
          let parts :=
            flat_map (fun ne => match process (fst ne) (snd ne) with
                                | Some dfr => [dfr]
                                | None => []
                                end)
                     subdirs in
          Returned (match parts with
                    | [] => None
                    | _ => Some (concat_frames parts)
                    end)
      end
  | None => Raised ("Folder not found: " ++ folder)
  end.



(** A master folder: two device folders, an earlier export and a loose
    file. *)
Definition device_file (t : Z) : DataFrame :=
  {| nrows := 1;
     columns := [("Time", [at_minute t]); ("Act[0]", [num 1])] |}.

Definition folder_m1 : string * entry :=
  ("m1", Dir [("a.csv", Some (device_file 600));
               ("b.csv", None);
               (".cache", Some (device_file 601))]).

Definition folder_exports : string * entry :=
  ("exports", Dir [("merged_data.csv", Some (device_file 602))]).

Definition loose_file : string * entry :=
  ("notes.txt", File).

Definition folder_m2 : string * entry :=
  ("m2", Dir [("a.csv", Some (device_file 604))]).

Definition master_sample : list (string * entry) :=
  [folder_m1; folder_exports; loose_file; folder_m2].

(** ** Plots ([src/graph/helpers.py])

    A column after [pd.to_numeric(.., errors='coerce')] holds numbers and
    NaN.  [present] lists its numbers, which is what [Series.min] and
    [Series.max] look at; both are NaN on a column without any number. *)
Definition present (vs : list value) : list Qc :=
  flat_map (fun v => match v with VNum x => [x] | _ => [] end) vs.




(** [safe = lambda s: s.replace(" ", "_").replace("/", "_")] *)
Definition safe (s : string) : string :=
  replace_char "/" "_" (replace_char " " "_" s).

(** ["_".join(parts)] *)
Fixpoint join_underscore (parts : list string) : string :=
  match parts with
  | [] => EmptyString
  | [p] => p
  | p :: rest => (p ++ "_" ++ join_underscore rest)%string
  end.

(** [fig._filename] of [sing_sub_plot]:
    [f"{safe(title_text)}_{safe(x_axis)}_{y_part}.html"] *)
Definition sing_filename (title_text x_axis : string) (y_axes : list string)
  : string :=
  (safe title_text ++ "_" ++ safe x_axis ++ "_"
     ++ join_underscore (map safe y_axes) ++ ".html")%string.

(** [fig._filename] of [mult_sub_plot]:
    [f"{safe(column)}_across_{safe('_'.join(selected_ds))}.html"] *)
Definition mult_filename (column : string) (selected_ds : list string)
  : string :=
  (safe column ++ "_across_" ++ safe (join_underscore selected_ds)
     ++ ".html")%string.

(** [long_sample] binned at 15 minutes under [sum_schedule]. *)
Definition long_totals : DataFrame :=
  table_of (snd (bin_data to_datetime_strict sum_schedule long_sample
                   "15 minutes")).

(** * Properties *)

(** ** Total orders given by a three-way comparison *)

Lemma cmp_refl {A} (cmp : A -> A -> comparison) (T : total_cmp cmp) a :
  cmp a a = Eq.
Proof.
  pose proof (cmp_antisym cmp T a a) as H.
  destruct (cmp a a); simpl in H; congruence.
Qed.

Lemma leb_of_total {A} (cmp : A -> A -> comparison) (T : total_cmp cmp) a b :
  leb_of cmp a b = true \/ leb_of cmp b a = true.
Proof.
  unfold leb_of. rewrite (cmp_antisym cmp T a b).
  destruct (cmp b a); simpl; auto.
Qed.

Lemma leb_of_false {A} (cmp : A -> A -> comparison) (T : total_cmp cmp) a b :
  leb_of cmp a b = false -> cmp b a = Lt.
Proof.
  unfold leb_of. rewrite (cmp_antisym cmp T a b).
  destruct (cmp b a); simpl; congruence.
Qed.

Lemma leb_of_trans {A} (cmp : A -> A -> comparison) (T : total_cmp cmp) a b c :
  leb_of cmp a b = true -> leb_of cmp b c = true -> leb_of cmp a c = true.
Proof.
  unfold leb_of. intros H1 H2.
  destruct (cmp a b) eqn:E1; try discriminate;
    destruct (cmp b c) eqn:E2; try discriminate.
  - apply (cmp_eq cmp T) in E1. subst. now rewrite E2.
  - apply (cmp_eq cmp T) in E1. subst. now rewrite E2.
  - apply (cmp_eq cmp T) in E2. subst. now rewrite E1.
  - now rewrite (cmp_lt_trans cmp T a b c E1 E2).
Qed.

Lemma Z_total_cmp : total_cmp Z.compare.
Proof.
  constructor.
  - intros. apply Z.compare_antisym.
  - intros a b. apply Z.compare_eq.
  - intros a b c. rewrite !Z.compare_lt_iff. lia.
Qed.

Lemma Qc_total_cmp : total_cmp Qccompare.
Proof.
  constructor.
  - intros a b. unfold Qccompare. symmetry. apply Qcompare_antisym.
  - intros a b H. now apply Qceq_alt.
  - intros a b c H1 H2. apply Qclt_alt. apply Qclt_alt in H1, H2.
    eapply Qclt_trans; eauto.
Qed.

Lemma string_total_cmp : total_cmp String.compare.
Proof.
  constructor.
  - apply String.compare_antisym.
  - apply String.compare_eq_iff.
  - intros a b c H1 H2.
    assert (L1 : String_as_OT.lt a b).
    { pose proof (String_as_OT.compare_spec a b) as S.
      change (String_as_OT.compare a b) with (String.compare a b) in S.
      rewrite H1 in S. now inversion S. }
    assert (L2 : String_as_OT.lt b c).
    { pose proof (String_as_OT.compare_spec b c) as S.
      change (String_as_OT.compare b c) with (String.compare b c) in S.
      rewrite H2 in S. now inversion S. }
    pose proof (StrictOrder_Transitive a b c L1 L2) as L.
    pose proof (String_as_OT.compare_spec a c) as S.
    change (String_as_OT.compare a c) with (String.compare a c) in S.
    destruct (String.compare a c); auto; inversion S as [E|E|E].
    + unfold String_as_OT.eq in E. subst c.
      exfalso. apply (StrictOrder_Irreflexive a). exact L.
    + exfalso. apply (StrictOrder_Irreflexive a).
      exact (StrictOrder_Transitive a c a L E).
Qed.

Lemma value_total_cmp : total_cmp value_compare.
Proof.
  constructor.
  - intros [|x|s|t] [|y|u|v]; simpl; try reflexivity.
    + apply (cmp_antisym _ Qc_total_cmp).
    + apply (cmp_antisym _ string_total_cmp).
    + apply (cmp_antisym _ Z_total_cmp).
  - intros [|x|s|t] [|y|u|v]; simpl; try discriminate; intros H.
    + reflexivity.
    + f_equal. now apply (cmp_eq _ Qc_total_cmp).
    + f_equal. now apply (cmp_eq _ string_total_cmp).
    + f_equal. now apply (cmp_eq _ Z_total_cmp).
  - intros [|x|s|t] [|y|u|v] [|z|w|r]; simpl; try discriminate; try reflexivity.
    + apply (cmp_lt_trans _ Qc_total_cmp).
    + apply (cmp_lt_trans _ string_total_cmp).
    + apply (cmp_lt_trans _ Z_total_cmp).
Qed.

Lemma key_total_cmp : total_cmp key_compare.
Proof.
  pose proof value_total_cmp as T.
  constructor.
  - intros [a1 a2] [b1 b2]. unfold key_compare. simpl.
    rewrite (cmp_antisym _ T a1 b1).
    destruct (value_compare b1 a1); simpl; auto.
    apply (cmp_antisym _ T).
  - intros [a1 a2] [b1 b2]. unfold key_compare. simpl.
    destruct (value_compare a1 b1) eqn:E; try discriminate.
    intros H. apply (cmp_eq _ T) in E, H. congruence.
  - intros [a1 a2] [b1 b2] [c1 c2]. unfold key_compare. simpl.
    destruct (value_compare a1 b1) eqn:E1; try discriminate;
      destruct (value_compare b1 c1) eqn:E2; try discriminate; intros H1 H2.
    + apply (cmp_eq _ T) in E1, E2. subst.
      rewrite (cmp_refl _ T). eapply (cmp_lt_trans _ T); eauto.
    + apply (cmp_eq _ T) in E1. subst. now rewrite E2.
    + apply (cmp_eq _ T) in E2. subst. now rewrite E1.
    + now rewrite (cmp_lt_trans _ T _ _ _ E1 E2).
Qed.


(** ** The stable sort *)

Section SortFacts.
Context {A : Type}.
Variable leb : A -> A -> bool.

Lemma insert_sorted_perm (x : A) (l : list A) :
  Permutation (insert_sorted leb x l) (x :: l).
Proof.
  induction l as [|y l IH]; simpl; auto.
  destruct (leb x y); auto.
  rewrite IH. apply perm_swap.
Qed.

Lemma stable_sort_perm (l : list A) : Permutation (stable_sort leb l) l.
Proof.
  induction l as [|x l IH]; simpl; auto.
  rewrite insert_sorted_perm. now constructor.
Qed.

Lemma stable_sort_In (l : list A) (x : A) :
  In x (stable_sort leb l) <-> In x l.
Proof.
  split; apply Permutation_in;
    [apply stable_sort_perm | apply Permutation_sym, stable_sort_perm].
Qed.

Lemma stable_sort_NoDup (l : list A) : NoDup l -> NoDup (stable_sort leb l).
Proof.
  intros H. eapply Permutation_NoDup; [|exact H].
  apply Permutation_sym, stable_sort_perm.
Qed.

Lemma stable_sort_length (l : list A) :
  List.length (stable_sort leb l) = List.length l.
Proof. apply Permutation_length, stable_sort_perm. Qed.

Hypothesis leb_total : forall a b, leb a b = true \/ leb b a = true.
Hypothesis leb_trans :
  forall a b c, leb a b = true -> leb b c = true -> leb a c = true.

Let le (a b : A) : Prop := leb a b = true.

Lemma insert_sorted_sorted (x : A) (l : list A) :
  StronglySorted le l -> StronglySorted le (insert_sorted leb x l).
Proof.
  induction 1 as [|y l Hs IH Hy]; simpl.
  - repeat constructor.
  - destruct (leb x y) eqn:E.
    + constructor; [constructor; auto|].
      constructor; [exact E|].
      eapply Forall_impl; [|exact Hy].
      intros z Hz. eapply leb_trans; eauto.
    + constructor; auto.
      assert (Hyx : le y x) by (destruct (leb_total x y); congruence).
      eapply Permutation_Forall;
        [apply Permutation_sym, insert_sorted_perm|].
      constructor; auto.
Qed.

Lemma stable_sort_sorted (l : list A) : StronglySorted le (stable_sort leb l).
Proof.
  induction l as [|x l IH]; simpl.
  - constructor.
  - now apply insert_sorted_sorted.
Qed.
End SortFacts.

Lemma stable_sort_map {A B : Type} (leb : B -> B -> bool) (f : A -> B)
    (l : list A) :
  stable_sort leb (map f l)
  = map f (stable_sort (fun a b => leb (f a) (f b)) l).
Proof.
  induction l as [|x l IH]; simpl; auto.
  rewrite IH. generalize (stable_sort (fun a b => leb (f a) (f b)) l).
  intros s. induction s as [|y s IHs]; simpl; auto.
  destruct (leb (f x) (f y)); simpl; congruence.
Qed.

Lemma stable_sort_ext {A : Type} (leb1 leb2 : A -> A -> bool) (l : list A) :
  (forall a b, In a l -> In b l -> leb1 a b = leb2 a b) ->
  stable_sort leb1 l = stable_sort leb2 l.
Proof.
  induction l as [|x l IH]; simpl; auto.
  intros H. rewrite <- IH by (intros; apply H; auto).
  assert (Hin : forall b, In b (stable_sort leb1 l) -> leb1 x b = leb2 x b).
  { intros b Hb. apply H; auto. right. now apply (stable_sort_In leb1). }
  revert Hin. generalize (stable_sort leb1 l).
  intros s. induction s as [|y s IHs]; simpl; auto.
  intros Hin. rewrite (Hin y) by auto.
  destruct (leb2 x y); auto. f_equal. apply IHs. intros; apply Hin; auto.
Qed.

(** ** Results *)

Lemma mapM_length {A B : Type} (f : A -> result B) (l : list A) (bs : list B) :
  mapM f l = OK bs -> List.length bs = List.length l.
Proof.
  revert bs. induction l as [|a l IH]; simpl; intros bs H.
  - now inversion H.
  - destruct (f a); simpl in H; try discriminate.
    destruct (mapM f l); simpl in H; try discriminate.
    inversion H. simpl. f_equal. now apply IH.
Qed.

Lemma mapM_ok {A B : Type} (f : A -> result B) (g : A -> B) (l : list A) :
  (forall a, In a l -> f a = OK (g a)) -> mapM f l = OK (map g l).
Proof.
  induction l as [|a l IH]; simpl; intros H; auto.
  rewrite H by auto. simpl. rewrite IH by auto. reflexivity.
Qed.

Lemma mapM_nth {A B : Type} (f : A -> result B) (l : list A) (bs : list B)
    (i : nat) (a : A) :
  mapM f l = OK bs -> nth_error l i = Some a ->
  exists b, nth_error bs i = Some b /\ f a = OK b.
Proof.
  revert bs i. induction l as [|x l IH]; simpl; intros bs i H Hi.
  - destruct i; discriminate.
  - destruct (f x) eqn:Ex; simpl in H; try discriminate.
    destruct (mapM f l) eqn:El; simpl in H; try discriminate.
    inversion H; subst. destruct i; simpl in *.
    + inversion Hi; subst. eauto.
    + eapply IH; eauto.
Qed.


(** ** Reading the interval string *)


Lemma contains_unfold (sub s : string) :
  contains sub s
  = if String.prefix sub s then true
    else match s with
         | EmptyString => false
         | String _ s' => contains sub s'
         end.
Proof. destruct s; reflexivity. Qed.


Lemma take_skip_digits (s : string) :
  s = (string_of_list_ascii (take_digits s) ++ skip_digits s)%string.
Proof.
  induction s as [|c s IH]; simpl; auto.
  destruct (is_digit c); simpl; congruence.
Qed.

Lemma take_digits_all (s : string) :
  Forall (fun c => is_digit c = true) (take_digits s).
Proof.
  induction s as [|c s IH]; simpl; auto.
  destruct (is_digit c) eqn:E; auto.
Qed.

Lemma skip_digits_stops (s : string) :
  match skip_digits s with
  | EmptyString => True
  | String c _ => is_digit c = false
  end.
Proof.
  induction s as [|c s IH]; simpl; auto.
  destruct (is_digit c) eqn:E; simpl; auto.
Qed.

(** [re.search] fails exactly on the strings without any digit. *)
Lemma first_digits_none (s : string) :
  first_digits s = None
  <-> Forall (fun c => is_digit c = false) (list_ascii_of_string s).
Proof.
  induction s as [|c s IH]; simpl.
  - split; auto.
  - destruct (is_digit c) eqn:E.
    + split; [discriminate|]. intros H. inversion H. congruence.
    + rewrite IH. split; [now constructor | intros H; now inversion H].
Qed.

(** The match of [re.search] is the leftmost maximal run of digits. *)
Lemma first_digits_some (s : string) (ds : list ascii) :
  first_digits s = Some ds ->
  exists pre post,
    s = (pre ++ string_of_list_ascii ds ++ post)%string
    /\ Forall (fun c => is_digit c = false) (list_ascii_of_string pre)
    /\ ds <> []
    /\ Forall (fun c => is_digit c = true) ds
    /\ match post with
       | EmptyString => True
       | String c _ => is_digit c = false
       end.
Proof.
  induction s as [|c s IH]; simpl; [discriminate|].
  destruct (is_digit c) eqn:E.
  - intros H. inversion H; subst. exists EmptyString, (skip_digits s). simpl.
    repeat split.
    + f_equal. apply take_skip_digits.
    + constructor.
    + discriminate.
    + constructor; auto. apply take_digits_all.
    + apply skip_digits_stops.
  - intros H. destruct (IH H) as (pre & post & -> & Hpre & Hne & Hds & Hpost).
    exists (String c pre), post. simpl. repeat split; auto.
Qed.

Lemma digit_val_bounds (c : ascii) : is_digit c = true -> 0 <= digit_val c <= 9.
Proof.
  unfold is_digit, digit_val. cbv zeta.
  rewrite andb_true_iff, !Nat.leb_le. lia.
Qed.

Lemma decimal_nonneg (ds : list ascii) :
  Forall (fun c => is_digit c = true) ds -> 0 <= decimal ds.
Proof.
  unfold decimal. intros H.
  assert (G : forall acc, 0 <= acc ->
            0 <= fold_left (fun acc c => 10 * acc + digit_val c) ds acc).
  { induction H as [|c ds Hc Hds IH]; cbn [fold_left]; intros acc Hacc; auto.
    apply IH. apply digit_val_bounds in Hc. lia. }
  apply G. lia.
Qed.

(** ** Columns of a frame *)

Lemma assoc_assign_same {B} (c : string) (b : B) (l : list (string * B)) :
  assoc c (assign c b l) = Some b.
Proof.
  induction l as [|[c' b'] l IH]; simpl.
  - now rewrite String.eqb_refl.
  - destruct (String.eqb c c') eqn:E; simpl.
    + now rewrite String.eqb_refl.
    + now rewrite E.
Qed.

Lemma assoc_assign_other {B} (c c' : string) (b : B) (l : list (string * B)) :
  c' <> c -> assoc c' (assign c b l) = assoc c' l.
Proof.
  intros Hne. induction l as [|[d b'] l IH]; simpl.
  - apply String.eqb_neq in Hne. now rewrite Hne.
  - destruct (String.eqb c d) eqn:E; simpl.
    + apply String.eqb_eq in E. subst d.
      apply String.eqb_neq in Hne. now rewrite Hne.
    + destruct (String.eqb c' d); auto.
Qed.

Lemma get_set_same (df : DataFrame) (c : string) (vs : list value) :
  get_column (set_column df c vs) c = OK vs.
Proof. unfold get_column, set_column. simpl. now rewrite assoc_assign_same. Qed.

Lemma get_set_other (df : DataFrame) (c c' : string) (vs : list value) :
  c' <> c -> get_column (set_column df c vs) c' = get_column df c'.
Proof.
  intros H. unfold get_column, set_column. simpl.
  now rewrite assoc_assign_other.
Qed.

Lemma labels_set_present (df : DataFrame) (c : string) (vs ws : list value) :
  get_column df c = OK ws -> labels (set_column df c vs) = labels df.
Proof.
  unfold get_column, set_column, labels. simpl.
  induction (columns df) as [|[d b] l IH]; simpl; [discriminate|].
  destruct (String.eqb c d) eqn:E; simpl.
  - apply String.eqb_eq in E. now subst.
  - intros H. f_equal. now apply IH.
Qed.


Lemma get_column_present (df : DataFrame) (c : string) :
  In c (labels df) -> exists vs, get_column df c = OK vs.
Proof.
  unfold get_column, labels.
  induction (columns df) as [|[d b] l IH]; cbn [map assoc fst In].
  - contradiction.
  - intros H. destruct (String.eqb_spec c d) as [E|Hne]; eauto.
    apply IH. destruct H as [H|H]; [congruence|exact H].
Qed.


Lemma cell_map (f : value -> value) (vs : list value) (i : nat) :
  f VNA = VNA -> cell (map f vs) i = f (cell vs i).
Proof.
  intros H. unfold cell. rewrite <- H at 1. apply map_nth.
Qed.

(** ** What a run of [bin_data] does to its argument *)

Section BinnerState.
Variable to_datetime : list value -> list value.
Variable schedule : list rule.

Lemma bin_data_rejects (df : DataFrame) (interval : string) :
  interval_magnitude interval = None ->
  bin_data to_datetime schedule df interval
  = (df, Raise interval_error).
Proof. intros H. unfold bin_data. now rewrite H. Qed.

Lemma bin_data_no_time (df : DataFrame) (interval : string) (n : Z) :
  interval_magnitude interval = Some n ->
  get_column df TIME_COLUMN = Raise (KeyError TIME_COLUMN) ->
  bin_data to_datetime schedule df interval
  = (df, Raise (KeyError TIME_COLUMN)).
Proof. intros H1 H2. unfold bin_data. now rewrite H1, H2. Qed.

Lemma bin_data_state (df : DataFrame) (interval : string) (n : Z)
    (ts : list value) :
  interval_magnitude interval = Some n ->
  get_column df TIME_COLUMN = OK ts ->
  fst (bin_data to_datetime schedule df interval)
  = set_column (set_column df TIME_COLUMN (coerce_time to_datetime ts)) "Bin"
      (map (dt_floor (n * unit_ns (interval_unit interval)))
           (coerce_time to_datetime ts)).
Proof. intros H1 H2. unfold bin_data. now rewrite H1, H2. Qed.

Lemma bin_data_bin_column (df : DataFrame) (interval : string) (n : Z)
    (ts : list value) :
  interval_magnitude interval = Some n ->
  get_column df TIME_COLUMN = OK ts ->
  get_column (fst (bin_data to_datetime schedule df interval)) "Bin"
  = OK (map (dt_floor (n * unit_ns (interval_unit interval)))
            (coerce_time to_datetime ts)).
Proof.
  intros H1 H2. rewrite (bin_data_state df interval n ts H1 H2).
  apply get_set_same.
Qed.
End BinnerState.

Lemma get_column_raise (df : DataFrame) (c : string) (e : exn) :
  get_column df c = Raise e -> e = KeyError c.
Proof. unfold get_column. destruct (assoc c (columns df)); congruence. Qed.


(** ** Flooring *)

Lemma floor_ns_mul (w t : Z) : 0 < w -> floor_ns w t = w * (t / w).
Proof.
  intros Hw. unfold floor_ns.
  destruct (Z.eqb_spec w 0); [lia|].
  pose proof (Z.div_mod t w). lia.
Qed.

Lemma floor_ns_bounds (w t : Z) :
  0 < w -> floor_ns w t <= t < floor_ns w t + w.
Proof.
  intros Hw. unfold floor_ns.
  destruct (Z.eqb_spec w 0); [lia|].
  pose proof (Z.mod_pos_bound t w Hw). lia.
Qed.

Lemma floor_ns_mono (w t1 t2 : Z) :
  0 < w -> t1 <= t2 -> floor_ns w t1 <= floor_ns w t2.
Proof.
  intros Hw H. rewrite !floor_ns_mul by assumption.
  apply Z.mul_le_mono_nonneg_l; [lia|].
  now apply Z.div_le_mono.
Qed.

Lemma floor_ns_idem (w t : Z) : floor_ns w (floor_ns w t) = floor_ns w t.
Proof.
  unfold floor_ns. destruct (Z.eqb_spec w 0); auto.
  replace ((t - t mod w) mod w) with 0; [lia|].
  rewrite Zminus_mod_idemp_r. now rewrite Z.sub_diag, Z.mod_0_l.
Qed.


Lemma unit_ns_pos (u : freq_unit) : 0 < unit_ns u.
Proof. destruct u; reflexivity. Qed.

(** * The claims *)





(** ** Where the errors of the binner come from *)

Lemma mapM_raise_inv {A B : Type} (f : A -> result B) (l : list A) (e : exn) :
  mapM f l = Raise e -> exists a, In a l /\ f a = Raise e.
Proof.
  induction l as [|x l IH]; simpl; [discriminate|].
  destruct (f x) as [b|e0] eqn:Ex; simpl.
  - destruct (mapM f l) as [bs|e1]; simpl; [discriminate|].
    intros H. inversion H; subst. destruct IH as (a & Ha & Hf); eauto.
  - intros H. inversion H; subst. eauto.
Qed.

Lemma ravel_raise df cols idxs e :
  ravel df cols idxs = Raise e -> exists c, In c cols /\ e = KeyError c.
Proof.
  unfold ravel. destruct (mapM (get_column df) cols) eqn:E; simpl;
    [discriminate|].
  intros H. inversion H; subst.
  apply mapM_raise_inv in E. destruct E as (c & Hc & Hg).
  apply get_column_raise in Hg. eauto.
Qed.

Lemma drop_nan_raise vals e : drop_nan vals = Raise e -> e = TypeError.
Proof.
  unfold drop_nan. destruct (mapM as_float vals) eqn:E; simpl; [discriminate|].
  intros H. inversion H; subst.
  apply mapM_raise_inv in E. destruct E as (v & _ & Hv).
  destruct v; simpl in Hv; congruence.
Qed.

Lemma agg_func_raise cols agg df idxs e :
  agg_func cols agg df idxs = Raise e ->
  (exists c, In c cols /\ e = KeyError c) \/ e = TypeError.
Proof.
  unfold agg_func. destruct (ravel df cols idxs) as [vals|e1] eqn:E1; simpl.
  - destruct (drop_nan vals) as [xs|e2] eqn:E2; simpl.
    + destruct xs; [discriminate|].
      repeat match goal with |- context [if ?b then _ else _] => destruct b end;
        discriminate.
    + intros H. inversion H; subst. right. eapply drop_nan_raise; eauto.
  - intros H. inversion H; subst. left. eapply ravel_raise; eauto.
Qed.

Lemma groupby2_raise df c1 c2 e :
  groupby2 df c1 c2 = Raise e -> e = KeyError c1 \/ e = KeyError c2.
Proof.
  unfold groupby2. destruct (get_column df c1) eqn:E1; simpl.
  - destruct (get_column df c2) eqn:E2; simpl; [discriminate|].
    intros H. inversion H; subst. right. eapply get_column_raise; eauto.
  - intros H. inversion H; subst. left. eapply get_column_raise; eauto.
Qed.

Lemma summarize_raise df cfg e :
  summarize df cfg = Raise e -> (exists c, e = KeyError c) \/ e = TypeError.
Proof.
  unfold summarize.
  destruct (groupby2 df DELINEATING_COL "Bin") as [groups|e1] eqn:E1; simpl.
  - destruct (mapM _ groups) as [vals|e2] eqn:E2; simpl; [discriminate|].
    intros H. inversion H; subst.
    apply mapM_raise_inv in E2. destruct E2 as (g & _ & Hg).
    apply agg_func_raise in Hg. destruct Hg as [(c & _ & ->) | ->]; eauto.
  - intros H. inversion H; subst.
    apply groupby2_raise in E1. destruct E1 as [->| ->]; eauto.
Qed.

Lemma merge_left_raise out s e :
  merge_left out s = Raise e ->
  e = ValueError "The column label is not unique." \/ e = MergeError.
Proof.
  unfold merge_left, merge_labels.
  repeat match goal with |- context [if ?b then _ else _] => destruct b end;
    cbn [bind]; intros H; inversion H; auto.
Qed.

Lemma merge_all_raise rest : forall out e,
  merge_all out rest = Raise e ->
  e = ValueError "The column label is not unique." \/ e = MergeError.
Proof.
  induction rest as [|s rest IH]; simpl; intros out e; [discriminate|].
  destruct (merge_left out s) as [out'|e1] eqn:E1; simpl.
  - apply IH.
  - intros H. inversion H; subst. eapply merge_left_raise; eauto.
Qed.

(** Once the interval is read, no later step raises the interval error. *)
Lemma bin_data_accepts to_datetime schedule df interval n :
  interval_magnitude interval = Some n ->
  snd (bin_data to_datetime schedule df interval) <> Raise interval_error.
Proof.
  intros Hn. unfold bin_data. rewrite Hn.
  destruct (get_column df TIME_COLUMN) as [ts|e] eqn:Et.
  - cbn [snd].
    destruct (mapM _ schedule) as [summary|e1] eqn:E1; cbn [bind].
    + destruct summary as [|s0 rest]; cbn [bind]; [discriminate|].
      destruct (merge_all (joined_of_summary s0) rest) as [j|e2] eqn:E2;
        cbn [bind]; [discriminate|].
      apply merge_all_raise in E2. destruct E2 as [->| ->]; discriminate.
    + apply mapM_raise_inv in E1. destruct E1 as (cfg & _ & Hc).
      apply summarize_raise in Hc. destruct Hc as [(c & ->)| ->]; discriminate.
  - cbn [snd]. apply get_column_raise in Et. subst. discriminate.
Qed.

(** C4 (amended).  [bin_data] raises its interval error exactly on the
    strings that contain no decimal digit, such as ["abc minutes"]; it then
    leaves its argument untouched and returns no table.  A string with a digit
    anywhere is accepted, whatever stands before the digits. *)
Theorem interval_without_digit_rejected
    (to_datetime : list value -> list value) (schedule : list rule)
    (df : DataFrame) (interval : string) :
  (Forall (fun c => is_digit c = false) (list_ascii_of_string interval) ->
   bin_data to_datetime schedule df interval = (df, Raise interval_error))
  /\ (snd (bin_data to_datetime schedule df interval) = Raise interval_error ->
      Forall (fun c => is_digit c = false) (list_ascii_of_string interval)).
Proof.
  split.
  - intros H. apply bin_data_rejects. unfold interval_magnitude.
    apply first_digits_none in H. now rewrite H.
  - intros H. apply first_digits_none.
    destruct (first_digits interval) as [ds|] eqn:Hd; auto.
    exfalso. eapply bin_data_accepts; [|exact H].
    unfold interval_magnitude. rewrite Hd. reflexivity.
Qed.

Lemma interval_without_digit_rejected_witness :
  bin_data to_datetime_strict SELECTED_COLUMNS long_sample "abc minutes"
  = (long_sample, Raise interval_error).
Proof.
  apply (interval_without_digit_rejected to_datetime_strict SELECTED_COLUMNS
           long_sample "abc minutes").
  vm_compute. repeat constructor.
Defined.

(** C4 (as stated) fails: ["-5 days"] has a negative magnitude and no leading
    number, yet it is accepted and binned in bins of five days. *)
Lemma negative_interval_accepted :
  exists out,
    snd (bin_data to_datetime_strict SELECTED_COLUMNS long_sample "-5 days")
    = OK out
    /\ get_column out "Time" = OK [at_minute 0; at_minute 0]
    /\ interval_magnitude "-5 days" = Some 5
    /\ interval_unit "-5 days" = UDay.
Proof.
  eexists. split; [|split; [|split]].
  - vm_compute. reflexivity.
  - vm_compute. reflexivity.
  - reflexivity.
  - reflexivity.
Qed.

(** ** Reducers *)

Lemma agg_func_contributing cols agg df idxs :
  agg_func cols agg df idxs
  = xs <- contributing df cols idxs ;;
    match xs with
    | [] => OK VNA
    | x :: rest =>
        if String.eqb agg "sum" then OK (VNum (np_sum xs))
        else if String.eqb agg "max" then OK (VNum (np_max x rest))
        else if String.eqb agg "min" then OK (VNum (np_min x rest))
        else if String.eqb agg "act_percent"
             then OK (VNum (np_mean xs * Qc_of_Z 50 + Qc_of_Z 50)%Qc)
        else OK (VNum (np_mean xs))
    end.
Proof.
  unfold agg_func, contributing.
  destruct (ravel df cols idxs); simpl; auto.
Qed.

Lemma map_fst_combine {A B : Type} (l : list A) : forall (l' : list B),
  List.length l = List.length l' -> map fst (combine l l') = l.
Proof.
  induction l as [|a l IH]; intros [|b l'] H; simpl in *; try discriminate; auto.
  f_equal. apply IH. lia.
Qed.

Lemma map_snd_combine {A B : Type} (l : list A) : forall (l' : list B),
  List.length l = List.length l' -> map snd (combine l l') = l'.
Proof.
  induction l as [|a l IH]; intros [|b l'] H; simpl in *; try discriminate; auto.
  f_equal. apply IH. lia.
Qed.

Lemma summarize_rows df cfg groups s :
  groupby2 df DELINEATING_COL "Bin" = OK groups ->
  summarize df cfg = OK s ->
  s_name s = name_of cfg
  /\ map fst (s_rows s) = map fst groups
  /\ mapM (fun g => agg_func (columns_of cfg) (summarize_of cfg) df (snd g))
          groups = OK (map snd (s_rows s)).
Proof.
  intros Hg. unfold summarize. rewrite Hg. cbn [bind].
  destruct (mapM _ groups) as [vals|] eqn:E; cbn [bind]; [|discriminate].
  intros H. inversion H; subst; clear H. cbn [s_name s_rows].
  pose proof (mapM_length _ _ _ E) as L.
  split; [reflexivity|]. split.
  - rewrite map_fst_combine; auto. rewrite length_map. lia.
  - rewrite map_snd_combine; auto. rewrite length_map. lia.
Qed.

(** C3 (amended).  A group that contributes no value to a rule (every cell of
    the rule's source columns in the group is missing) gets a missing value
    from every reducer: [mean], [max], [min], [act_percent], any unknown name,
    and [sum] as well. *)
Theorem empty_group_yields_missing
    (df : DataFrame) (cfg : rule) (groups : list (key * list nat))
    (s : summary_df) (i : nat) (k : key) (idxs : list nat) :
  groupby2 df DELINEATING_COL "Bin" = OK groups ->
  summarize df cfg = OK s ->
  nth_error groups i = Some (k, idxs) ->
  contributing df (columns_of cfg) idxs = OK [] ->
  agg_func (columns_of cfg) (summarize_of cfg) df idxs = OK VNA
  /\ nth_error (s_rows s) i = Some (k, VNA).
Proof.
  intros Hg Hs Hi Hc.
  assert (Ha : agg_func (columns_of cfg) (summarize_of cfg) df idxs = OK VNA).
  { rewrite agg_func_contributing, Hc. reflexivity. }
  split; [exact Ha|].
  destruct (summarize_rows _ _ _ _ Hg Hs) as (_ & Hk & Hv).
  destruct (mapM_nth _ _ _ _ _ Hv Hi) as (v & Hnv & Hav).
  cbn [snd] in Hav. rewrite Ha in Hav. inversion Hav; subst v.
  assert (Hnk : nth_error (map fst (s_rows s)) i = Some k).
  { rewrite Hk. rewrite nth_error_map, Hi. reflexivity. }
  rewrite nth_error_map in Hnk, Hnv.
  destruct (nth_error (s_rows s) i) as [[k' v']|]; simpl in *; congruence.
Qed.

Lemma empty_group_yields_missing_witness :
  exists cfg s,
    sum_schedule = [cfg]
    /\ summarize long_binned cfg = OK s
    /\ agg_func (columns_of cfg) (summarize_of cfg) long_binned [2%nat] = OK VNA
    /\ nth_error (s_rows s) 2 = Some ((VStr "b", at_minute 600), VNA).
Proof.
  eexists. eexists. split; [reflexivity|]. split; [vm_compute; reflexivity|].
  eapply (empty_group_yields_missing long_binned _ _ _ 2%nat _ [2%nat]);
    vm_compute; reflexivity.
Defined.

(** C3 (as stated) fails for [sum]: the group of device [b] contributes no
    activity value, and the [sum] rule reports it as missing, not as 0. *)
Lemma empty_sum_is_missing :
  contributing long_binned ["Act"] [2%nat] = OK []
  /\ agg_func ["Act"] "sum" long_binned [2%nat] = OK VNA
  /\ agg_func ["Act"] "sum" long_binned [2%nat] <> OK (VNum (Qc_of_Z 0))
  /\ exists out,
       snd (bin_data to_datetime_strict sum_schedule long_sample "15 minutes")
       = OK out
       /\ get_column out "Total" = OK [num 1; num 3; VNA].
Proof.
  split; [vm_compute; reflexivity|].
  split; [vm_compute; reflexivity|].
  split; [vm_compute; discriminate|].
  eexists. split; vm_compute; reflexivity.
Qed.

(** ** What a run of [melt_activity_data] does to its argument *)


Lemma melt_no_time to_datetime (df : DataFrame) (e : exn) :
  get_column df TIME_COLUMN = Raise e ->
  melt_activity_data to_datetime df = (df, Raise (KeyError TIME_COLUMN)).
Proof.
  intros H. unfold melt_activity_data. rewrite H.
  apply get_column_raise in H. now subst.
Qed.




(** ** The left join of summaries over the same groups *)

Lemma key_eqb_refl (k : key) : key_eqb k k = true.
Proof. unfold key_eqb. destruct (key_eq_dec k k); congruence. Qed.

Lemma key_eqb_neq (k k' : key) : k <> k' -> key_eqb k k' = false.
Proof. unfold key_eqb. destruct (key_eq_dec k k'); congruence. Qed.

Lemma filter_key_absent (k : key) (ks : list key) (vals : list value) :
  ~ In k ks -> filter (fun kv => key_eqb (fst kv) k) (combine ks vals) = [].
Proof.
  revert vals. induction ks as [|k' ks IH]; intros vals H; simpl; auto.
  destruct vals as [|v vals]; simpl; auto.
  rewrite key_eqb_neq by (intros ->; apply H; now left).
  apply IH. intros Hin. apply H. now right.
Qed.

Lemma merge_rows_cons (kvs : key * list value) (left : list (key * list value))
    (right : list (key * value)) :
  merge_rows (kvs :: left) right
  = match filter (fun kv => key_eqb (fst kv) (fst kvs)) right with
    | [] => [(fst kvs, snd kvs ++ [VNA])]
    | ms => map (fun kv => (fst kvs, snd kvs ++ [snd kv])) ms
    end ++ merge_rows left right.
Proof. reflexivity. Qed.

Lemma merge_rows_skip (left : list (key * list value)) (k : key) (v : value)
    (right : list (key * value)) :
  ~ In k (map fst left) ->
  merge_rows left ((k, v) :: right) = merge_rows left right.
Proof.
  induction left as [|[k' vs] left IH]; [reflexivity|].
  cbn [map fst In]. intros H. rewrite !merge_rows_cons.
  rewrite IH by tauto. cbn [filter fst].
  rewrite key_eqb_neq by (intros ->; apply H; now left). reflexivity.
Qed.

Lemma zip_rows_keys (ks : list key) : forall cols,
  map fst (zip_rows ks cols) = ks.
Proof. induction ks as [|k ks IH]; simpl; intros; f_equal; auto. Qed.

Lemma zip_rows_length (ks : list key) (cols : list (list value)) :
  List.length (zip_rows ks cols) = List.length ks.
Proof. rewrite <- (zip_rows_keys ks cols) at 2. now rewrite length_map. Qed.

Lemma merge_rows_aligned (ks : list key) : forall cols vals,
  NoDup ks -> List.length vals = List.length ks ->
  merge_rows (zip_rows ks cols) (combine ks vals) = zip_rows ks (cols ++ [vals]).
Proof.
  induction ks as [|k ks IH]; intros cols vals Hnd Hlen; [reflexivity|].
  destruct vals as [|v vals]; [discriminate|]. cbn [List.length] in Hlen.
  inversion Hnd as [|? ? Hk Hnd']; subst.
  cbn [zip_rows combine]. rewrite merge_rows_cons.
  cbn [filter fst snd]. rewrite key_eqb_refl, filter_key_absent by assumption.
  rewrite merge_rows_skip by (rewrite zip_rows_keys; assumption).
  rewrite IH by (auto; lia).
  cbn [map snd app]. rewrite !map_app. reflexivity.
Qed.

Lemma joined_rows_aligned (ks : list key) : forall vals,
  List.length vals = List.length ks ->
  map (fun kv : key * value => (fst kv, [snd kv])) (combine ks vals)
  = zip_rows ks [vals].
Proof.
  induction ks as [|k ks IH]; intros vals Hlen; simpl; auto.
  destruct vals as [|v vals]; [discriminate|]. simpl in *.
  f_equal. apply IH. lia.
Qed.

Lemma zip_rows_column (ks : list key) : forall cols idx,
  Forall (fun c => List.length c = List.length ks) cols ->
  (idx < List.length cols)%nat ->
  map (fun r : key * list value => nth idx (snd r) VNA) (zip_rows ks cols)
  = nth idx cols [].
Proof.
  induction ks as [|k ks IH]; intros cols idx Hall Hidx; simpl.
  - rewrite Forall_forall in Hall. symmetry. apply length_zero_iff_nil.
    apply Hall. now apply nth_In.
  - rewrite IH.
    + rewrite (nth_indep (map (@tl value) cols) [] (tl []))
        by (rewrite length_map; lia).
      rewrite (map_nth (@tl value)).
      replace (nth idx (map (fun c => hd VNA c) cols) VNA)
        with (hd VNA (nth idx cols []))
        by (symmetry; exact (map_nth (fun c => hd VNA c) cols [] idx)).
      assert (Hl : List.length (nth idx cols []) = S (List.length ks)).
      { rewrite Forall_forall in Hall. apply Hall. now apply nth_In. }
      destruct (nth idx cols []); [discriminate|reflexivity].
    + rewrite Forall_forall in *. intros c Hc. apply in_map_iff in Hc.
      destruct Hc as (c' & <- & Hc'). specialize (Hall c' Hc').
      destruct c'; simpl in *; [discriminate|lia].
    + now rewrite length_map.
Qed.

Lemma merge_labels_length left right names :
  merge_labels left right = OK names ->
  List.length names = S (List.length left).
Proof.
  unfold merge_labels.
  repeat match goal with |- context [if ?b then _ else _] => destruct b end;
    intros H; inversion H; rewrite length_app; simpl;
    rewrite ?length_map; lia.
Qed.

Lemma mapM_Forall2 {A B : Type} (f : A -> result B) (l : list A) (bs : list B) :
  mapM f l = OK bs -> Forall2 (fun a b => f a = OK b) l bs.
Proof.
  revert bs. induction l as [|a l IH]; simpl; intros bs H.
  - inversion H. constructor.
  - destruct (f a) eqn:Ea; simpl in H; try discriminate.
    destruct (mapM f l); simpl in H; try discriminate.
    inversion H; subst. constructor; auto.
Qed.

Lemma merge_all_aligned (ks : list key) (Hnd : NoDup ks) :
  forall rest valss j cols j',
    j_rows j = zip_rows ks cols ->
    Forall2 (fun s vals => s_rows s = combine ks vals
                           /\ List.length vals = List.length ks) rest valss ->
    merge_all j rest = OK j' ->
    j_rows j' = zip_rows ks (cols ++ valss)
    /\ List.length (j_names j')
       = (List.length (j_names j) + List.length rest)%nat.
Proof.
  induction rest as [|s rest IH]; intros valss j cols j' Hj Hall Hm.
  - inversion Hall; subst. simpl in Hm. inversion Hm; subst.
    rewrite app_nil_r. split; [assumption | cbn [List.length]; lia].
  - inversion Hall as [|? vals ? valss' [Hs Hl] Hall']; subst.
    simpl in Hm. unfold merge_left in Hm.
    destruct (merge_labels (j_names j) (s_name s)) as [names|] eqn:En;
      cbn [bind] in Hm; [|discriminate].
    assert (Hj' : j_rows {| j_names := names;
                            j_rows := merge_rows (j_rows j) (s_rows s) |}
                  = zip_rows ks (cols ++ [vals])).
    { cbn [j_rows]. rewrite Hj, Hs. now apply merge_rows_aligned. }
    destruct (IH _ _ _ _ Hj' Hall' Hm) as [Hr Hn]. cbn [j_names] in Hn.
    rewrite (merge_labels_length _ _ _ En) in Hn.
    split; [|cbn [List.length]; lia].
    rewrite Hr. now rewrite <- app_assoc.
Qed.

Lemma combine_seq_nth (names : list string) : forall (valss : list (list value)) a,
  List.length valss = (a + List.length names)%nat ->
  map (fun nc : nat * string => (snd nc, nth (fst nc) valss []))
      (combine (seq a (List.length names)) names)
  = combine names (skipn a valss).
Proof.
  induction names as [|c names IH]; intros valss a Hlen; simpl; auto.
  rewrite IH by (simpl in Hlen; lia).
  assert (Hs : skipn a valss = nth a valss [] :: skipn (S a) valss).
  { clear IH. revert a Hlen. induction valss as [|v valss IHv]; intros a Hlen.
    - cbn [List.length] in Hlen. lia.
    - destruct a; [reflexivity|]. cbn [skipn nth]. apply IHv.
      cbn [List.length] in *. lia. }
  now rewrite Hs.
Qed.

Lemma groupby2_keys df c1 c2 groups :
  groupby2 df c1 c2 = OK groups ->
  exists k1 k2,
    get_column df c1 = OK k1 /\ get_column df c2 = OK k2
    /\ NoDup (map fst groups)
    /\ StronglySorted (fun a b => key_leb a b = true) (map fst groups)
    /\ (forall k, In k (map fst groups)
                  <-> key_notna k = true
                      /\ exists i, (i < nrows df)%nat
                                   /\ k = (cell k1 i, cell k2 i))
    /\ (forall k idxs, In (k, idxs) groups ->
          idxs = filter (fun i => key_eqb (cell k1 i, cell k2 i) k)
                        (row_positions df)).
Proof.
  unfold groupby2.
  destruct (get_column df c1) as [k1|]; cbn [bind]; [|discriminate].
  destruct (get_column df c2) as [k2|]; cbn [bind]; [|discriminate].
  intros H. inversion H; subst; clear H. exists k1, k2.
  rewrite map_map. cbn [fst]. rewrite map_id.
  split; [reflexivity|]. split; [reflexivity|]. split; [|split; [|split]].
  - apply stable_sort_NoDup, NoDup_nodup.
  - apply stable_sort_sorted.
    + apply (leb_of_total _ key_total_cmp).
    + apply (leb_of_trans _ key_total_cmp).
  - intros k. rewrite stable_sort_In, nodup_In, filter_In, in_map_iff.
    unfold row_positions. split.
    + intros [(i & <- & Hi) Hk]. apply in_seq in Hi. split; auto.
      exists i. split; [lia|reflexivity].
    + intros [Hk (i & Hi & ->)]. split; auto. exists i. split; auto.
      apply in_seq. lia.
  - intros k idxs Hin. apply in_map_iff in Hin.
    destruct Hin as (k' & E & _). now inversion E.
Qed.

(** ** The shape of the binned table *)

Lemma bin_data_result to_datetime schedule df interval n ts :
  interval_magnitude interval = Some n ->
  get_column df TIME_COLUMN = OK ts ->
  snd (bin_data to_datetime schedule df interval)
  = (let df' := fst (bin_data to_datetime schedule df interval) in
     summary <- mapM (summarize df') schedule ;;
     out <- match summary with
            | [] => OK df'
            | s0 :: rest =>
                j <- merge_all (joined_of_summary s0) rest ;;
                OK (DataFrame_of_joined j)
            end ;;
     OK (rename "Bin" "Time" out)).
Proof. intros H1 H2. unfold bin_data. rewrite H1, H2. reflexivity. Qed.

Lemma summarize_groups df cfg s :
  summarize df cfg = OK s ->
  exists groups, groupby2 df DELINEATING_COL "Bin" = OK groups.
Proof.
  unfold summarize. destruct (groupby2 df DELINEATING_COL "Bin"); eauto.
  discriminate.
Qed.

Lemma summaries_aligned df groups schedule summary :
  groupby2 df DELINEATING_COL "Bin" = OK groups ->
  Forall2 (fun cfg s => summarize df cfg = OK s) schedule summary ->
  exists valss,
    Forall2 (fun s vals => s_rows s = combine (map fst groups) vals
                           /\ List.length vals = List.length (map fst groups))
            summary valss
    /\ Forall2 (fun cfg vals =>
                  mapM (fun g => agg_func (columns_of cfg) (summarize_of cfg)
                                          df (snd g)) groups = OK vals)
               schedule valss.
Proof.
  intros Hg. induction 1 as [|cfg s schedule summary Hs _ IH].
  - exists []. split; constructor.
  - destruct IH as (valss & H1 & H2).
    destruct (summarize_rows _ _ _ _ Hg Hs) as (_ & Hk & Hv).
    exists (map snd (s_rows s) :: valss). split; constructor; auto.
    split.
    + rewrite <- Hk. clear. induction (s_rows s) as [|[k v] l IH]; simpl; congruence.
    + rewrite <- Hk. now rewrite !length_map.
Qed.

Lemma merge_all_names rest : forall j j',
  merge_all j rest = OK j' ->
  merge_all_labels (j_names j) (map s_name rest) = OK (j_names j').
Proof.
  induction rest as [|s rest IH]; intros j j' H; cbn [merge_all map] in *.
  - now inversion H.
  - unfold merge_left in H. cbn [merge_all_labels].
    destruct (merge_labels (j_names j) (s_name s)) as [names|];
      cbn [bind] in *; [|discriminate].
    apply IH in H. exact H.
Qed.

Lemma bin_data_shape to_datetime schedule df interval n ts out :
  interval_magnitude interval = Some n ->
  get_column df TIME_COLUMN = OK ts ->
  schedule <> [] ->
  snd (bin_data to_datetime schedule df interval) = OK out ->
  let df' := fst (bin_data to_datetime schedule df interval) in
  exists groups names valss,
    groupby2 df' DELINEATING_COL "Bin" = OK groups
    /\ List.length names = List.length schedule
    /\ output_labels schedule = OK names
    /\ Forall2 (fun cfg vals =>
                  mapM (fun g => agg_func (columns_of cfg) (summarize_of cfg)
                                          df' (snd g)) groups = OK vals)
               schedule valss
    /\ nrows out = List.length groups
    /\ columns out
       = (DELINEATING_COL, map (fun g => fst (fst g)) groups)
         :: ("Time", map (fun g => snd (fst g)) groups)
         :: combine names valss.
Proof.
  intros Hn Hts Hne Hout df'.
  rewrite (bin_data_result _ _ _ _ _ _ Hn Hts) in Hout. cbv zeta in Hout.
  fold df' in Hout. clearbody df'.
  destruct (mapM (summarize df') schedule) as [summary|] eqn:Es;
    cbn [bind] in Hout; [|discriminate].
  apply mapM_Forall2 in Es.
  destruct Es as [|cfg0 s0 schedule' rest Hs0 Hrest]; [congruence|].
  destruct (summarize_groups _ _ _ Hs0) as (groups & Hg).
  destruct (summaries_aligned _ _ _ _ Hg (Forall2_cons _ _ Hs0 Hrest))
    as (valss & Hal & Hagg).
  inversion Hal as [|? vals0 ? valss' [Hr0 Hl0] Hal']; subst.
  destruct (groupby2_keys _ _ _ _ Hg) as (k1 & k2 & _ & _ & Hnd & _).
  destruct (merge_all (joined_of_summary s0) rest) as [j|] eqn:Em;
    cbn [bind] in Hout; [|discriminate].
  inversion Hout; subst out; clear Hout.
  destruct (merge_all_aligned _ Hnd rest valss' (joined_of_summary s0)
              [vals0] j) as [Hrows Hnames]; auto.
  { unfold joined_of_summary. cbn [j_rows]. rewrite Hr0.
    now apply joined_rows_aligned. }
  cbn [app] in Hrows. unfold joined_of_summary in Hnames.
  cbn [j_names List.length] in Hnames.
  assert (Hlen : List.length (vals0 :: valss') = List.length (j_names j)).
  { apply Forall2_length in Hal'. simpl. lia. }
  assert (Hcols : Forall (fun c => List.length c = List.length (map fst groups))
                         (vals0 :: valss')).
  { constructor; auto. clear -Hal'. induction Hal'; constructor; tauto. }
  exists groups,
    (map (fun c => if String.eqb c "Bin" then "Time" else c) (j_names j)),
    (vals0 :: valss').
  split; [exact Hg|]. split; [|split; [|split; [exact Hagg|split]]].
  - rewrite length_map. apply Forall2_length in Hrest. simpl. lia.
  - unfold output_labels. cbn [map].
    assert (Hnm : map name_of schedule' = map s_name rest).
    { clear -Hrest. induction Hrest as [|cfg s l l' Hs _ IH]; cbn [map]; auto.
      f_equal; auto. unfold summarize in Hs.
      destruct (groupby2 df' DELINEATING_COL "Bin"); cbn [bind] in Hs;
        [|discriminate].
      destruct (mapM _ _); cbn [bind] in Hs; [|discriminate].
      now inversion Hs. }
    assert (Hn0 : name_of cfg0 = s_name s0).
    { unfold summarize in Hs0.
      destruct (groupby2 df' DELINEATING_COL "Bin"); cbn [bind] in Hs0;
        [|discriminate].
      destruct (mapM _ _); cbn [bind] in Hs0; [|discriminate].
      now inversion Hs0. }
    rewrite Hnm, Hn0.
    apply merge_all_names in Em. unfold joined_of_summary in Em.
    cbn [j_names] in Em. rewrite Em. reflexivity.
  - unfold rename, DataFrame_of_joined. cbn [nrows].
    rewrite Hrows, zip_rows_length. apply length_map.
  - unfold rename, DataFrame_of_joined. cbn [columns map fst snd].
    rewrite Hrows. f_equal; [|f_equal].
    + f_equal.
      transitivity (map fst (map fst (zip_rows (map fst groups)
                                        (vals0 :: valss'))));
        [now rewrite map_map|].
      rewrite zip_rows_keys. now rewrite map_map.
    + f_equal.
      transitivity (map snd (map fst (zip_rows (map fst groups)
                                        (vals0 :: valss'))));
        [now rewrite map_map|].
      rewrite zip_rows_keys. now rewrite map_map.
    + rewrite map_map. cbn [fst snd].
      transitivity
        (map (fun cv : string * list value =>
                (if String.eqb (fst cv) "Bin" then "Time" else fst cv, snd cv))
             (map (fun nc : nat * string =>
                     (snd nc, nth (fst nc) (vals0 :: valss') []))
                  (combine (seq 0 (List.length (j_names j))) (j_names j)))).
      * rewrite map_map. apply map_ext_in. intros [idx c] Hin. cbn [fst snd].
        f_equal. apply zip_rows_column; auto.
        apply in_combine_l, in_seq in Hin. lia.
      * rewrite combine_seq_nth by (simpl in *; lia). cbn [skipn].
        generalize (vals0 :: valss'). clear.
        induction (j_names j) as [|c l IH]; intros [|v vs]; simpl; auto.
        f_equal. apply IH.
Qed.

Lemma bin_data_state_any to_datetime schedule schedule' df interval :
  fst (bin_data to_datetime schedule df interval)
  = fst (bin_data to_datetime schedule' df interval).
Proof.
  unfold bin_data. destruct (interval_magnitude interval); auto.
  destruct (get_column df TIME_COLUMN); auto.
Qed.

Lemma bin_data_ok_inv to_datetime schedule df interval out :
  snd (bin_data to_datetime schedule df interval) = OK out ->
  exists n ts summary,
    interval_magnitude interval = Some n
    /\ get_column df TIME_COLUMN = OK ts
    /\ mapM (summarize (fst (bin_data to_datetime schedule df interval)))
            schedule = OK summary.
Proof.
  intros H.
  destruct (interval_magnitude interval) as [n|] eqn:En;
    [|rewrite bin_data_rejects in H by assumption; discriminate].
  destruct (get_column df TIME_COLUMN) as [ts|e] eqn:Et.
  - rewrite (bin_data_result _ _ _ _ _ _ En Et) in H. cbv zeta in H.
    destruct (mapM _ schedule) as [summary|] eqn:Es; [|discriminate].
    eauto 6.
  - pose proof (get_column_raise _ _ _ Et) as ->.
    rewrite (bin_data_no_time _ _ _ _ _ En Et) in H. discriminate.
Qed.

Lemma merge_all_ok rest : forall j names,
  merge_all_labels (j_names j) (map s_name rest) = OK names ->
  exists j', merge_all j rest = OK j'.
Proof.
  induction rest as [|s rest IH]; intros j names H;
    cbn [merge_all merge_all_labels map] in *.
  - eauto.
  - unfold merge_left.
    destruct (merge_labels (j_names j) (s_name s)) as [left'|];
      cbn [bind] in *; [|discriminate].
    eapply IH. cbn [j_names]. exact H.
Qed.

Lemma summarize_name df cfg s : summarize df cfg = OK s -> s_name s = name_of cfg.
Proof.
  unfold summarize.
  destruct (groupby2 df DELINEATING_COL "Bin"); cbn [bind]; [|discriminate].
  destruct (mapM _ _); cbn [bind]; [|discriminate].
  intros H. now inversion H.
Qed.

Lemma summaries_names df schedule summary :
  mapM (summarize df) schedule = OK summary ->
  map s_name summary = map name_of schedule.
Proof.
  intros H. apply mapM_Forall2 in H.
  induction H as [|cfg s l l' Hs _ IH]; cbn [map]; auto.
  f_equal; auto. eapply summarize_name; eauto.
Qed.

(** The binner returns a table as soon as every rule can be summarised and
    the labels of the schedule can be joined. *)
Lemma bin_data_succeeds to_datetime schedule df interval n ts summary names :
  interval_magnitude interval = Some n ->
  get_column df TIME_COLUMN = OK ts ->
  mapM (summarize (fst (bin_data to_datetime schedule df interval))) schedule
  = OK summary ->
  output_labels schedule = OK names ->
  exists out, snd (bin_data to_datetime schedule df interval) = OK out.
Proof.
  intros Hn Hts Hs Hl.
  rewrite (bin_data_result _ _ _ _ _ _ Hn Hts). cbv zeta. rewrite Hs.
  cbn [bind]. destruct summary as [|s0 rest]; cbn [bind]; eauto.
  apply summaries_names in Hs. unfold output_labels in Hl.
  rewrite <- Hs in Hl. cbn [map] in Hl.
  destruct (merge_all_labels [s_name s0] (map s_name rest)) as [l|] eqn:El;
    cbn [bind] in Hl; [|discriminate].
  destruct (merge_all_ok rest (joined_of_summary s0) l El) as [j Hj].
  rewrite Hj. cbn [bind]. eauto.
Qed.

(** ** Labels of a schedule with a repeated name *)

Lemma suffixed_not_bin (X : string) (c : ascii) :
  String.eqb (X ++ String "_" (String c EmptyString))%string "Bin" = false.
Proof.
  apply String.eqb_neq. intros H.
  destruct X as [|a [|b [|d X]]]; cbn in H; try discriminate.
  inversion H. destruct X; discriminate.
Qed.

Lemma output_labels_single (r : rule) :
  is_key_label (name_of r) = false ->
  output_labels [r] = OK [name_of r].
Proof.
  intros H. unfold output_labels. cbn [map merge_all_labels bind].
  unfold is_key_label in H. apply orb_false_iff in H. destruct H as [_ H].
  now rewrite H.
Qed.

Lemma output_labels_twice (r1 r2 : rule) :
  name_of r1 = name_of r2 ->
  is_key_label (name_of r1) = false ->
  output_labels [r1; r2]
  = OK [(name_of r1 ++ "_x")%string; (name_of r1 ++ "_y")%string].
Proof.
  intros E H. unfold output_labels. cbn [map merge_all_labels]. rewrite <- E.
  unfold merge_labels. cbn [existsb]. rewrite H. cbn [orb].
  rewrite String.eqb_refl. cbn [orb map]. rewrite String.eqb_refl.
  cbn [duplicated duplicated_from existsb combine fst snd andb orb bind app
       map].
  now rewrite !suffixed_not_bin.
Qed.

Lemma Forall2_one {A B : Type} (P : A -> B -> Prop) (a : A) (l : list B) :
  Forall2 P [a] l -> exists b, l = [b] /\ P a b.
Proof.
  intros H. inversion H as [|? b ? l' Hab Hl]; subst.
  inversion Hl; subst. eauto.
Qed.

(** C5 (amended).  [bin_data] has no check on the names of the schedule.  On
    two rules with the same output name [X] (other than a key label) it
    raises nothing on that account: whenever each rule can be binned on its
    own, the pair is binned as well, and the join keeps both columns, the
    first as [X_x] and the second as [X_y], with the values each rule gives
    alone. *)
Theorem duplicate_output_names_are_suffixed
    (to_datetime : list value -> list value) (df : DataFrame)
    (interval : string) (r1 r2 : rule) (o1 o2 : DataFrame) :
  name_of r1 = name_of r2 ->
  is_key_label (name_of r1) = false ->
  snd (bin_data to_datetime [r1] df interval) = OK o1 ->
  snd (bin_data to_datetime [r2] df interval) = OK o2 ->
  exists out devs bins vals1 vals2,
    snd (bin_data to_datetime [r1; r2] df interval) = OK out
    /\ columns o1 = [(DELINEATING_COL, devs); ("Time", bins);
                     (name_of r1, vals1)]
    /\ columns o2 = [(DELINEATING_COL, devs); ("Time", bins);
                     (name_of r1, vals2)]
    /\ columns out = [(DELINEATING_COL, devs); ("Time", bins);
                      ((name_of r1 ++ "_x")%string, vals1);
                      ((name_of r1 ++ "_y")%string, vals2)].
Proof.
  intros E Hk H1 H2.
  destruct (bin_data_ok_inv _ _ _ _ _ H1) as (n & ts & sm1 & Hn & Hts & Hs1).
  destruct (bin_data_ok_inv _ _ _ _ _ H2) as (_ & _ & sm2 & _ & _ & Hs2).
  assert (N1 : [r1] <> []) by discriminate.
  assert (N2 : [r2] <> []) by discriminate.
  assert (N : [r1; r2] <> []) by discriminate.
  pose proof (bin_data_shape _ _ _ _ _ _ _ Hn Hts N1 H1) as S1.
  pose proof (bin_data_shape _ _ _ _ _ _ _ Hn Hts N2 H2) as S2.
  cbv zeta in S1, S2.
  rewrite (bin_data_state_any _ [r1] [r1; r2]) in Hs1, S1.
  rewrite (bin_data_state_any _ [r2] [r1; r2]) in Hs2, S2.
  set (df' := fst (bin_data to_datetime [r1; r2] df interval)) in *.
  assert (Hs : mapM (summarize df') [r1; r2] = OK (sm1 ++ sm2)).
  { cbn [mapM] in *.
    destruct (summarize df' r1); cbn [bind] in *; [|discriminate].
    destruct (summarize df' r2); cbn [bind] in *; [|discriminate].
    inversion Hs1; inversion Hs2; reflexivity. }
  destruct (bin_data_succeeds _ _ _ _ _ _ _ _ Hn Hts Hs
              (output_labels_twice r1 r2 E Hk)) as [out Hout].
  pose proof (bin_data_shape _ _ _ _ _ _ _ Hn Hts N Hout) as S. cbv zeta in S. fold df' in S.
  destruct S1 as (g1 & nm1 & vs1 & Hg1 & _ & Hl1 & Ha1 & _ & Hc1).
  destruct S2 as (g2 & nm2 & vs2 & Hg2 & _ & Hl2 & Ha2 & _ & Hc2).
  destruct S as (g & nm & vs & Hg & _ & Hl & Ha & _ & Hc).
  rewrite Hg in Hg1, Hg2. inversion Hg1; inversion Hg2; subst g1 g2.
  rewrite output_labels_single in Hl1 by assumption.
  rewrite output_labels_single in Hl2 by (rewrite <- E; assumption).
  rewrite output_labels_twice in Hl by assumption.
  inversion Hl1; inversion Hl2; inversion Hl; subst nm1 nm2 nm.
  apply Forall2_one in Ha1, Ha2.
  destruct Ha1 as (v1 & -> & Hv1). destruct Ha2 as (v2 & -> & Hv2).
  inversion Ha as [|? w1 ? l' Hw1 Hrest]; subst.
  apply Forall2_one in Hrest. destruct Hrest as (w2 & -> & Hw2).
  rewrite Hv1 in Hw1. rewrite Hv2 in Hw2. inversion Hw1; inversion Hw2; subst.
  exists out, (map (fun g0 => fst (fst g0)) g),
    (map (fun g0 => snd (fst g0)) g), w1, w2.
  split; [exact Hout|]. split; [exact Hc1|]. split; [|exact Hc].
  rewrite Hc2. rewrite <- E. reflexivity.
Qed.

Lemma duplicate_output_names_are_suffixed_witness :
  exists out,
    snd (bin_data to_datetime_strict [rule_X_act; rule_X_temp] long_sample
           "15 minutes") = OK out
    /\ labels out = ["Dataset"; "Time"; "X_x"; "X_y"].
Proof.
  edestruct (duplicate_output_names_are_suffixed to_datetime_strict
               long_sample "15 minutes" rule_X_act rule_X_temp)
    as (out & devs & bins & v1 & v2 & Ho & _ & _ & Hc);
    [reflexivity | reflexivity
     | vm_compute; reflexivity | vm_compute; reflexivity |].
  exists out. split; [exact Ho|].
  unfold labels. rewrite Hc. reflexivity.
Defined.

(** C5 (as stated) fails: a schedule of two rules named [X] raises nothing;
    both rules are aggregated and the table comes back with the columns
    [X_x] and [X_y]. *)
Lemma duplicate_names_raise_nothing :
  exists out,
    snd (bin_data to_datetime_strict [rule_X_act; rule_X_temp] long_sample
           "15 minutes") = OK out
    /\ name_of rule_X_act = name_of rule_X_temp
    /\ labels out = ["Dataset"; "Time"; "X_x"; "X_y"]
    /\ get_column out "X_x" = OK [num 1; num 3; VNA]
    /\ get_column out "X_y" = OK [num 20; num 21; num 22].
Proof.
  eexists. split; [vm_compute; reflexivity|].
  repeat split; vm_compute; reflexivity.
Qed.

(** ** When the binner returns a table *)





(** ** One row per device and bin *)

Lemma Forall2_nth_error {A B : Type} (P : A -> B -> Prop) (l : list A)
    (l' : list B) (i : nat) (a : A) :
  Forall2 P l l' -> nth_error l i = Some a ->
  exists b, nth_error l' i = Some b /\ P a b.
Proof.
  intros H. revert i. induction H as [|x y l l' Hxy _ IH]; intros i Hi.
  - destruct i; discriminate.
  - destruct i; cbn in *.
    + inversion Hi; subst. eauto.
    + auto.
Qed.

Lemma nth_error_combine {A B : Type} (l : list A) : forall (l' : list B) i a b,
  nth_error l i = Some a -> nth_error l' i = Some b ->
  nth_error (combine l l') i = Some (a, b).
Proof.
  induction l as [|x l IH]; intros [|y l'] [|i] a b Ha Hb; cbn in *;
    try discriminate.
  - congruence.
  - auto.
Qed.

Lemma nrows_binned to_datetime schedule df interval :
  nrows (fst (bin_data to_datetime schedule df interval)) = nrows df.
Proof.
  unfold bin_data. destruct (interval_magnitude interval); auto.
  destruct (get_column df TIME_COLUMN); auto.
Qed.

(** The groups the binner aggregates over, in terms of its input: the
    distinct pairs of a device and a floored time, both present, in
    ascending order, each with the rows that carry it. *)
Lemma binner_groups to_datetime schedule df interval n ts groups :
  interval_magnitude interval = Some n ->
  get_column df TIME_COLUMN = OK ts ->
  groupby2 (fst (bin_data to_datetime schedule df interval))
           DELINEATING_COL "Bin" = OK groups ->
  let w := n * unit_ns (interval_unit interval) in
  let key_at devs i :=
    (cell devs i, dt_floor w (cell (coerce_time to_datetime ts) i)) in
  exists devs,
    get_column df DELINEATING_COL = OK devs
    /\ NoDup (map fst groups)
    /\ StronglySorted (fun a b => key_leb a b = true) (map fst groups)
    /\ (forall k, In k (map fst groups)
                  <-> key_notna k = true
                      /\ exists i, (i < nrows df)%nat /\ k = key_at devs i)
    /\ (forall k idxs, In (k, idxs) groups ->
          idxs = filter (fun i => key_eqb (key_at devs i) k)
                        (row_positions df)).
Proof.
  intros Hn Hts Hg w key_at.
  destruct (groupby2_keys _ _ _ _ Hg)
    as (k1 & k2 & H1 & H2 & Hnd & Hso & Hin & Hidx).
  rewrite (bin_data_bin_column _ _ _ _ _ _ Hn Hts) in H2.
  inversion H2; subst k2; clear H2.
  rewrite (bin_data_state _ _ _ _ _ _ Hn Hts) in H1.
  rewrite !get_set_other in H1 by discriminate.
  rewrite nrows_binned in Hin.
  unfold row_positions in Hidx. rewrite nrows_binned in Hidx.
  fold w in Hin, Hidx.
  assert (Hc : forall i,
             (cell k1 i, cell (map (dt_floor w) (coerce_time to_datetime ts)) i)
             = key_at k1 i).
  { intros i. unfold key_at. now rewrite cell_map. }
  exists k1. split; [exact H1|]. split; [exact Hnd|]. split; [exact Hso|].
  split.
  - intros k. rewrite Hin. split; intros [Hk (i & Hi & ->)]; split; auto;
      exists i; split; auto.
  - intros k idxs Hk. rewrite (Hidx k idxs Hk).
    apply filter_ext. intros i. now rewrite Hc.
Qed.




(** ** Reducing a single value *)

Lemma np_sum_single (x : Qc) : np_sum [x] = x.
Proof. unfold np_sum. cbn [fold_left]. apply Qcplus_0_l. Qed.

Lemma np_mean_single (x : Qc) : np_mean [x] = x.
Proof.
  unfold np_mean. rewrite np_sum_single. cbn [List.length].
  assert (E : Qc_of_Z (Z.of_nat 1) = 1%Qc) by (apply Qc_is_canon; reflexivity).
  rewrite E. unfold Qcdiv.
  assert (I : (/ 1)%Qc = 1%Qc) by (apply Qc_is_canon; reflexivity).
  rewrite I. apply Qcmult_1_r.
Qed.

Lemma agg_func_single cols agg df idxs (x : Qc) :
  contributing df cols idxs = OK [x] ->
  agg <> "act_percent" ->
  agg_func cols agg df idxs = OK (VNum x).
Proof.
  intros Hc Hagg. rewrite agg_func_contributing, Hc. cbn [bind].
  apply String.eqb_neq in Hagg. rewrite Hagg.
  rewrite np_sum_single, np_mean_single. unfold np_max, np_min.
  cbn [fold_left].
  repeat match goal with |- context [if ?b then _ else _] => destruct b end;
    reflexivity.
Qed.

Lemma cell_fixed (f : value -> value) (vs : list value) (i : nat) :
  f VNA = VNA -> Forall (fun v => f v = v) vs -> f (cell vs i) = cell vs i.
Proof.
  intros H0 H. unfold cell. destruct (Nat.lt_ge_cases i (List.length vs)).
  - rewrite Forall_forall in H. apply H. now apply nth_In.
  - now rewrite nth_overflow.
Qed.

(** C9.  Binning again a table that is already binned, at the same interval,
    reproduces its values wherever a group holds a single value.  Let the
    timestamps be instants already floored to the interval.  Then every pair
    of a device and a timestamp of the table, both present, is a row of the
    result under that same timestamp; and if the rows of a pair contribute
    exactly one value [x] to a rule whose reducer is [mean] (or any reducer
    other than [act_percent]), the result holds [x] for that pair and rule. *)
Theorem rebinning_keeps_single_values
    (to_datetime : list value -> list value) (schedule : list rule)
    (df : DataFrame) (interval : string) (n : Z) (ts : list value)
    (out : DataFrame) :
  interval_magnitude interval = Some n ->
  get_column df TIME_COLUMN = OK ts ->
  coerce_time to_datetime ts = ts ->
  Forall (fun v => dt_floor (n * unit_ns (interval_unit interval)) v = v) ts ->
  schedule <> [] ->
  snd (bin_data to_datetime schedule df interval) = OK out ->
  let df' := fst (bin_data to_datetime schedule df interval) in
  exists devs keys,
    get_column df DELINEATING_COL = OK devs
    /\ get_column out DELINEATING_COL = OK (map fst keys)
    /\ get_column out "Time" = OK (map snd keys)
    /\ (forall i, (i < nrows df)%nat ->
                  key_notna (cell devs i, cell ts i) = true ->
                  In (cell devs i, cell ts i) keys)
    /\ (forall j cfg r k x,
          nth_error schedule j = Some cfg ->
          nth_error keys r = Some k ->
          summarize_of cfg <> "act_percent" ->
          contributing df' (columns_of cfg)
            (filter (fun i => key_eqb (cell devs i, cell ts i) k)
                    (row_positions df))
          = OK [x] ->
          exists name vals,
            nth_error (columns out) (2 + j) = Some (name, vals)
            /\ nth_error vals r = Some (VNum x)).
Proof.
  intros Hn Hts Hco Hfl Hne Hout. cbv beta zeta.
  pose proof (bin_data_shape _ _ _ _ _ _ _ Hn Hts Hne Hout) as S.
  cbv beta zeta in S.
  destruct S as (groups & names & valss & Hg & Hlen & _ & Hagg & Hrows & Hcols).
  pose proof (binner_groups _ _ _ _ _ _ _ Hn Hts Hg) as G.
  cbv beta zeta in G. rewrite Hco in G.
  destruct G as (devs & Hd & Hnd & Hso & Hin & Hidx).
  assert (Hfix : forall i,
             dt_floor (n * unit_ns (interval_unit interval)) (cell ts i)
             = cell ts i).
  { intros i. now apply cell_fixed. }
  exists devs, (map fst groups).
  split; [exact Hd|]. split; [|split; [|split]].
  - unfold get_column. rewrite Hcols. cbn [assoc]. rewrite String.eqb_refl.
    now rewrite map_map.
  - unfold get_column. rewrite Hcols. cbn [assoc].
    replace (String.eqb "Time" DELINEATING_COL) with false by reflexivity.
    rewrite String.eqb_refl. now rewrite map_map.
  - intros i Hi Hk. apply Hin. split; [exact Hk|].
    exists i. split; [exact Hi|]. now rewrite Hfix.
  - intros j cfg r k x Hj Hr Hred Hc.
    destruct (Forall2_nth_error _ _ _ _ _ Hagg Hj) as (vals & Hv & Hm).
    assert (Hnm : exists name, nth_error names j = Some name).
    { destruct (nth_error names j) eqn:E; eauto.
      apply nth_error_None in E.
      assert (H : nth_error schedule j <> None) by congruence.
      apply nth_error_Some in H. lia. }
    destruct Hnm as [name Hname].
    exists name, vals. split.
    + rewrite Hcols. cbn [plus nth_error]. now apply nth_error_combine.
    + rewrite nth_error_map in Hr.
      destruct (nth_error groups r) as [[k' idxs]|] eqn:Eg; [|discriminate].
      cbn in Hr. inversion Hr; subst k'.
      destruct (mapM_nth _ _ _ _ _ Hm Eg) as (v & Hnv & Hav).
      cbn [snd] in Hav.
      rewrite (Hidx k idxs (nth_error_In _ _ Eg)) in Hav.
      rewrite (filter_ext _ (fun i => key_eqb (cell devs i, cell ts i) k))
        in Hav by (intros i; now rewrite Hfix).
      rewrite (agg_func_single _ _ _ _ x Hc Hred) in Hav.
      inversion Hav; subst v. exact Hnv.
Qed.

Lemma rebinning_keeps_single_values_witness :
  exists keys : list key,
    get_column rebinned_sample "Time" = OK (map snd keys)
    /\ In (VStr "a", at_minute 615) keys
    /\ (nth_error keys 1 = Some (VStr "a", at_minute 615) ->
        exists name vals,
          nth_error (columns rebinned_sample) 2 = Some (name, vals)
          /\ nth_error vals 1 = Some (num 3)).
Proof.
  destruct (rebinning_keeps_single_values to_datetime_strict SELECTED_COLUMNS
              floored_sample "15 minutes" 15
              [at_minute 600; at_minute 615; at_minute 600] rebinned_sample)
    as (devs & keys & Hd & _ & Ht & Hin & Hval);
    [reflexivity | reflexivity | reflexivity | repeat constructor
     | discriminate | vm_compute; reflexivity |].
  vm_compute in Hd. inversion Hd; subst devs; clear Hd.
  exists keys. split; [exact Ht|]. split.
  - apply (Hin 1%nat); [vm_compute; lia | reflexivity].
  - intros Hk.
    apply (Hval 0%nat _ 1%nat _ (Qc_of_Z 3) eq_refl Hk);
      [discriminate | vm_compute; reflexivity].
Defined.

(** ** Row selection on the long frame *)

Lemma cell_map_row (f : long_row -> value) (rows : list long_row) (i : nat) :
  f na_row = VNA -> cell (map f rows) i = f (nth i rows na_row).
Proof.
  intros H. unfold cell. rewrite <- H. apply map_nth.
Qed.

Lemma take_rows_long (idxs : list nat) (rows : list long_row) :
  take_rows idxs (long_frame rows)
  = long_frame (map (fun i => nth i rows na_row) idxs).
Proof.
  unfold take_rows, long_frame. cbn [nrows columns map fst snd].
  rewrite length_map.
  assert (E : forall f : long_row -> value, f na_row = VNA ->
            map (cell (map f rows)) idxs
            = map f (map (fun i => nth i rows na_row) idxs)).
  { intros f Hf. rewrite map_map. apply map_ext. intros i.
    now apply cell_map_row. }
  rewrite !E by reflexivity. reflexivity.
Qed.

Lemma map_nth_seq {A : Type} (l : list A) (d : A) :
  map (fun i => nth i l d) (seq 0 (List.length l)) = l.
Proof.
  induction l as [|a l IH]; cbn [List.length seq map nth]; auto.
  f_equal. rewrite <- seq_shift, map_map. exact IH.
Qed.

Lemma filter_map_comm {A B : Type} (p : B -> bool) (f : A -> B) (l : list A) :
  filter p (map f l) = map f (filter (fun a => p (f a)) l).
Proof.
  induction l as [|a l IH]; cbn [map filter]; auto.
  destruct (p (f a)); cbn [map]; congruence.
Qed.

Lemma long_frame_columns (rows : list long_row) :
  get_column (long_frame rows) DELINEATING_COL = OK (map lr_Dataset rows)
  /\ get_column (long_frame rows) "Time" = OK (map lr_Time rows)
  /\ get_column (long_frame rows) "Act" = OK (map lr_Act rows).
Proof. repeat split. Qed.

Lemma dropna_long (rows : list long_row) :
  dropna "Act" (long_frame rows)
  = OK (long_frame (filter (fun r => notna (lr_Act r)) rows)).
Proof.
  unfold dropna.
  destruct (long_frame_columns rows) as (_ & _ & ->). cbn [bind].
  rewrite take_rows_long. do 2 f_equal.
  unfold row_positions. cbn [long_frame nrows].
  rewrite (filter_ext _ (fun i => notna (lr_Act (nth i rows na_row))))
    by (intros i; now rewrite cell_map_row).
  rewrite <- (filter_map_comm (fun r => notna (lr_Act r))
                (fun i => nth i rows na_row)).
  now rewrite map_nth_seq.
Qed.

Lemma sort_values_long (rows : list long_row) :
  sort_values DELINEATING_COL "Time" (long_frame rows)
  = OK (long_frame (stable_sort row_leb rows)).
Proof.
  unfold sort_values.
  destruct (long_frame_columns rows) as (-> & -> & _). cbn [bind].
  rewrite take_rows_long. do 2 f_equal.
  unfold row_positions. cbn [long_frame nrows].
  rewrite (stable_sort_ext _
             (fun i j => row_leb (nth i rows na_row) (nth j rows na_row)))
    by (intros i j _ _; unfold row_leb, row_key;
        now rewrite !cell_map_row).
  rewrite <- (stable_sort_map row_leb (fun i => nth i rows na_row)).
  now rewrite map_nth_seq.
Qed.

(** ** Grouping is a rearrangement *)

Lemma value_eqb_eq (a b : value) : value_eqb a b = true <-> a = b.
Proof. unfold value_eqb. destruct (value_eq_dec a b); split; congruence. Qed.

Lemma flat_map_scatter {B : Type} (k0 : value) (Y : list B)
    (X : value -> list B) (keys : list value) :
  NoDup keys ->
  Permutation
    (flat_map (fun k => (if value_eqb k0 k then Y else []) ++ X k) keys)
    ((if in_dec value_eq_dec k0 keys then Y else []) ++ flat_map X keys).
Proof.
  induction 1 as [|k ks Hk Hnd IH]; cbn [flat_map].
  - destruct (in_dec value_eq_dec k0 []); [contradiction|constructor].
  - rewrite IH. clear IH.
    destruct (value_eq_dec k0 k) as [->|Hne].
    + assert (E : value_eqb k k = true) by now apply value_eqb_eq.
      rewrite E.
      destruct (in_dec value_eq_dec k ks); [contradiction|].
      destruct (in_dec value_eq_dec k (k :: ks)) as [_|Hn];
        [|exfalso; apply Hn; now left].
      cbn [app]. now rewrite app_assoc.
    + assert (E : value_eqb k0 k = false).
      { destruct (value_eqb k0 k) eqn:E; auto.
        apply value_eqb_eq in E. contradiction. }
      rewrite E. cbn [app].
      destruct (in_dec value_eq_dec k0 ks) as [Hin|Hin];
        destruct (in_dec value_eq_dec k0 (k :: ks)) as [Hin'|Hin'];
        cbn [app]; try reflexivity.
      * apply Permutation_app_swap_app.
      * exfalso. apply Hin'. now right.
      * exfalso. destruct Hin' as [->|Hin']; contradiction.
Qed.

Lemma partition_perm {B : Type} (keyf : nat -> value) (G : nat -> list B)
    (keys : list value) (l : list nat) :
  NoDup keys ->
  Permutation
    (flat_map (fun k => flat_map G (filter (fun i => value_eqb (keyf i) k) l))
              keys)
    (flat_map G (filter (fun i => if in_dec value_eq_dec (keyf i) keys
                                  then true else false) l)).
Proof.
  intros Hnd. induction l as [|a l IH].
  - cbn [filter flat_map]. clear Hnd.
    induction keys; cbn [flat_map app]; auto.
  - cbn [filter].
    rewrite (flat_map_ext _
               (fun k => (if value_eqb (keyf a) k then G a else [])
                         ++ flat_map G (filter (fun i => value_eqb (keyf i) k)
                                               l)))
      by (intros k; destruct (value_eqb (keyf a) k); reflexivity).
    rewrite flat_map_scatter by assumption. rewrite IH.
    destruct (in_dec value_eq_dec (keyf a) keys); reflexivity.
Qed.

(** ** The rows built by the reshaper *)

Lemma row_item_inv (df : DataFrame) (i : nat) (c : string) (v : value) :
  row_item df i c = OK v -> v = row_get df i c.
Proof.
  unfold row_item, row_get, get_column.
  destruct (assoc c (columns df)); cbn [bind]; congruence.
Qed.

Lemma row_item_present (df : DataFrame) (i : nat) (c : string) :
  In c (labels df) -> row_item df i c = OK (row_get df i c).
Proof.
  intros H. destruct (get_column_present df c H) as [vs Hvs].
  unfold row_item, row_get. rewrite Hvs. cbn [bind].
  unfold get_column in Hvs. destruct (assoc c (columns df)); congruence.
Qed.

Lemma mapM_ok_map {A B : Type} (f : A -> result B) (g : A -> B) (l : list A)
    (bs : list B) :
  (forall a b, In a l -> f a = OK b -> b = g a) ->
  mapM f l = OK bs -> bs = map g l.
Proof.
  revert bs. induction l as [|a l IH]; cbn [mapM map]; intros bs Hf H.
  - now inversion H.
  - destruct (f a) as [b|] eqn:Ea; cbn [bind] in H; [|discriminate].
    destruct (mapM f l) as [bs'|]; cbn [bind] in H; [|discriminate].
    inversion H; subst. f_equal.
    + apply Hf; auto. now left.
    + apply IH; auto. intros a' b' Hin. apply Hf. now right.
Qed.

Section Reshaper.
Variable df : DataFrame.
Variable act_cols : list string.
Variable times devs : list value.
Hypothesis Htimes : get_column df TIME_COLUMN = OK times.
Hypothesis Hdevs : get_column df DELINEATING_COL = OK devs.

Let K := List.length act_cols.

Lemma new_rows_inv (device_id : value) (i : nat) (rows : list long_row) :
  new_rows df act_cols device_id i = OK rows ->
  rows = map (derived_row df times device_id i) (seq 0 K).
Proof.
  unfold new_rows, row_item at 1. rewrite Htimes. cbn [bind].
  apply mapM_ok_map. intros offset r _ H.
  destruct (row_item df i (act_label offset)) as [act|] eqn:Ea;
    cbn [bind] in H; [|discriminate].
  apply row_item_inv in Ea. inversion H; subst. reflexivity.
Qed.

Lemma new_rows_ok (device_id : value) (i : nat) :
  (forall offset, (offset < K)%nat -> In (act_label offset) (labels df)) ->
  new_rows df act_cols device_id i
  = OK (map (derived_row df times device_id i) (seq 0 K)).
Proof.
  intros Hslots. unfold new_rows, row_item at 1. rewrite Htimes.
  cbn [bind]. apply mapM_ok. intros offset Hin. apply in_seq in Hin.
  rewrite row_item_present by (apply Hslots; lia). reflexivity.
Qed.

(** The device groups: the present device identifiers in ascending order,
    each with the positions of its records. *)
Let groups : list (value * list nat) :=
  map (fun k => (k, filter (fun i => value_eqb (cell devs i) k)
                           (row_positions df)))
      (stable_sort value_leb
         (nodup value_eq_dec
            (filter notna (map (cell devs) (row_positions df))))).

Let grouped : list long_row :=
  flat_map (fun g => flat_map (fun i => map (derived_row df times (fst g) i)
                                            (seq 0 K)) (snd g)) groups.

Lemma melted_rows_inv (rows : list long_row) :
  melted_rows df act_cols = OK rows -> rows = grouped.
Proof.
  unfold melted_rows, groupby. rewrite Hdevs. cbn [bind]. fold groups.
  destruct (mapM _ groups) as [per_group|] eqn:E; cbn [bind]; [|discriminate].
  intros H. inversion H; subst; clear H.
  unfold grouped. rewrite flat_map_concat_map. f_equal.
  revert E. apply mapM_ok_map. intros g rs _ Hg.
  destruct (mapM (new_rows df act_cols (fst g)) (snd g)) as [per_row|] eqn:E';
    cbn [bind] in Hg; [|discriminate].
  inversion Hg; subst; clear Hg.
  rewrite flat_map_concat_map. f_equal.
  revert E'. apply mapM_ok_map. intros i r _. apply new_rows_inv.
Qed.

Lemma melted_rows_ok :
  (forall offset, (offset < K)%nat -> In (act_label offset) (labels df)) ->
  melted_rows df act_cols = OK grouped.
Proof.
  intros Hslots. unfold melted_rows, groupby. rewrite Hdevs. cbn [bind].
  fold groups.
  rewrite (mapM_ok _ (fun g => flat_map
                                 (fun i => map (derived_row df times (fst g) i)
                                               (seq 0 K)) (snd g))).
  - cbn [bind]. unfold grouped. now rewrite flat_map_concat_map.
  - intros g _.
    rewrite (mapM_ok _ (fun i => map (derived_row df times (fst g) i)
                                     (seq 0 K))).
    + cbn [bind]. now rewrite flat_map_concat_map.
    + intros i _. now apply new_rows_ok.
Qed.
Lemma grouped_perm : Permutation grouped (expanded df times devs K).
Proof.
  unfold grouped, groups, expanded.
  set (keys := stable_sort value_leb
                 (nodup value_eq_dec
                    (filter notna (map (cell devs) (row_positions df))))).
  set (G := fun i => map (derived_row df times (cell devs i) i) (seq 0 K)).
  assert (Hnd : NoDup keys) by apply stable_sort_NoDup, NoDup_nodup.
  assert (E : flat_map
                (fun g : value * list nat =>
                   flat_map (fun i => map (derived_row df times (fst g) i)
                                          (seq 0 K)) (snd g))
                (map (fun k => (k, filter (fun i => value_eqb (cell devs i) k)
                                          (row_positions df))) keys)
              = flat_map
                  (fun k => flat_map G
                              (filter (fun i => value_eqb (cell devs i) k)
                                      (row_positions df))) keys).
  { clear Hnd. induction keys as [|k ks IH]; cbn [map flat_map fst snd]; auto.
    rewrite IH. f_equal.
    rewrite !flat_map_concat_map. f_equal. apply map_ext_in.
    intros i Hi. apply filter_In in Hi. destruct Hi as [_ Hi].
    apply value_eqb_eq in Hi. unfold G. now rewrite Hi. }
  rewrite E.
  rewrite (partition_perm (cell devs) G keys (row_positions df) Hnd).
  rewrite (filter_ext_in _ (fun i => notna (cell devs i))); [reflexivity|].
  intros i Hi.
  destruct (in_dec value_eq_dec (cell devs i) keys) as [Hin|Hin].
  - apply stable_sort_In, nodup_In, filter_In in Hin. symmetry. tauto.
  - destruct (notna (cell devs i)) eqn:En; auto.
    exfalso. apply Hin. apply stable_sort_In, nodup_In, filter_In.
    split; auto. now apply in_map.
Qed.
End Reshaper.

(** ** The result of the reshaper *)

Lemma act_label_not_time (offset : nat) : act_label offset <> TIME_COLUMN.
Proof. unfold act_label. cbn. discriminate. Qed.

Lemma row_get_coerced (df : DataFrame) (vs : list value) (i : nat) (c : string) :
  c <> TIME_COLUMN -> row_get (set_column df TIME_COLUMN vs) i c = row_get df i c.
Proof.
  intros H. unfold row_get, set_column. cbn [columns].
  now rewrite assoc_assign_other.
Qed.

Lemma expanded_coerced (df : DataFrame) (vs times devs : list value) (K : nat) :
  expanded (set_column df TIME_COLUMN vs) times devs K
  = expanded df times devs K.
Proof.
  unfold expanded, row_positions. cbn [set_column nrows].
  apply flat_map_ext. intros i. apply map_ext. intros offset.
  unfold derived_row.
  rewrite !row_get_coerced by (try apply act_label_not_time; discriminate).
  reflexivity.
Qed.

Lemma melt_result to_datetime (df : DataFrame) (ts devs : list value) :
  get_column df TIME_COLUMN = OK ts ->
  get_column df DELINEATING_COL = OK devs ->
  let K := List.length (filter is_act_col (labels df)) in
  (forall out, snd (melt_activity_data to_datetime df) = OK out ->
     exists rows,
       Permutation rows (expanded df (coerce_time to_datetime ts) devs K)
       /\ rows <> []
       /\ out = long_frame
                  (stable_sort row_leb
                     (filter (fun r => notna (lr_Act r)) rows)))
  /\ ((forall offset, (offset < K)%nat -> In (act_label offset) (labels df)) ->
      exists rows,
        Permutation rows (expanded df (coerce_time to_datetime ts) devs K)
        /\ snd (melt_activity_data to_datetime df)
           = match rows with
             | [] => Raise (KeyError "Act")
             | _ => OK (long_frame
                          (stable_sort row_leb
                             (filter (fun r => notna (lr_Act r)) rows)))
             end).
Proof.
  intros Hts Hdevs K.
  set (times := coerce_time to_datetime ts).
  set (df1 := set_column df TIME_COLUMN times).
  assert (H1 : get_column df1 TIME_COLUMN = OK times) by apply get_set_same.
  assert (H2 : get_column df1 DELINEATING_COL = OK devs).
  { unfold df1. rewrite get_set_other by discriminate. exact Hdevs. }
  assert (Hl : labels df1 = labels df)
    by (eapply labels_set_present; eauto).
  assert (Hm : snd (melt_activity_data to_datetime df)
               = rows <- melted_rows df1 (filter is_act_col (labels df)) ;;
                 melted_df <- dropna "Act" (DataFrame_of_rows rows) ;;
                 sort_values DELINEATING_COL "Time" melted_df).
  { unfold melt_activity_data. rewrite Hts. reflexivity. }
  pose proof (grouped_perm df1 (filter is_act_col (labels df)) times devs) as P.
  assert (Ex : expanded df1 times devs
                 (List.length (filter is_act_col (labels df)))
               = expanded df times devs K)
    by apply expanded_coerced.
  rewrite Ex in P.
  split.
  - intros out Hout. rewrite Hm in Hout.
    destruct (melted_rows df1 _) as [rows|] eqn:Er; cbn [bind] in Hout;
      [|discriminate].
    apply (melted_rows_inv _ _ _ _ H1 H2) in Er.
    exists rows. rewrite <- Er in P. split; [exact P|].
    destruct rows as [|r rows]; [discriminate|].
    split; [discriminate|].
    cbn [DataFrame_of_rows] in Hout. rewrite dropna_long in Hout.
    cbn [bind] in Hout. rewrite sort_values_long in Hout. now inversion Hout.
  - intros Hslots. rewrite Hm.
    rewrite (melted_rows_ok _ _ _ _ H1 H2)
      by (intros o Ho; rewrite Hl; now apply Hslots).
    cbn [bind]. eexists. split; [exact P|].
    match goal with |- context [DataFrame_of_rows ?l] => destruct l end.
    + reflexivity.
    + cbn [DataFrame_of_rows]. rewrite dropna_long. cbn [bind].
      apply sort_values_long.
Qed.

(** ** Sorted rows are partitioned by device *)




Lemma Permutation_filter {A : Type} (p : A -> bool) (l l' : list A) :
  Permutation l l' -> Permutation (filter p l) (filter p l').
Proof.
  induction 1 as [|x l l' _ IH|x y l|l l' l'' _ IH1 _ IH2]; cbn [filter].
  - constructor.
  - destruct (p x); auto.
  - destruct (p x); destruct (p y); auto. apply perm_swap.
  - etransitivity; eauto.
Qed.




(** ** Failures on an absent column *)











(** * Further properties of the binner *)

(** ** Labels of a schedule with distinct names *)

Lemma duplicated_from_length (l : list string) : forall seen,
  List.length (duplicated_from seen l) = List.length l.
Proof.
  induction l as [|c l IH]; intros seen; cbn [duplicated_from List.length];
    auto.
Qed.








(** ** The percent score is the raw score, rescaled *)

Lemma mapM_related {A B : Type} (f g : A -> result B) (h : B -> B)
    (l : list A) : forall a b,
  (forall x va vb, In x l -> f x = OK va -> g x = OK vb -> vb = h va) ->
  mapM f l = OK a -> mapM g l = OK b -> b = map h a.
Proof.
  induction l as [|x l IH]; cbn [mapM]; intros a b Hrel Hf Hg.
  - inversion Hf; inversion Hg; reflexivity.
  - destruct (f x) as [va|] eqn:Ef; cbn [bind] in Hf; [|discriminate].
    destruct (mapM f l) as [a'|]; cbn [bind] in Hf; [|discriminate].
    destruct (g x) as [vb|] eqn:Eg; cbn [bind] in Hg; [|discriminate].
    destruct (mapM g l) as [b'|]; cbn [bind] in Hg; [|discriminate].
    inversion Hf; inversion Hg; subst. cbn [map]. f_equal.
    + eapply Hrel; eauto. now left.
    + apply IH; auto. intros x' va' vb' Hin. apply Hrel. now right.
Qed.

Lemma act_percent_of_mean cols agg df idxs v1 v2 :
  agg <> "sum" -> agg <> "max" -> agg <> "min" -> agg <> "act_percent" ->
  agg_func cols agg df idxs = OK v1 ->
  agg_func cols "act_percent" df idxs = OK v2 ->
  v2 = percent_cell v1.
Proof.
  intros H1 H2 H3 H4. rewrite !agg_func_contributing.
  destruct (contributing df cols idxs) as [xs|]; cbn [bind]; [|discriminate].
  destruct xs as [|x rest].
  - intros E1 E2. inversion E1; inversion E2; reflexivity.
  - apply String.eqb_neq in H1, H2, H3, H4. rewrite H1, H2, H3, H4.
    cbn. intros E1 E2. inversion E1; inversion E2; reflexivity.
Qed.

(** X2.  In the table [bin_data] returns, the column of an [act_percent] rule
    is, row by row, the column of a [mean] rule over the same source columns
    taken times 50 plus 50, and it is missing exactly where the mean is
    missing. *)
Theorem percent_score_rescales_raw_score
    (to_datetime : list value -> list value) (schedule : list rule)
    (df : DataFrame) (interval : string) (out : DataFrame)
    (j1 j2 : nat) (r1 r2 : rule) :
  snd (bin_data to_datetime schedule df interval) = OK out ->
  nth_error schedule j1 = Some r1 ->
  nth_error schedule j2 = Some r2 ->
  columns_of r1 = columns_of r2 ->
  summarize_of r1 = "mean" ->
  summarize_of r2 = "act_percent" ->
  exists name1 vals1 name2 vals2,
    nth_error (columns out) (2 + j1) = Some (name1, vals1)
    /\ nth_error (columns out) (2 + j2) = Some (name2, vals2)
    /\ vals2 = map percent_cell vals1.
Proof.
  intros Hout Hj1 Hj2 Hcols Hm Hp.
  assert (Hne : schedule <> []) by (intros ->; destruct j1; discriminate).
  destruct (bin_data_ok_inv _ _ _ _ _ Hout) as (n & ts & _ & Hn & Hts & _).
  destruct (bin_data_shape _ _ _ _ _ _ _ Hn Hts Hne Hout)
    as (groups & names & valss & _ & Hlen & _ & Hagg & _ & Hc).
  destruct (Forall2_nth_error _ _ _ _ _ Hagg Hj1) as (vals1 & Hv1 & Hm1).
  destruct (Forall2_nth_error _ _ _ _ _ Hagg Hj2) as (vals2 & Hv2 & Hm2).
  assert (Hnm : forall j r, nth_error schedule j = Some r ->
                            exists name, nth_error names j = Some name).
  { intros j r Hj. destruct (nth_error names j) eqn:E; eauto.
    apply nth_error_None in E.
    assert (H : nth_error schedule j <> None) by congruence.
    apply nth_error_Some in H. lia. }
  destruct (Hnm _ _ Hj1) as [name1 Hn1]. destruct (Hnm _ _ Hj2) as [name2 Hn2].
  exists name1, vals1, name2, vals2.
  split; [|split].
  - rewrite Hc. cbn [plus nth_error]. now apply nth_error_combine.
  - rewrite Hc. cbn [plus nth_error]. now apply nth_error_combine.
  - rewrite Hm in Hm1. rewrite Hp, <- Hcols in Hm2.
    eapply mapM_related; [|exact Hm1|exact Hm2].
    intros g v1 v2 _. apply act_percent_of_mean; discriminate.
Qed.

Lemma percent_score_rescales_raw_score_witness :
  exists name1 vals1 name2 vals2,
    nth_error (columns binned_sample) 2 = Some (name1, vals1)
    /\ nth_error (columns binned_sample) 3 = Some (name2, vals2)
    /\ vals2 = map percent_cell vals1.
Proof.
  apply (percent_score_rescales_raw_score to_datetime_strict SELECTED_COLUMNS
           long_sample "15 minutes" binned_sample 0 1
           {| rule_id := 1; rule_name := Some "Raw Score";
              rule_columns := Some ["Act"]; rule_summarize := Some "mean" |}
           {| rule_id := 2; rule_name := Some "Percent Score";
              rule_columns := Some ["Act"];
              rule_summarize := Some "act_percent" |});
    vm_compute; reflexivity.
Defined.

(** ** Binning a binned table at a coarser interval *)



Lemma as_time_idem (v : value) : as_time (as_time v) = as_time v.
Proof. now destruct v. Qed.

Lemma coerce_time_fixed to_datetime (vs : list value) :
  keeps_datetimes to_datetime ->
  Forall (fun v => as_time v = v) vs ->
  coerce_time to_datetime vs = vs.
Proof.
  intros Hk Hvs. unfold coerce_time. rewrite (Hk vs Hvs).
  induction Hvs as [|v vs Hv _ IH]; cbn [map]; congruence.
Qed.

Lemma coerce_time_is_time to_datetime (vs : list value) :
  Forall (fun v => as_time v = v) (coerce_time to_datetime vs).
Proof.
  unfold coerce_time. apply Forall_forall. intros v Hv.
  apply in_map_iff in Hv. destruct Hv as (u & <- & _). apply as_time_idem.
Qed.

Lemma strict_keeps_datetimes : keeps_datetimes to_datetime_strict.
Proof.
  intros vs Hvs. unfold to_datetime_strict.
  induction Hvs as [|v vs Hv _ IH]; cbn [map]; congruence.
Qed.



(** * Further properties of the reshaper *)

Lemma melt_ok_inv to_datetime (df out : DataFrame) :
  snd (melt_activity_data to_datetime df) = OK out ->
  exists ts devs,
    get_column df TIME_COLUMN = OK ts /\ get_column df DELINEATING_COL = OK devs.
Proof.
  intros H.
  destruct (get_column df TIME_COLUMN) as [ts|e] eqn:Et.
  - destruct (get_column df DELINEATING_COL) as [devs|e] eqn:Ed; eauto.
    exfalso. unfold melt_activity_data in H. rewrite Et in H. cbn [snd] in H.
    unfold melted_rows, groupby in H.
    rewrite get_set_other in H by discriminate. rewrite Ed in H. discriminate.
  - rewrite (melt_no_time _ _ _ Et) in H. discriminate.
Qed.

Lemma expanded_length (df : DataFrame) (times devs : list value) (K : nat) :
  List.length (expanded df times devs K)
  = (K * List.length (filter (fun i => notna (cell devs i)) (row_positions df)))%nat.
Proof.
  unfold expanded.
  induction (filter (fun i => notna (cell devs i)) (row_positions df))
    as [|i l IH]; cbn [flat_map List.length]; [lia|].
  rewrite length_app, length_map, length_seq, IH. lia.
Qed.

Lemma expanded_devices (df : DataFrame) (times devs : list value) (K : nat) :
  Forall (fun r => notna (lr_Dataset r) = true) (expanded df times devs K).
Proof.
  apply Forall_forall. intros r Hr. unfold expanded in Hr.
  apply in_flat_map in Hr. destruct Hr as (i & Hi & Hr).
  apply filter_In in Hi. apply in_map_iff in Hr.
  destruct Hr as (o & <- & _). cbn. tauto.
Qed.

(** X4.  Whenever the reshaper returns a table, that table has exactly the
    six columns [Dataset], [Time], [Act], [T], [Light], [Vbat] in this order,
    whatever other columns the wide table has; it has one row per present
    activity cell of the records with a device, hence at most K rows per
    record; and no cell of its device column or of its activity column is
    missing. *)
Theorem reshaper_table_shape
    (to_datetime : list value -> list value) (df out : DataFrame) :
  snd (melt_activity_data to_datetime df) = OK out ->
  let K := List.length (filter is_act_col (labels df)) in
  exists ts devs out_devs out_acts,
    get_column df TIME_COLUMN = OK ts
    /\ get_column df DELINEATING_COL = OK devs
    /\ labels out = [DELINEATING_COL; "Time"; "Act"; "T"; "Light"; "Vbat"]
    /\ nrows out
       = List.length
           (filter (fun r => notna (lr_Act r))
                   (expanded df (coerce_time to_datetime ts) devs K))
    /\ (nrows out <= K * nrows df)%nat
    /\ get_column out DELINEATING_COL = OK out_devs
    /\ get_column out "Act" = OK out_acts
    /\ List.length out_devs = nrows out
    /\ List.length out_acts = nrows out
    /\ Forall (fun v => notna v = true) out_devs
    /\ Forall (fun v => notna v = true) out_acts.
Proof.
  intros Hout K.
  destruct (melt_ok_inv _ _ _ Hout) as (ts & devs & Hts & Hdevs).
  destruct (melt_result to_datetime df ts devs Hts Hdevs) as [Hinv _].
  destruct (Hinv out Hout) as (rows & Hperm & _ & ->). fold K in Hperm.
  set (times := coerce_time to_datetime ts) in *.
  set (kept := stable_sort row_leb (filter (fun r => notna (lr_Act r)) rows)).
  assert (Hp : Permutation kept
                 (filter (fun r => notna (lr_Act r))
                         (expanded df times devs K))).
  { unfold kept. rewrite stable_sort_perm. now apply Permutation_filter. }
  assert (Hin : forall r, In r kept ->
                   notna (lr_Act r) = true /\ notna (lr_Dataset r) = true).
  { intros r Hr. eapply Permutation_in in Hr; [|exact Hp].
    apply filter_In in Hr. destruct Hr as [Hr Ha]. split; [exact Ha|].
    pose proof (expanded_devices df times devs K) as Hd.
    rewrite Forall_forall in Hd. now apply Hd. }
  exists ts, devs, (map lr_Dataset kept), (map lr_Act kept).
  split; [exact Hts|]. split; [exact Hdevs|]. split; [reflexivity|].
  split; [cbn [long_frame nrows]; now apply Permutation_length|].
  split.
  { cbn [long_frame nrows]. rewrite (Permutation_length Hp).
    etransitivity; [apply filter_length_le|].
    rewrite expanded_length. apply Nat.mul_le_mono_l.
    etransitivity; [apply filter_length_le|].
    unfold row_positions. now rewrite length_seq. }
  split; [reflexivity|]. split; [reflexivity|].
  split; [apply length_map|]. split; [apply length_map|].
  split; apply Forall_forall; intros v Hv; apply in_map_iff in Hv;
    destruct Hv as (r & <- & Hr); apply Hin in Hr; tauto.
Qed.

Lemma reshaper_table_shape_witness :
  labels melted_sample = ["Dataset"; "Time"; "Act"; "T"; "Light"; "Vbat"]
  /\ (nrows melted_sample <= 2 * 3)%nat.
Proof.
  destruct (reshaper_table_shape to_datetime_strict wide_sample melted_sample)
    as (ts & devs & od & oa & _ & _ & Hl & _ & Hle & _);
    [vm_compute; reflexivity|].
  split; [exact Hl|exact Hle].
Defined.

(** * The two stages in sequence *)

Lemma expanded_In_iff (df : DataFrame) (times devs : list value) (K : nat)
    (r : long_row) :
  In r (expanded df times devs K)
  <-> exists i o, (i < nrows df)%nat /\ notna (cell devs i) = true
                  /\ (o < K)%nat
                  /\ r = derived_row df times (cell devs i) i o.
Proof.
  unfold expanded. rewrite in_flat_map. split.
  - intros (i & Hi & Hr). apply filter_In in Hi. destruct Hi as [Hi Hd].
    apply in_seq in Hi. apply in_map_iff in Hr. destruct Hr as (o & <- & Ho).
    apply in_seq in Ho. exists i, o. repeat split; auto; lia.
  - intros (i & o & Hi & Hd & Ho & ->). exists i. split.
    + apply filter_In. split; auto. apply in_seq. lia.
    + apply in_map. apply in_seq. lia.
Qed.

Lemma minus_minutes_is_time (v : value) (o : nat) :
  as_time (minus_minutes v o) = minus_minutes v o.
Proof. now destruct v. Qed.

Lemma melt_then_bin_unfold to_datetime schedule df interval melted :
  snd (melt_activity_data to_datetime df) = OK melted ->
  snd (melt_then_bin to_datetime schedule df interval)
  = snd (bin_data to_datetime schedule melted interval)
  /\ fst (melt_then_bin to_datetime schedule df interval)
     = fst (melt_activity_data to_datetime df).
Proof.
  unfold melt_then_bin. destruct (melt_activity_data to_datetime df) as [d r].
  cbn [snd]. intros ->. split; reflexivity.
Qed.

Lemma melt_then_bin_ok_inv to_datetime schedule df interval out :
  snd (melt_then_bin to_datetime schedule df interval) = OK out ->
  exists melted, snd (melt_activity_data to_datetime df) = OK melted.
Proof.
  unfold melt_then_bin. destruct (melt_activity_data to_datetime df) as [d r].
  destruct r; cbn [snd]; eauto.
Qed.

(** The rows [melt_then_bin] groups, and the groups it makes of them. *)
Lemma pipeline_groups
    (to_datetime : list value -> list value) (schedule : list rule)
    (df : DataFrame) (interval : string) (out : DataFrame) :
  keeps_datetimes to_datetime ->
  schedule <> [] ->
  snd (melt_then_bin to_datetime schedule df interval) = OK out ->
  let K := List.length (filter is_act_col (labels df)) in
  exists n ts devs (kept : list long_row) (groups : list (key * list nat))
         (rest : list (string * list value)),
    interval_magnitude interval = Some n
    /\ get_column df TIME_COLUMN = OK ts
    /\ get_column df DELINEATING_COL = OK devs
    /\ (forall r, In r kept
          <-> exists i o, (i < nrows df)%nat /\ notna (cell devs i) = true
                /\ (o < K)%nat
                /\ notna (row_get df i (act_label o)) = true
                /\ r = derived_row df (coerce_time to_datetime ts)
                                   (cell devs i) i o)
    /\ columns out
       = (DELINEATING_COL, map (fun g => fst (fst g)) groups)
         :: ("Time", map (fun g => snd (fst g)) groups) :: rest
    /\ NoDup (map fst groups)
    /\ (forall k, In k (map fst groups)
          <-> key_notna k = true
              /\ exists j, (j < List.length kept)%nat
                    /\ k = (cell (map lr_Dataset kept) j,
                            dt_floor (n * unit_ns (interval_unit interval))
                                     (cell (map lr_Time kept) j))).
Proof.
  intros Hkeep Hne Hout K.
  destruct (melt_then_bin_ok_inv _ _ _ _ _ Hout) as [melted Hm].
  destruct (melt_then_bin_unfold _ schedule _ interval _ Hm) as [Hsnd _].
  rewrite Hsnd in Hout. clear Hsnd.
  destruct (melt_ok_inv _ _ _ Hm) as (ts & devs & Hts & Hdevs).
  destruct (melt_result to_datetime df ts devs Hts Hdevs) as [Hinv _].
  destruct (Hinv melted Hm) as (rows & Hperm & _ & ->). fold K in Hperm.
  set (times := coerce_time to_datetime ts) in *.
  set (kept := stable_sort row_leb (filter (fun r => notna (lr_Act r)) rows))
    in *.
  assert (Hkept : forall r, In r kept
            <-> exists i o, (i < nrows df)%nat /\ notna (cell devs i) = true
                  /\ (o < K)%nat
                  /\ notna (row_get df i (act_label o)) = true
                  /\ r = derived_row df times (cell devs i) i o).
  { intros r. unfold kept. rewrite stable_sort_In, filter_In.
    split.
    - intros [Hr Ha]. eapply Permutation_in in Hr; [|exact Hperm].
      apply expanded_In_iff in Hr.
      destruct Hr as (i & o & Hi & Hd & Ho & ->). exists i, o. auto 6.
    - intros (i & o & Hi & Hd & Ho & Ha & ->). split; [|exact Ha].
      eapply Permutation_in; [apply Permutation_sym; exact Hperm|].
      apply expanded_In_iff. exists i, o. auto. }
  destruct (bin_data_ok_inv _ _ _ _ _ Hout) as (n & lts & _ & Hn & Hlts & _).
  destruct (long_frame_columns kept) as (Hc1 & Hc2 & _).
  change "Time" with TIME_COLUMN in Hc2. rewrite Hc2 in Hlts.
  inversion Hlts; subst lts; clear Hlts.
  pose proof (bin_data_shape _ _ _ _ _ _ _ Hn Hc2 Hne Hout) as S.
  cbv beta zeta in S.
  destruct S as (groups & names & valss & Hg & _ & _ & _ & _ & Hcols).
  pose proof (binner_groups _ _ _ _ _ _ _ Hn Hc2 Hg) as G.
  cbv beta zeta in G.
  destruct G as (ldevs & Hld & Hnd & _ & Hin & _).
  rewrite Hc1 in Hld. inversion Hld; subst ldevs; clear Hld.
  rewrite coerce_time_fixed in Hin; auto.
  2:{ apply Forall_forall. intros v Hv. apply in_map_iff in Hv.
      destruct Hv as (r & <- & Hr). apply Hkept in Hr.
      destruct Hr as (i & o & _ & _ & _ & _ & ->). cbn [derived_row lr_Time].
      apply minus_minutes_is_time. }
  exists n, ts, devs, kept, groups, (combine names valss).
  split; [exact Hn|]. split; [exact Hts|]. split; [exact Hdevs|].
  split; [exact Hkept|]. split; [exact Hcols|]. split; [exact Hnd|].
  exact Hin.
Qed.

(** X5.  [melt_then_bin] on a wide table: the table it returns has one row
    for a device and a bin start exactly when some record of that device has
    a slot with a present activity value whose derived time (timestamp minus
    the slot's offset in minutes) is valid and floors to that bin start; the
    rows are distinct pairs. *)
Theorem pipeline_rows_are_the_occupied_bins
    (to_datetime : list value -> list value) (schedule : list rule)
    (df : DataFrame) (interval : string) (out : DataFrame) :
  keeps_datetimes to_datetime ->
  schedule <> [] ->
  snd (melt_then_bin to_datetime schedule df interval) = OK out ->
  let K := List.length (filter is_act_col (labels df)) in
  exists n ts devs (keys : list key),
    interval_magnitude interval = Some n
    /\ get_column df TIME_COLUMN = OK ts
    /\ get_column df DELINEATING_COL = OK devs
    /\ get_column out DELINEATING_COL = OK (map fst keys)
    /\ get_column out "Time" = OK (map snd keys)
    /\ NoDup keys
    /\ forall device bin_start,
         In (device, bin_start) keys
         <-> notna bin_start = true
             /\ exists i offset,
                  (i < nrows df)%nat /\ (offset < K)%nat
                  /\ notna (cell devs i) = true
                  /\ notna (row_get df i (act_label offset)) = true
                  /\ device = cell devs i
                  /\ bin_start
                     = dt_floor (n * unit_ns (interval_unit interval))
                         (minus_minutes (cell (coerce_time to_datetime ts) i)
                                        offset).
Proof.
  intros Hkeep Hne Hout K.
  pose proof (pipeline_groups _ _ _ _ _ Hkeep Hne Hout) as P.
  cbv zeta in P. fold K in P.
  destruct P as (n & ts & devs & kept & groups & rest
                 & Hn & Hts & Hdevs & Hkept & Hcols & Hnd & Hin).
  set (times := coerce_time to_datetime ts) in *.
  exists n, ts, devs, (map fst groups).
  split; [exact Hn|]. split; [exact Hts|]. split; [exact Hdevs|].
  split; [|split; [|split; [exact Hnd|]]].
  - unfold get_column. rewrite Hcols. cbn [assoc]. rewrite String.eqb_refl.
    now rewrite map_map.
  - unfold get_column. rewrite Hcols. cbn [assoc].
    replace (String.eqb "Time" DELINEATING_COL) with false by reflexivity.
    rewrite String.eqb_refl. now rewrite map_map.
  - intros device bin_start. rewrite Hin. cbn [long_frame nrows].
    split.
    + intros (Hk & j & Hj & E).
      pose proof (f_equal fst E) as E1. pose proof (f_equal snd E) as E2.
      cbn [fst snd] in E1, E2. clear E.
      rewrite (cell_map_row lr_Dataset) in E1 by reflexivity.
      rewrite (cell_map_row lr_Time) in E2 by reflexivity.
      assert (Hr : In (nth j kept na_row) kept) by now apply nth_In.
      apply Hkept in Hr. destruct Hr as (i & o & Hi & Hd & Ho & Ha & Er).
      rewrite Er in E1, E2. cbn [derived_row lr_Dataset lr_Time] in E1, E2.
      split.
      * unfold key_notna in Hk. cbn [fst snd] in Hk.
        apply andb_true_iff in Hk. tauto.
      * exists i, o. auto 8.
    + intros (Hb & i & o & Hi & Ho & Hd & Ha & -> & ->).
      assert (Hr : In (derived_row df times (cell devs i) i o) kept).
      { apply Hkept. exists i, o. auto 6. }
      apply In_nth with (d := na_row) in Hr. destruct Hr as (j & Hj & Ej).
      split.
      * unfold key_notna. cbn [fst snd]. now rewrite Hd, Hb.
      * exists j. split; [exact Hj|].
        rewrite (cell_map_row lr_Dataset) by reflexivity.
        rewrite (cell_map_row lr_Time) by reflexivity.
        rewrite Ej. reflexivity.
Qed.



Lemma pipeline_rows_are_the_occupied_bins_witness :
  exists keys : list key,
    get_column pipeline_sample "Time" = OK (map snd keys)
    /\ NoDup keys
    /\ In (VStr "b", at_minute 585) keys.
Proof.
  destruct (pipeline_rows_are_the_occupied_bins to_datetime_strict
              SELECTED_COLUMNS wide_full "15 minutes" pipeline_sample)
    as (n & ts & devs & keys & Hn & Hts & Hdevs & _ & Ht & Hnd & Hin).
  - apply strict_keeps_datetimes.
  - discriminate.
  - vm_compute. reflexivity.
  - exists keys. split; [exact Ht|]. split; [exact Hnd|].
    vm_compute in Hn, Hts, Hdevs.
    inversion Hn; inversion Hts; inversion Hdevs; subst n ts devs.
    apply Hin. split; [reflexivity|].
    exists 0%nat, 1%nat.
    repeat split; try reflexivity; vm_compute; lia.
Defined.

(** * The binning panel *)

Lemma take_digits_of_uint (d : Decimal.uint) (c : ascii) (rest : string) :
  is_digit c = false ->
  take_digits (NilEmpty.string_of_uint d ++ String c rest)
  = list_ascii_of_string (NilEmpty.string_of_uint d).
Proof.
  intros Hc.
  induction d; cbn [NilEmpty.string_of_uint append take_digits
                    list_ascii_of_string];
    [now rewrite Hc|..];
    (match goal with
     | |- context [is_digit ?x] =>
         replace (is_digit x) with true by reflexivity
     end; now rewrite IHd).
Qed.

Lemma first_digits_of_uint (d : Decimal.uint) (c : ascii) (rest : string) :
  d <> Decimal.Nil ->
  is_digit c = false ->
  first_digits (NilEmpty.string_of_uint d ++ String c rest)
  = Some (list_ascii_of_string (NilEmpty.string_of_uint d)).
Proof.
  intros Hd Hc. rewrite <- (take_digits_of_uint d c rest Hc).
  destruct d; [congruence|..];
    cbn [NilEmpty.string_of_uint append first_digits];
    (match goal with
     | |- context [is_digit ?x] =>
         replace (is_digit x) with true by reflexivity
     end; reflexivity).
Qed.

Lemma decimal_of_uint_acc (d : Decimal.uint) (acc : nat) :
  fold_left (fun a c => 10 * a + digit_val c)
            (list_ascii_of_string (NilEmpty.string_of_uint d))
            (Z.of_nat acc)
  = Z.of_nat (Nat.of_uint_acc d acc).
Proof.
  revert acc.
  induction d; intros acc;
    cbn [NilEmpty.string_of_uint list_ascii_of_string fold_left
         Nat.of_uint_acc];
    [reflexivity|..];
    rewrite <- IHd; f_equal; rewrite Nat.tail_mul_spec;
    (match goal with
     | |- context [digit_val ?x] =>
         let v := eval vm_compute in (digit_val x) in
         change (digit_val x) with v
     end); lia.
Qed.

Lemma decimal_of_uint (n : nat) :
  decimal (list_ascii_of_string (NilEmpty.string_of_uint (Nat.to_uint n)))
  = Z.of_nat n.
Proof.
  unfold decimal. change 0 with (Z.of_nat 0).
  rewrite decimal_of_uint_acc.
  change (Nat.of_uint_acc (Nat.to_uint n) 0) with (Nat.of_uint (Nat.to_uint n)).
  now rewrite DecimalNat.Unsigned.of_to.
Qed.

Lemma to_uint_nonnil (n : nat) : Nat.to_uint n <> Decimal.Nil.
Proof.
  intros E. pose proof (DecimalNat.Unsigned.of_to n) as H. rewrite E in H.
  destruct n; [discriminate E|discriminate H].
Qed.

(** The leading decimal of a text that starts with a printed number. *)
Lemma magnitude_of_printed (n : nat) (c : ascii) (rest : string) :
  is_digit c = false ->
  interval_magnitude
    (NilEmpty.string_of_uint (Nat.to_uint n) ++ String c rest)
  = Some (Z.of_nat n).
Proof.
  intros Hc. unfold interval_magnitude.
  rewrite first_digits_of_uint by (auto using to_uint_nonnil).
  cbn [option_map]. now rewrite decimal_of_uint.
Qed.

Lemma prefix_head_mismatch (c0 c : ascii) (sub s : string) :
  c0 <> c -> String.prefix (String c0 sub) (String c s) = false.
Proof.
  intros H. cbn [String.prefix]. now destruct (ascii_dec c0 c).
Qed.

Lemma contains_after_digits (c0 : ascii) (sub : string) (d : Decimal.uint)
    (rest : string) :
  is_digit c0 = false ->
  contains (String c0 sub) (NilEmpty.string_of_uint d ++ rest)
  = contains (String c0 sub) rest.
Proof.
  intros Hc.
  induction d; cbn [NilEmpty.string_of_uint append]; [reflexivity|..];
    rewrite contains_unfold, prefix_head_mismatch;
    try exact IHd; intros ->; discriminate Hc.
Qed.

Lemma unit_of_printed (n : nat) (rest : string) :
  interval_unit (NilEmpty.string_of_uint (Nat.to_uint n) ++ rest)
  = interval_unit rest.
Proof.
  unfold interval_unit.
  now rewrite !contains_after_digits by reflexivity.
Qed.

(** X6.  The interval text the binning panel builds from its spin box and
    its unit buttons is always accepted by [bin_data]: the magnitude read
    back is the spin-box value, the unit read back is the selected one, and
    the bin width is positive. *)
Theorem panel_interval_is_read_back (value : nat) (rb_min rb_hr : bool) :
  (1 <= value <= 1000)%nat ->
  let interval := panel_interval value rb_min rb_hr in
  interval_magnitude interval = Some (Z.of_nat value)
  /\ interval_unit interval
     = (if rb_min then UMin else if rb_hr then UHour else UDay)
  /\ 0 < Z.of_nat value * unit_ns (interval_unit interval).
Proof.
  intros Hv interval. unfold interval, panel_interval.
  assert (Hu : interval_unit
                 (NilEmpty.string_of_uint (Nat.to_uint value) ++ " "
                    ++ unit_text rb_min rb_hr)%string
               = (if rb_min then UMin else if rb_hr then UHour else UDay)).
  { rewrite unit_of_printed. destruct rb_min, rb_hr; reflexivity. }
  split; [|split].
  - apply (magnitude_of_printed value " "). reflexivity.
  - exact Hu.
  - rewrite Hu. apply Z.mul_pos_pos; [lia|].
    destruct rb_min, rb_hr; reflexivity.
Qed.

Lemma panel_interval_is_read_back_witness :
  interval_magnitude (panel_interval 15 true false) = Some 15
  /\ interval_unit (panel_interval 15 true false) = UMin.
Proof.
  destruct (panel_interval_is_read_back 15 true false) as (Hm & Hu & _);
    [lia|].
  split; [exact Hm|exact Hu].
Defined.

Lemma replace_char_app (old new : ascii) (a b : string) :
  replace_char old new (a ++ b)
  = (replace_char old new a ++ replace_char old new b)%string.
Proof.
  induction a; cbn [append replace_char]; [reflexivity|now rewrite IHa].
Qed.

Lemma append_assoc' (a b c : string) :
  ((a ++ b) ++ c = a ++ (b ++ c))%string.
Proof. induction a; cbn [append]; [reflexivity|now rewrite IHa]. Qed.

Lemma replace_space_of_uint (new : ascii) (d : Decimal.uint) :
  replace_char " " new (NilEmpty.string_of_uint d)
  = NilEmpty.string_of_uint d.
Proof.
  induction d; cbn [NilEmpty.string_of_uint replace_char];
    [reflexivity|..]; rewrite IHd; reflexivity.
Qed.

Lemma file_name_of_panel (value : nat) (rb_min rb_hr : bool) :
  file_name (panel_interval value rb_min rb_hr)
  = ("binned_" ++ NilEmpty.string_of_uint (Nat.to_uint value) ++ "_"
       ++ unit_text rb_min rb_hr ++ ".csv")%string.
Proof.
  unfold file_name, panel_interval.
  rewrite replace_char_app, replace_space_of_uint, append_assoc'.
  destruct rb_min, rb_hr; reflexivity.
Qed.

(** X7.  The file name under which the panel saves a binned table has no
    space in it, and two settings of the panel give the same file name only
    when they have the same magnitude and the same unit. *)
Theorem binned_file_names_tell_settings_apart
    (value value' : nat) (rb_min rb_hr rb_min' rb_hr' : bool) :
  contains " " (file_name (panel_interval value rb_min rb_hr)) = false
  /\ (file_name (panel_interval value rb_min rb_hr)
      = file_name (panel_interval value' rb_min' rb_hr') ->
      value = value'
      /\ unit_text rb_min rb_hr = unit_text rb_min' rb_hr').
Proof.
  rewrite !file_name_of_panel. split.
  - cbn [append].
    do 7 (rewrite contains_unfold, prefix_head_mismatch by discriminate).
    rewrite contains_after_digits by reflexivity.
    destruct rb_min, rb_hr; reflexivity.
  - cbn [append]. intros E. injection E as E.
    pose proof (f_equal interval_magnitude E) as Em.
    rewrite !(magnitude_of_printed _ "_") in Em by reflexivity.
    pose proof (f_equal interval_unit E) as Eu.
    rewrite !unit_of_printed in Eu.
    split; [injection Em as Em; lia|].
    destruct rb_min, rb_hr, rb_min', rb_hr';
      try reflexivity; discriminate Eu.
Qed.

(** * The binning worker *)

Lemma get_column_take_rows (df : DataFrame) (c : string) (vs : list value)
    (idxs : list nat) :
  get_column df c = OK vs ->
  get_column (take_rows idxs df) c = OK (map (cell vs) idxs).
Proof.
  unfold get_column, take_rows. cbn [columns].
  induction (columns df) as [|[d b] l IH]; cbn [assoc map fst snd];
    [discriminate|].
  destruct (String.eqb c d); [now intros [= ->]|exact IH].
Qed.

Lemma labels_take_rows (df : DataFrame) (idxs : list nat) :
  labels (take_rows idxs df) = labels df.
Proof.
  unfold labels, take_rows. cbn [columns]. rewrite map_map. reflexivity.
Qed.

Lemma in_range_spec (s e : Z) (v : value) :
  in_range s e v = true <-> exists t, v = VTime t /\ s <= t <= e.
Proof.
  destruct v; cbn [in_range]; split;
    try discriminate; try (now intros (t & [=] & _)).
  - intros H. apply andb_true_iff in H. destruct H as [H1 H2].
    apply Z.leb_le in H1, H2. eauto.
  - intros (t' & [= <-] & H1 & H2). apply andb_true_iff.
    split; now apply Z.leb_le.
Qed.

Lemma filter_positions (p : value -> bool) (ts vs pre_ts pre_vs : list value) :
  List.length ts = List.length vs ->
  List.length pre_ts = List.length pre_vs ->
  map (cell (pre_vs ++ vs))
      (filter (fun i => p (cell (pre_ts ++ ts) i))
              (seq (List.length pre_ts) (List.length ts)))
  = map snd (filter (fun tv => p (fst tv)) (combine ts vs)).
Proof.
  revert vs pre_ts pre_vs.
  induction ts as [|t ts IH]; intros [|v vs] pre_ts pre_vs Hl Hp;
    try discriminate; [reflexivity|].
  cbn [List.length seq filter combine fst].
  assert (Et : cell (pre_ts ++ t :: ts) (List.length pre_ts) = t).
  { unfold cell. rewrite app_nth2, Nat.sub_diag by lia. reflexivity. }
  assert (Ev : cell (pre_vs ++ v :: vs) (List.length pre_ts) = v).
  { unfold cell. rewrite Hp, app_nth2, Nat.sub_diag by lia. reflexivity. }
  assert (Erec :
    map (cell (pre_vs ++ v :: vs))
        (filter (fun i => p (cell (pre_ts ++ t :: ts) i))
                (seq (S (List.length pre_ts)) (List.length ts)))
    = map snd (filter (fun tv => p (fst tv)) (combine ts vs))).
  { specialize (IH vs (pre_ts ++ [t]) (pre_vs ++ [v])).
    rewrite !length_app, <- !app_assoc in IH. cbn [List.length app] in IH.
    rewrite Nat.add_1_r in IH. apply IH; [now injection Hl|lia]. }
  rewrite Et. destruct (p t); cbn [map snd]; [rewrite Ev; f_equal|];
    exact Erec.
Qed.

Lemma filter_positions_column (p : value -> bool) (ts vs : list value) :
  List.length ts = List.length vs ->
  map (cell vs) (filter (fun i => p (cell ts i)) (seq 0 (List.length ts)))
  = map snd (filter (fun tv => p (fst tv)) (combine ts vs)).
Proof. intros H. now apply (filter_positions p ts vs [] []). Qed.

Lemma filter_combine_self (p : value -> bool) (ts : list value) :
  map snd (filter (fun tv => p (fst tv)) (combine ts ts)) = filter p ts.
Proof.
  induction ts as [|t ts IH]; cbn [combine filter fst]; [reflexivity|].
  destruct (p t); cbn [map snd]; now rewrite IH.
Qed.

(** X8.  On a table whose timestamps are converted, as the worker has
    them, trimming keeps exactly the rows whose timestamp is a valid instant
    between the two bounds, both included, in their order and in every
    column alike; rows without a valid timestamp are dropped, the labels
    stay as they are, and trimming again changes nothing. *)
Theorem trimming_keeps_the_rows_in_range
    (start_dt end_dt : Z) (df : DataFrame) (ts : list value) :
  get_column df TIME_COLUMN = OK ts ->
  Forall (fun v => as_time v = v) ts ->
  List.length ts = nrows df ->
  exists out,
    trim start_dt end_dt df = OK out
    /\ labels out = labels df
    /\ get_column out TIME_COLUMN = OK (filter (in_range start_dt end_dt) ts)
    /\ nrows out = List.length (filter (in_range start_dt end_dt) ts)
    /\ (forall c vs,
          get_column df c = OK vs ->
          List.length vs = nrows df ->
          get_column out c
          = OK (map snd (filter (fun tv => in_range start_dt end_dt (fst tv))
                                (combine ts vs))))
    /\ trim start_dt end_dt out = OK out.
Proof.
  intros Hts _ Hlen. unfold trim. rewrite Hts. cbn [bind].
  set (idxs := filter (fun i => in_range start_dt end_dt (cell ts i))
                      (row_positions df)).
  assert (Hcol : forall c vs,
            get_column df c = OK vs -> List.length vs = nrows df ->
            get_column (take_rows idxs df) c
            = OK (map snd (filter (fun tv => in_range start_dt end_dt (fst tv))
                                  (combine ts vs)))).
  { intros c vs Hc Hl. rewrite (get_column_take_rows _ _ _ _ Hc).
    unfold idxs, row_positions. rewrite <- Hlen.
    now rewrite filter_positions_column by congruence. }
  assert (Ht : get_column (take_rows idxs df) TIME_COLUMN
               = OK (filter (in_range start_dt end_dt) ts)).
  { rewrite (Hcol _ _ Hts Hlen). now rewrite filter_combine_self. }
  assert (Hn : nrows (take_rows idxs df)
               = List.length (filter (in_range start_dt end_dt) ts)).
  { cbn [take_rows nrows]. unfold idxs, row_positions. rewrite <- Hlen.
    rewrite <- (filter_combine_self (in_range start_dt end_dt) ts).
    rewrite <- filter_positions_column by reflexivity.
    now rewrite !length_map. }
  eexists. split; [reflexivity|]. split; [apply labels_take_rows|].
  split; [exact Ht|]. split; [exact Hn|]. split; [exact Hcol|].
  rewrite Ht. cbn [bind]. f_equal.
  set (kept := filter (in_range start_dt end_dt) ts) in *.
  assert (Hall : filter (fun i => in_range start_dt end_dt (cell kept i))
                        (row_positions (take_rows idxs df))
                 = seq 0 (List.length idxs)).
  { unfold row_positions. cbn [take_rows nrows].
    apply forallb_filter_id. apply forallb_forall. intros i Hi.
    apply in_seq in Hi.
    assert (Hk : In (cell kept i) kept).
    { apply nth_In. change (nrows (take_rows idxs df)) with (List.length idxs)
        in Hn. lia. }
    unfold kept in Hk. apply filter_In in Hk. tauto. }
  rewrite Hall. unfold take_rows at 1. cbn [nrows columns].
  unfold take_rows. f_equal; [apply length_seq|].
  cbn [columns]. rewrite map_map. cbn [fst snd]. apply map_ext. intros [c vs].
  cbn [fst snd]. f_equal.
  rewrite <- (map_nth_seq (map (cell vs) idxs) VNA) at 2.
  rewrite length_map. reflexivity.
Qed.

Lemma trimming_keeps_the_rows_in_range_witness :
  exists out,
    trim (bound_dt morning) (bound_dt late_morning) wide_full = OK out
    /\ get_column out TIME_COLUMN = OK [at_minute 607].
Proof.
  destruct (trimming_keeps_the_rows_in_range (bound_dt morning)
              (bound_dt late_morning) wide_full
              [at_minute 600; at_minute 607; at_minute 616])
    as (out & H1 & _ & H2 & _);
    [reflexivity|repeat constructor|reflexivity|].
  exists out. split; [exact H1|exact H2].
Defined.

Lemma to_24h_bounds (hour : Z) (pm : bool) :
  0 <= to_24h hour pm < 24
  /\ (12 <= to_24h hour pm <-> pm = true)
  /\ to_24h hour pm mod 12 = hour mod 12.
Proof.
  unfold to_24h. pose proof (Z.mod_pos_bound hour 12 ltac:(lia)) as H.
  destruct pm.
  - repeat split; try lia.
    change 12 with (1 * 12) at 2. rewrite Z.mod_add by lia.
    apply Z.mod_mod. lia.
  - repeat split; try lia; try discriminate.
    rewrite Z.add_0_r. apply Z.mod_mod. lia.
Qed.

(** X9.  A bound of the panel falls on the selected day; it falls in the
    afternoon exactly when the PM button is checked, whatever hour was
    typed; and the hour typed on the 24-hour clock is the hour used exactly
    when the PM button agrees with it. *)
Theorem bound_hour_is_read_modulo_12 (b : bound) :
  0 <= b_hour b < 24 ->
  0 <= b_minute b < 60 ->
  b_midnight b <= bound_dt b < b_midnight b + day_ns
  /\ (b_midnight b + 12 * hour_ns <= bound_dt b <-> b_pm b = true)
  /\ (bound_dt b
      = b_midnight b + b_hour b * hour_ns + b_minute b * minute_ns
      <-> b_pm b = (12 <=? b_hour b)).
Proof.
  intros Hh Hm. unfold bound_dt.
  destruct (to_24h_bounds (b_hour b) (b_pm b)) as (H1 & H2 & _).
  unfold day_ns, hour_ns, minute_ns in *.
  split; [lia|]. split.
  - rewrite <- H2. lia.
  - unfold to_24h in *.
    assert (Hmod : b_hour b mod 12
                   = if 12 <=? b_hour b then b_hour b - 12 else b_hour b).
    { destruct (Z.leb_spec 12 (b_hour b)).
      - replace (b_hour b) with (b_hour b - 12 + 1 * 12) at 1 by lia.
        rewrite Z.mod_add by lia. apply Z.mod_small. lia.
      - apply Z.mod_small. lia. }
    rewrite Hmod.
    destruct (b_pm b), (Z.leb_spec 12 (b_hour b)); split;
      intros; try reflexivity; try discriminate; lia.
Qed.

Lemma bound_hour_is_read_modulo_12_witness :
  bound_dt morning = 605 * minute_ns.
Proof.
  destruct (bound_hour_is_read_modulo_12 morning) as (_ & _ & H);
    [cbn [morning b_hour]; lia|cbn [morning b_minute]; lia|].
  rewrite (proj2 H); reflexivity.
Defined.

Lemma floor_ns_le (w t : Z) : 0 <= w -> floor_ns w t <= t.
Proof.
  intros Hw. destruct (Z.eq_dec w 0) as [->|Hz]; [reflexivity|].
  apply floor_ns_bounds. lia.
Qed.

Lemma floor_ns_mono_nonneg (w t1 t2 : Z) :
  0 <= w -> t1 <= t2 -> floor_ns w t1 <= floor_ns w t2.
Proof.
  intros Hw H. destruct (Z.eq_dec w 0) as [->|Hz]; [exact H|].
  apply floor_ns_mono; lia.
Qed.

Lemma interval_magnitude_nonneg (interval : string) (n : Z) :
  interval_magnitude interval = Some n -> 0 <= n.
Proof.
  unfold interval_magnitude.
  destruct (first_digits interval) as [ds|] eqn:E; [|discriminate].
  intros [= <-]. apply first_digits_some in E.
  destruct E as (_ & _ & _ & _ & _ & H & _). now apply decimal_nonneg.
Qed.

Lemma run_trim_inv to_datetime schedule df interval start_b end_b out :
  run to_datetime schedule df interval false start_b end_b = OK out ->
  exists ts,
    get_column df TIME_COLUMN = OK ts
    /\ snd (melt_then_bin to_datetime schedule
              (take_rows
                 (filter (fun i => in_range (bound_dt start_b) (bound_dt end_b)
                                     (cell (coerce_time to_datetime ts) i))
                         (seq 0 (nrows df)))
                 (set_column df TIME_COLUMN (coerce_time to_datetime ts)))
              interval) = OK out.
Proof.
  unfold run. destruct (get_column df TIME_COLUMN) as [ts|e] eqn:Ets;
    cbn [bind]; [|discriminate].
  unfold trim. rewrite get_set_same. cbn [bind]. intros H.
  exists ts. split; [reflexivity|exact H].
Qed.

(** X10.  With trimming on, every bin start of the table the worker emits
    is at most the end bound and at least the floor of the start bound
    moved back by K - 1 minutes, K being the number of activity columns of
    the file: the slots of the first kept record reach back before the start
    bound. *)
Theorem worker_bins_lie_between_the_bounds
    (to_datetime : list value -> list value) (schedule : list rule)
    (df : DataFrame) (interval : string) (start_b end_b : bound)
    (out : DataFrame) :
  keeps_datetimes to_datetime ->
  schedule <> [] ->
  run to_datetime schedule df interval false start_b end_b = OK out ->
  let K := Z.of_nat (List.length (filter is_act_col (labels df))) in
  exists n bins,
    interval_magnitude interval = Some n
    /\ get_column out "Time" = OK bins
    /\ Forall (fun v =>
                 exists b,
                   v = VTime b
                   /\ floor_ns (n * unit_ns (interval_unit interval))
                               (bound_dt start_b - (K - 1) * minute_ns) <= b
                   /\ b <= bound_dt end_b)
              bins.
Proof.
  intros Hk Hne Hrun K.
  destruct (run_trim_inv _ _ _ _ _ _ _ Hrun) as (ts & Hts & Hout).
  set (ts1 := coerce_time to_datetime ts) in *.
  set (idxs := filter (fun i => in_range (bound_dt start_b) (bound_dt end_b)
                                  (cell ts1 i)) (seq 0 (nrows df))) in *.
  set (df1 := set_column df TIME_COLUMN ts1) in *.
  pose proof (pipeline_groups to_datetime schedule _ interval out Hk Hne Hout)
    as P.
  cbv zeta in P.
  destruct P as (n & ts2 & devs2 & kept & groups & rest
                 & Hn & Hts2 & _ & Hkept & Hcols & _ & Hin).
  rewrite (get_column_take_rows df1 TIME_COLUMN ts1 idxs) in Hts2
    by apply get_set_same.
  injection Hts2 as <-.
  assert (Hrange : forall i, (i < List.length idxs)%nat ->
            exists t, cell (map (cell ts1) idxs) i = VTime t
                      /\ bound_dt start_b <= t <= bound_dt end_b).
  { intros i Hi.
    assert (Hc : In (cell (map (cell ts1) idxs) i) (map (cell ts1) idxs)).
    { apply nth_In. now rewrite length_map. }
    apply in_map_iff in Hc. destruct Hc as (j & <- & Hj).
    apply filter_In in Hj. destruct Hj as [_ Hj].
    now apply in_range_spec in Hj. }
  assert (Hfix : coerce_time to_datetime (map (cell ts1) idxs)
                 = map (cell ts1) idxs).
  { apply coerce_time_fixed; [exact Hk|]. apply Forall_forall.
    intros v Hv. apply In_nth with (d := VNA) in Hv.
    destruct Hv as (i & Hi & <-). rewrite length_map in Hi.
    destruct (Hrange i Hi) as (t & Ht & _).
    change (nth i (map (cell ts1) idxs) VNA)
      with (cell (map (cell ts1) idxs) i).
    now rewrite Ht. }
  rewrite Hfix, labels_take_rows in Hkept. unfold df1 in Hkept.
  rewrite (labels_set_present df TIME_COLUMN ts1 ts Hts) in Hkept.
  pose proof (interval_magnitude_nonneg _ _ Hn) as Hn0.
  pose proof (unit_ns_pos (interval_unit interval)) as Hu.
  set (w := n * unit_ns (interval_unit interval)) in *.
  assert (Hw : 0 <= w) by (unfold w; nia).
  exists n, (map (fun g => snd (fst g)) groups). split; [exact Hn|].
  split.
  { unfold get_column. rewrite Hcols. cbn [assoc].
    replace (String.eqb "Time" DELINEATING_COL) with false by reflexivity.
    now rewrite String.eqb_refl. }
  apply Forall_forall. intros v Hv. apply in_map_iff in Hv.
  destruct Hv as (g & <- & Hg).
  assert (Hkey : In (fst g) (map fst groups)) by now apply in_map.
  apply Hin in Hkey. destruct Hkey as (_ & j & Hj & ->). cbn [snd].
  rewrite (cell_map_row lr_Time) by reflexivity.
  assert (Hr : In (nth j kept na_row) kept) by now apply nth_In.
  apply Hkept in Hr. destruct Hr as (i & o & Hi & _ & Ho & _ & ->).
  cbn [derived_row lr_Time].
  cbn [take_rows nrows] in Hi.
  destruct (Hrange i Hi) as (t & -> & Ht1 & Ht2).
  cbn [minus_minutes dt_floor]. eexists. split; [reflexivity|].
  assert (Hoff : Z.of_nat o <= K - 1) by (unfold K; lia).
  unfold minute_ns in *. split.
  - apply floor_ns_mono_nonneg; [exact Hw|]. nia.
  - etransitivity; [apply floor_ns_le; exact Hw|]. nia.
Qed.

Lemma worker_bins_lie_between_the_bounds_witness :
  exists bins,
    get_column worker_sample "Time" = OK bins
    /\ Forall (fun v => exists b, v = VTime b /\ b <= bound_dt late_morning)
              bins.
Proof.
  destruct (worker_bins_lie_between_the_bounds to_datetime_strict
              SELECTED_COLUMNS wide_full "15 minutes" morning late_morning
              worker_sample)
    as (n & bins & _ & Hb & Hall).
  - apply strict_keeps_datetimes.
  - discriminate.
  - vm_compute. reflexivity.
  - exists bins. split; [exact Hb|].
    eapply Forall_impl; [|exact Hall].
    intros v (b & -> & _ & H). eauto.
Defined.

Lemma assign_assign {B : Type} (c : string) (b b' : B)
    (l : list (string * B)) :
  assign c b (assign c b' l) = assign c b l.
Proof.
  induction l as [|[d x] l IH]; cbn [assign].
  - now rewrite String.eqb_refl.
  - destruct (String.eqb c d) eqn:E; cbn [assign]; rewrite ?String.eqb_refl, ?E;
      [reflexivity|now rewrite IH].
Qed.

(** X11.  With trimming off the worker adds nothing to the helper: it
    emits, or reports, exactly what [melt_then_bin] returns or raises on the
    table as read, the worker's own conversion of the timestamps being
    repeated by the helper. *)
Theorem untrimmed_worker_is_the_helper
    (to_datetime : list value -> list value) (schedule : list rule)
    (df : DataFrame) (interval : string) (start_b end_b : bound) :
  keeps_datetimes to_datetime ->
  run to_datetime schedule df interval true start_b end_b
  = snd (melt_then_bin to_datetime schedule df interval).
Proof.
  intros Hk. unfold run, melt_then_bin.
  destruct (get_column df TIME_COLUMN) as [ts|e] eqn:Ets; cbn [bind].
  - set (ts1 := coerce_time to_datetime ts).
    assert (E : melt_activity_data to_datetime
                  (set_column df TIME_COLUMN ts1)
                = melt_activity_data to_datetime df).
    { unfold melt_activity_data. rewrite get_set_same, Ets.
      rewrite (labels_set_present df TIME_COLUMN ts1 ts Ets).
      assert (Efix : coerce_time to_datetime ts1 = ts1).
      { apply coerce_time_fixed; [exact Hk|]. unfold ts1, coerce_time.
        apply Forall_forall. intros v Hv. apply in_map_iff in Hv.
        destruct Hv as (x & <- & _). apply as_time_idem. }
      rewrite Efix. fold ts1.
      assert (Eset : set_column (set_column df TIME_COLUMN ts1) TIME_COLUMN ts1
                     = set_column df TIME_COLUMN ts1).
      { unfold set_column. cbn [nrows columns]. now rewrite assign_assign. }
      rewrite Eset. reflexivity. }
    rewrite E. destruct (melt_activity_data to_datetime df) as [d [m|x]];
      reflexivity.
  - rewrite (melt_no_time _ _ _ Ets). cbn [snd].
    apply get_column_raise in Ets. now subst.
Qed.

Lemma untrimmed_worker_is_the_helper_witness :
  run to_datetime_strict SELECTED_COLUMNS wide_full "15 minutes" true
      morning late_morning
  = OK pipeline_sample.
Proof.
  rewrite (untrimmed_worker_is_the_helper to_datetime_strict SELECTED_COLUMNS
             wide_full "15 minutes" morning late_morning
             strict_keeps_datetimes).
  vm_compute. reflexivity.
Defined.

(** * Merging the device folders *)














(** X13.  The folder named [exports] and the entries of the master folder
    that are not folders have no part in the merge: with or without such an
    entry the result is the same. *)
Theorem merge_ignores_exports_and_loose_files
    (folder : string) (before after : list (string * entry))
    (name : string) (e : entry) :
  name = "exports" \/ is_dir e = false ->
  run_merge_script folder (Some (before ++ (name, e) :: after))
  = run_merge_script folder (Some (before ++ after)).
Proof.
  intros H. unfold run_merge_script.
  assert (E : subdirs_of (before ++ (name, e) :: after)
              = subdirs_of (before ++ after)).
  { unfold subdirs_of. rewrite !filter_app. cbn [filter fst snd].
    destruct H as [-> | ->]; [|reflexivity].
    cbn [String.eqb Ascii.eqb Bool.eqb negb]. now rewrite andb_false_r. }
  now rewrite E.
Qed.

Lemma merge_ignores_exports_and_loose_files_witness :
  run_merge_script "master" (Some master_sample)
  = run_merge_script "master" (Some [folder_m1; loose_file; folder_m2]).
Proof.
  apply (merge_ignores_exports_and_loose_files "master"
           [folder_m1] [loose_file; folder_m2]
           (fst folder_exports) (snd folder_exports)).
  left. reflexivity.
Defined.

(** * Plots *)









Lemma contains_char (c : ascii) (s : string) :
  contains (String c EmptyString) s = true
  <-> In c (list_ascii_of_string s).
Proof.
  induction s as [|a s IH]; rewrite contains_unfold;
    cbn [String.prefix list_ascii_of_string In].
  - split; [discriminate|intros []].
  - destruct (ascii_dec c a) as [->|Hn].
    + split; [now left|]. intros _. now destruct s.
    + rewrite IH. split; [now right|]. intros [E|H]; [congruence|exact H].
Qed.

Lemma chars_app (a b : string) :
  list_ascii_of_string (a ++ b)
  = list_ascii_of_string a ++ list_ascii_of_string b.
Proof.
  induction a; cbn [append list_ascii_of_string app];
    [reflexivity|now rewrite IHa].
Qed.

Lemma chars_replace (old new c : ascii) (s : string) :
  In c (list_ascii_of_string (replace_char old new s)) ->
  c = new \/ (c <> old /\ In c (list_ascii_of_string s)).
Proof.
  induction s as [|a s IH]; cbn [replace_char list_ascii_of_string In];
    [intros []|].
  intros [E|H].
  - destruct (Ascii.eqb_spec a old) as [->|Hn]; [now left|].
    right. subst c. auto.
  - destruct (IH H) as [->|[Hc Hin]]; auto.
Qed.

Lemma chars_safe (c : ascii) (s : string) :
  In c (list_ascii_of_string (safe s)) ->
  c <> " "%char /\ c <> "/"%char.
Proof.
  unfold safe. intros H. apply chars_replace in H.
  destruct H as [->|[H1 H]]; [split; discriminate|].
  apply chars_replace in H.
  destruct H as [->|[H2 _]]; [split; discriminate|]. auto.
Qed.

Lemma chars_join (c : ascii) (parts : list string) :
  In c (list_ascii_of_string (join_underscore parts)) ->
  c = "_"%char \/ exists p, In p parts /\ In c (list_ascii_of_string p).
Proof.
  induction parts as [|p rest IH]; cbn [join_underscore]; [intros []|].
  destruct rest as [|q rest].
  - intros H. right. exists p. split; [now left|exact H].
  - rewrite !chars_app, !in_app_iff. intros [H|[H|H]].
    + right. exists p. split; [now left|exact H].
    + destruct H as [<-|[]]. now left.
    + destruct (IH H) as [->|(p' & Hp & Hc)]; [now left|].
      right. exists p'. split; [now right|exact Hc].
Qed.

Lemma sing_filename_chars (title_text x_axis : string)
    (y_axes : list string) (c : ascii) :
  In c (list_ascii_of_string (sing_filename title_text x_axis y_axes)) ->
  c <> " "%char /\ c <> "/"%char.
Proof.
  unfold sing_filename. rewrite !chars_app, !in_app_iff.
  intros [H|[H|[H|[H|[H|H]]]]];
    try (now apply chars_safe in H);
    try (cbn [list_ascii_of_string In] in H;
         repeat (destruct H as [<-|H]; [split; discriminate|]); now destruct H).
  apply chars_join in H. destruct H as [->|(p & Hp & Hc)];
    [split; discriminate|].
  apply in_map_iff in Hp. destruct Hp as (y & <- & _).
  now apply chars_safe in Hc.
Qed.

Lemma mult_filename_chars (column : string) (selected_ds : list string)
    (c : ascii) :
  In c (list_ascii_of_string (mult_filename column selected_ds)) ->
  c <> " "%char /\ c <> "/"%char.
Proof.
  unfold mult_filename. rewrite !chars_app, !in_app_iff.
  intros [H|[H|[H|H]]];
    try (now apply chars_safe in H);
    cbn [list_ascii_of_string In] in H;
    repeat (destruct H as [<-|H]; [split; discriminate|]); now destruct H.
Qed.

(** X15.  The file names the two plot builders attach to a figure hold no
    space and no slash, whatever the title, the axis, the columns and the
    dataset names are. *)
Theorem plot_file_names_have_no_space_or_slash
    (title_text x_axis column : string) (y_axes selected_ds : list string) :
  contains " " (sing_filename title_text x_axis y_axes) = false
  /\ contains "/" (sing_filename title_text x_axis y_axes) = false
  /\ contains " " (mult_filename column selected_ds) = false
  /\ contains "/" (mult_filename column selected_ds) = false.
Proof.
  repeat split; apply not_true_is_false; intros H; apply contains_char in H.
  - apply sing_filename_chars in H. now destruct H.
  - apply sing_filename_chars in H. now destruct H.
  - apply mult_filename_chars in H. now destruct H.
  - apply mult_filename_chars in H. now destruct H.
Qed.

(** * Sums over the bins *)

Lemma np_sum_acc (l : list Qc) (a : Qc) :
  fold_left Qcplus l a = (a + np_sum l)%Qc.
Proof.
  unfold np_sum. change (Qc_of_Z 0) with (Q2Qc 0). revert a.
  induction l as [|x l IH]; intros a; cbn [fold_left]; [ring|].
  rewrite (IH (a + x)%Qc), (IH (Q2Qc 0 + x)%Qc). ring.
Qed.

Lemma np_sum_cons (x : Qc) (l : list Qc) :
  np_sum (x :: l) = (x + np_sum l)%Qc.
Proof.
  unfold np_sum at 1. cbn [fold_left]. rewrite np_sum_acc.
  change (Qc_of_Z 0) with (Q2Qc 0). ring.
Qed.

Lemma np_sum_app (a b : list Qc) :
  np_sum (a ++ b) = (np_sum a + np_sum b)%Qc.
Proof.
  induction a as [|x a IH]; cbn [app].
  - unfold np_sum at 2. cbn [fold_left]. change (Qc_of_Z 0) with (Q2Qc 0).
    ring.
  - rewrite !np_sum_cons, IH. ring.
Qed.

Lemma np_sum_perm (a b : list Qc) :
  Permutation a b -> np_sum a = np_sum b.
Proof.
  induction 1 as [|x a b _ IH|x y a|a b c _ IH1 _ IH2].
  - reflexivity.
  - now rewrite !np_sum_cons, IH.
  - rewrite !np_sum_cons. ring.
  - congruence.
Qed.

Lemma present_app (a b : list value) :
  present (a ++ b) = present a ++ present b.
Proof. unfold present. apply flat_map_app. Qed.

Lemma drop_nan_cons (v : value) (vals : list value) :
  drop_nan (v :: vals)
  = match as_float v with
    | OK _ => xs <- drop_nan vals ;; OK (present [v] ++ xs)
    | Raise e => Raise e
    end.
Proof.
  unfold drop_nan. cbn [mapM bind].
  destruct v; cbn [as_float bind]; try reflexivity;
    destruct (mapM as_float vals); reflexivity.
Qed.

Lemma drop_nan_inv (vals : list value) (xs : list Qc) :
  drop_nan vals = OK xs ->
  xs = present vals /\ Forall (fun v => exists o, as_float v = OK o) vals.
Proof.
  revert xs. induction vals as [|v vals IH]; intros xs.
  - intros [= <-]. split; [reflexivity|constructor].
  - rewrite drop_nan_cons. destruct (as_float v) as [o|e] eqn:E;
      [|discriminate].
    destruct (drop_nan vals) as [ys|e]; cbn [bind]; [|discriminate].
    intros [= <-]. destruct (IH ys eq_refl) as [-> HF].
    split; [symmetry; apply (present_app [v] vals)|].
    constructor; eauto.
Qed.

Lemma drop_nan_ok (vals : list value) :
  Forall (fun v => exists o, as_float v = OK o) vals ->
  drop_nan vals = OK (present vals).
Proof.
  induction 1 as [|v vals [o Ho] _ IH]; [reflexivity|].
  rewrite drop_nan_cons, Ho, IH. cbn [bind].
  now rewrite <- (present_app [v] vals).
Qed.

(** What [contributing] returns, and when. *)
Lemma contributing_inv df cols idxs xs :
  contributing df cols idxs = OK xs ->
  exists cs,
    mapM (get_column df) cols = OK cs
    /\ xs = flat_map (fun i => present (map (fun vs => cell vs i) cs)) idxs
    /\ forall i, In i idxs ->
         Forall (fun v => exists o, as_float v = OK o)
                (map (fun vs => cell vs i) cs).
Proof.
  unfold contributing, ravel.
  destruct (mapM (get_column df) cols) as [cs|e]; cbn [bind]; [|discriminate].
  intros H. apply drop_nan_inv in H. destruct H as [-> HF].
  exists cs. split; [reflexivity|]. split.
  - clear HF. induction idxs as [|i idxs IH]; [reflexivity|].
    cbn [flat_map]. now rewrite present_app, IH.
  - intros i Hi. rewrite Forall_forall in HF. apply Forall_forall.
    intros v Hv. apply HF. apply in_flat_map. eauto.
Qed.

Lemma key_scatter {B : Type} (k0 : key) (Y : list B) (X : key -> list B)
    (keys : list key) :
  NoDup keys ->
  Permutation
    (flat_map (fun k => (if key_eqb k0 k then Y else []) ++ X k) keys)
    ((if in_dec key_eq_dec k0 keys then Y else []) ++ flat_map X keys).
Proof.
  induction 1 as [|k ks Hk Hnd IH]; cbn [flat_map].
  - destruct (in_dec key_eq_dec k0 []); [contradiction|constructor].
  - rewrite IH. clear IH.
    destruct (key_eq_dec k0 k) as [->|Hne].
    + rewrite key_eqb_refl.
      destruct (in_dec key_eq_dec k ks); [contradiction|].
      destruct (in_dec key_eq_dec k (k :: ks)) as [_|Hn];
        [|exfalso; apply Hn; now left].
      cbn [app]. now rewrite app_assoc.
    + rewrite (key_eqb_neq _ _ Hne). cbn [app].
      destruct (in_dec key_eq_dec k0 ks) as [Hin|Hin];
        destruct (in_dec key_eq_dec k0 (k :: ks)) as [Hin'|Hin'];
        cbn [app]; try reflexivity.
      * apply Permutation_app_swap_app.
      * exfalso. apply Hin'. now right.
      * exfalso. destruct Hin' as [->|Hin']; contradiction.
Qed.

(** The groups of a two-key grouping split the rows whose key is among the
    group keys. *)
Lemma key_partition (keyf : nat -> key) (keys : list key) (l : list nat) :
  NoDup keys ->
  Permutation
    (flat_map (fun k => filter (fun i => key_eqb (keyf i) k) l) keys)
    (filter (fun i => if in_dec key_eq_dec (keyf i) keys then true else false)
            l).
Proof.
  intros Hnd. induction l as [|a l IH].
  - cbn [filter]. clear Hnd. induction keys; cbn [flat_map app]; auto.
  - cbn [filter].
    rewrite (flat_map_ext _
               (fun k => (if key_eqb (keyf a) k then [a] else [])
                         ++ filter (fun i => key_eqb (keyf i) k) l))
      by (intros k; destruct (key_eqb (keyf a) k); reflexivity).
    rewrite key_scatter by assumption. rewrite IH.
    destruct (in_dec key_eq_dec (keyf a) keys); reflexivity.
Qed.

Lemma sum_of_group_values (xs : list Qc) (v : value) :
  match xs with [] => OK VNA | _ :: _ => OK (VNum (np_sum xs)) end = OK v ->
  np_sum (present [v]) = np_sum xs.
Proof.
  destruct xs as [|x xs]; intros [= <-]; [reflexivity|].
  cbn [present flat_map app]. apply np_sum_single.
Qed.

Lemma sum_over_groups {A : Type} (F : A -> list Qc) (groups : list A)
    (vals : list value) :
  Forall2 (fun g v => np_sum (present [v]) = np_sum (F g)) groups vals ->
  np_sum (present vals) = np_sum (flat_map F groups).
Proof.
  induction 1 as [|g v groups vals Hgv _ IH]; [reflexivity|].
  cbn [flat_map]. change (v :: vals) with ([v] ++ vals).
  rewrite present_app, !np_sum_app. now rewrite Hgv, IH.
Qed.

(** X16.  Under a rule that summarises by [sum] over columns of the table,
    the sums of the output column add up to the sum of all the numbers these
    columns hold in the records that have a device and a valid timestamp:
    binning counts no value in two bins and loses none. *)
Theorem sums_are_kept_by_binning
    (to_datetime : list value -> list value) (schedule : list rule)
    (df : DataFrame) (interval : string) (n : Z) (ts : list value)
    (out : DataFrame) (j : nat) (cfg : rule) (cs : list (list value)) :
  interval_magnitude interval = Some n ->
  get_column df TIME_COLUMN = OK ts ->
  snd (bin_data to_datetime schedule df interval) = OK out ->
  nth_error schedule j = Some cfg ->
  summarize_of cfg = "sum" ->
  mapM (get_column (fst (bin_data to_datetime schedule df interval)))
       (columns_of cfg) = OK cs ->
  let w := n * unit_ns (interval_unit interval) in
  exists devs name vals,
    get_column df DELINEATING_COL = OK devs
    /\ nth_error (columns out) (2 + j) = Some (name, vals)
    /\ np_sum (present vals)
       = np_sum
           (flat_map (fun i => present (map (fun vs => cell vs i) cs))
              (filter (fun i =>
                         key_notna
                           (cell devs i,
                            dt_floor w (cell (coerce_time to_datetime ts) i)))
                      (row_positions df))).
Proof.
  intros Hn Hts Hout Hj Hsum Hcs w.
  set (df' := fst (bin_data to_datetime schedule df interval)) in *.
  assert (Hne : schedule <> []) by (intros ->; destruct j; discriminate).
  pose proof (bin_data_shape _ _ _ _ _ _ _ Hn Hts Hne Hout) as S.
  cbv beta zeta in S. fold df' in S.
  destruct S as (groups & names & valss & Hg & Hlen & _ & HF & _ & Hcols).
  pose proof (binner_groups _ _ _ _ _ _ _ Hn Hts Hg) as G.
  cbv beta zeta in G. fold w in G.
  destruct G as (devs & Hdevs & Hnd & _ & Hin & Hidx).
  set (key_at := fun i => (cell devs i,
                           dt_floor w (cell (coerce_time to_datetime ts) i)))
    in *.
  destruct (Forall2_nth_error _ _ _ _ _ HF Hj) as (vals & Hvals & Hagg).
  rewrite Hsum in Hagg.
  destruct (nth_error names j) as [name|] eqn:Hname.
  2:{ apply nth_error_None in Hname.
      assert (j < List.length schedule)%nat
        by (apply nth_error_Some; congruence).
      lia. }
  set (cols := columns_of cfg) in *.
  set (rows := row_positions df) in *.
  set (F := fun i => present (map (fun vs => cell vs i) cs)).
  assert (Hsnd : forall g, In g groups ->
            snd g = filter (fun i => key_eqb (key_at i) (fst g)) rows).
  { intros [k idxs] Hg'. cbn [fst snd]. now apply Hidx. }
  assert (Hperm : Permutation (flat_map snd groups)
                    (filter (fun i => key_notna (key_at i)) rows)).
  { assert (E : flat_map snd groups
                = flat_map (fun k => filter (fun i => key_eqb (key_at i) k) rows)
                           (map fst groups)).
    { rewrite !flat_map_concat_map, map_map. f_equal.
      apply map_ext_in. exact Hsnd. }
    rewrite E, key_partition by exact Hnd.
    erewrite filter_ext_in; [reflexivity|].
    intros i Hi. cbv beta.
    destruct (in_dec key_eq_dec (key_at i) (map fst groups)) as [Hk|Hk].
    - apply Hin in Hk. symmetry. tauto.
    - destruct (key_notna (key_at i)) eqn:Ek; [|reflexivity].
      exfalso. apply Hk. apply Hin. split; [exact Ek|].
      exists i. split; [|reflexivity]. unfold rows, row_positions in Hi.
      apply in_seq in Hi. lia. }
  apply mapM_Forall2 in Hagg.
  assert (Hgroups : Forall2 (fun g v =>
             np_sum (present [v]) = np_sum (flat_map F (snd g))) groups vals).
  { eapply Forall2_impl; [|exact Hagg]. intros g v H. cbv beta in H.
    rewrite agg_func_contributing in H.
    destruct (contributing df' cols (snd g)) as [xs|e] eqn:Ex;
      [|discriminate].
    cbn [bind] in H.
    apply contributing_inv in Ex. destruct Ex as (cs' & Hcs' & -> & _).
    rewrite Hcs in Hcs'. injection Hcs' as <-.
    apply sum_of_group_values.
    destruct (flat_map _ (snd g)); exact H. }
  exists devs, name, vals. split; [exact Hdevs|]. split.
  - rewrite Hcols. cbn [Nat.add nth_error].
    now apply nth_error_combine.
  - rewrite (sum_over_groups _ _ _ Hgroups).
    apply np_sum_perm.
    assert (E : flat_map (fun g => flat_map F (snd g)) groups
                = flat_map F (flat_map snd groups)).
    { clear. induction groups as [|g groups IH]; [reflexivity|].
      cbn [flat_map]. now rewrite flat_map_app, IH. }
    rewrite E. now apply Permutation_flat_map.
Qed.

Lemma sums_are_kept_by_binning_witness :
  exists name vals,
    nth_error (columns long_totals) 2 = Some (name, vals)
    /\ np_sum (present vals) = Qc_of_Z 4.
Proof.
  destruct (sums_are_kept_by_binning to_datetime_strict sum_schedule
              long_sample "15 minutes" 15
              [at_minute 607; at_minute 615; at_minute 607]
              long_totals 0
              {| rule_id := 1; rule_name := Some "Total";
                 rule_columns := Some ["Act"];
                 rule_summarize := Some "sum" |}
              [[num 1; num 3; VNA]])
    as (devs & name & vals & Hdevs & Hcol & Hsum);
    try (vm_compute; reflexivity).
  exists name, vals. split; [exact Hcol|].
  rewrite Hsum. vm_compute in Hdevs. injection Hdevs as <-.
  vm_compute. reflexivity.
Defined.

Lemma binned_file_names_tell_settings_apart_witness :
  contains " " (file_name (panel_interval 15 true false)) = false
  /\ unit_text true false = unit_text true false.
Proof.
  destruct (binned_file_names_tell_settings_apart 15 15 true false true false)
    as [H1 H2].
  split; [exact H1|]. apply H2. reflexivity.
Defined.

(** * The reducers of one group *)







